(** * go-period: ISO-8601 periods over Go's [int] and [time] package

    A shallow embedding of [period.go] (package [planner]) and of the parts
    of Go's standard library it calls, followed by the properties of the
    specification that were checked against it. *)

From Stdlib Require Import ZArith Lia List String Ascii Bool DecimalString.
From Stdlib Require DecimalPos DecimalZ.
Import ListNotations.
Local Open Scope Z_scope.

(** ** Go's [int]

    [int] is [strconv.IntSize] bits wide: 32 or 64 depending on the
    platform.  Values are mathematical integers kept inside the signed
    range by [wrap]; [/] and [%] truncate toward zero. *)

Inductive WordSize : Set := W32 | W64.

Definition IntSize (w : WordSize) : Z :=
  match w with W32 => 32 | W64 => 64 end.

Module GoInt.

Definition half (bits : Z) : Z := 2 ^ (bits - 1).

Definition wrapBits (bits x : Z) : Z :=
  (x + half bits) mod (2 ^ bits) - half bits.

Section Int.
Variable w : WordSize.

Definition maxInt : Z := half (IntSize w) - 1.
Definition minInt : Z := - half (IntSize w).
Definition wrap (x : Z) : Z := wrapBits (IntSize w) x.
Definition inRange (x : Z) : Prop := minInt <= x <= maxInt.

Definition add (x y : Z) : Z := wrap (x + y).
Definition sub (x y : Z) : Z := wrap (x - y).
Definition mul (x y : Z) : Z := wrap (x * y).
Definition neg (x : Z) : Z := wrap (- x).
Definition quot (x y : Z) : Z := wrap (Z.quot x y).
Definition rem (x y : Z) : Z := Z.rem x y.
End Int.

End GoInt.

(** 64-bit integers ([int64], [time.Duration]). *)
Definition wrap64 (x : Z) : Z := GoInt.wrapBits 64 x.
Definition maxInt64 : Z := 9223372036854775807.
Definition minInt64 : Z := -9223372036854775808.
Definition inInt64 (x : Z) : Prop := minInt64 <= x <= maxInt64.

(** ** The Period value type *)

Record Period : Set := mkPeriod {
  Years   : Z;
  Months  : Z;
  Weeks   : Z;
  Days    : Z;
  Hours   : Z;
  Minutes : Z;
  Seconds : Z
}.

(** [Period{}]: every field zero. *)
Definition zeroPeriod : Period := mkPeriod 0 0 0 0 0 0 0.

(** A Period as a Go value: every field is an [int]. *)
Definition wfPeriod (w : WordSize) (p : Period) : Prop :=
  GoInt.inRange w (Years p) /\ GoInt.inRange w (Months p) /\
  GoInt.inRange w (Weeks p) /\ GoInt.inRange w (Days p) /\
  GoInt.inRange w (Hours p) /\ GoInt.inRange w (Minutes p) /\
  GoInt.inRange w (Seconds p).

(** Field-wise negation, with Go's unary minus on [int]. *)
Definition negPeriod (w : WordSize) (p : Period) : Period :=
  mkPeriod (GoInt.neg w (Years p)) (GoInt.neg w (Months p))
           (GoInt.neg w (Weeks p)) (GoInt.neg w (Days p))
           (GoInt.neg w (Hours p)) (GoInt.neg w (Minutes p))
           (GoInt.neg w (Seconds p)).

Definition goAbs (w : WordSize) (x : Z) : Z :=
  if x <? 0 then GoInt.neg w x else x.

(** Field-wise absolute value. *)
Definition absPeriod (w : WordSize) (p : Period) : Period :=
  mkPeriod (goAbs w (Years p)) (goAbs w (Months p))
           (goAbs w (Weeks p)) (goAbs w (Days p))
           (goAbs w (Hours p)) (goAbs w (Minutes p))
           (goAbs w (Seconds p)).

Definition nonNegPeriod (p : Period) : Prop :=
  0 <= Years p /\ 0 <= Months p /\ 0 <= Weeks p /\ 0 <= Days p /\
  0 <= Hours p /\ 0 <= Minutes p /\ 0 <= Seconds p.

Definition nonPosPeriod (p : Period) : Prop :=
  Years p <= 0 /\ Months p <= 0 /\ Weeks p <= 0 /\ Days p <= 0 /\
  Hours p <= 0 /\ Minutes p <= 0 /\ Seconds p <= 0.

(** [HasDatePart] and [HasTimePart]. *)
Definition nonzero (x : Z) : bool := negb (x =? 0).

Definition HasDatePart (period : Period) : bool :=
  nonzero (Years period) || nonzero (Months period) ||
  nonzero (Weeks period) || nonzero (Days period).

Definition HasTimePart (period : Period) : bool :=
  nonzero (Hours period) || nonzero (Minutes period) ||
  nonzero (Seconds period).

(** ** Normalize *)

Section Normalize.
Variable w : WordSize.

Let add := GoInt.add w.
Let mul := GoInt.mul w.
Let quot := GoInt.quot w.
Let rem := GoInt.rem.

(** The minute count after the seconds carry, before its own reduction
    ([minutes := period.Seconds/60 + period.Minutes]). *)
Definition carryMinutes (period : Period) : Z :=
  add (quot (Seconds period) 60) (Minutes period).

(** The hour count after the minutes carry
    ([minutes/60 + period.Hours]). *)
Definition carryHours (period : Period) : Z :=
  add (quot (carryMinutes period) 60) (Hours period).

Definition Normalize (period : Period) : Period :=
  let seconds := rem (Seconds period) 60 in
  let minutes := carryMinutes period in
  let '(minutes, hours) := (rem minutes 60, carryHours period) in
  let '(hours, days) :=
    (rem hours 24,
     add (add (quot hours 24) (Days period)) (mul (Weeks period) 7)) in
  let '(months, years) :=
    (rem (Months period) 12,
     add (quot (Months period) 12) (Years period)) in
  mkPeriod years months 0 days hours minutes seconds.

End Normalize.

(** The period of [TestPeriodNormalize]. *)
Definition testPeriod : Period := mkPeriod 1 15 2 31 27 73 91.

(** The carries of a period with non-negative fields stay inside [int]. *)
Definition carriesFit (w : WordSize) (p : Period) : Prop :=
  Seconds p / 60 + Minutes p <= GoInt.maxInt w /\
  (Seconds p / 60 + Minutes p) / 60 + Hours p <= GoInt.maxInt w /\
  ((Seconds p / 60 + Minutes p) / 60 + Hours p) / 24 + Days p + Weeks p * 7
    <= GoInt.maxInt w /\
  Months p / 12 + Years p <= GoInt.maxInt w.

(** Negation is exact on the values Normalize divides: the seconds, the
    months and the two carries differ from the least [int]. *)
Definition negationExact (w : WordSize) (p : Period) : Prop :=
  Seconds p <> GoInt.minInt w /\ Months p <> GoInt.minInt w /\
  carryMinutes w p <> GoInt.minInt w /\ carryHours w p <> GoInt.minInt w.

(** ** Errors and results

    The package's two error values, and the range error of
    [strconv.Atoi] that FromString passes on.  A Go result
    (a pointer to a Period and an error) is either a value with a nil error or nil with an
    error: every [return] of the package has one of these two forms. *)

Inductive error : Set :=
| errPeriodOverflow
| errPeriodBadFormat
| errAtoiSyntax (s : string)
| errAtoiRange (s : string).

Inductive result (A : Type) : Type :=
| Ok (a : A)
| Err (e : error).
Arguments Ok {A} a.
Arguments Err {A} e.

(** ** FromDuration

    [time.Duration] is an [int64] count of nanoseconds. *)

Definition Nanosecond : Z := 1.
Definition Microsecond : Z := 1000 * Nanosecond.
Definition Millisecond : Z := 1000 * Microsecond.
Definition Second : Z := 1000 * Millisecond.
Definition Minute : Z := 60 * Second.
Definition Hour : Z := 60 * Minute.

(** The whole seconds of a duration ([duration / time.Second]). *)
Definition durationSeconds (duration : Z) : Z :=
  wrap64 (Z.quot duration Second).

Definition FromDuration (w : WordSize) (duration : Z) : result Period :=
  let seconds := durationSeconds duration in
  let maxSeconds := wrap64 (2 ^ (IntSize w - 1) - 1) in
  if seconds >? maxSeconds then Err errPeriodOverflow
  else Ok (Normalize w (mkPeriod 0 0 0 0 0 0 (GoInt.wrap w seconds))).

(** ** Decimal text: [strconv.Atoi] and the template's printing of an [int]

    Go strings are byte sequences: [string] with one [ascii] per byte. *)

Local Open Scope string_scope.

Definition isDigit (c : ascii) : bool :=
  match uint_of_char c (Some Decimal.Nil) with
  | Some _ => true
  | None => false
  end.

Fixpoint allDigits (s : string) : bool :=
  match s with
  | EmptyString => true
  | String c s' => isDigit c && allDigits s'
  end.

(** [strconv.Atoi]: an optional sign and one or more decimal digits; a
    value outside [int] is a range error, anything else a syntax error. *)
Definition Atoi (w : WordSize) (s : string) : result Z :=
  let '(negative, body) :=
    match s with
    | String "-" r => (true, r)
    | String "+" r => (false, r)
    | _ => (false, s)
    end in
  match NilZero.uint_of_string body with
  | None => Err (errAtoiSyntax s)
  | Some u =>
      let n := if negative then (- Z.of_uint u)%Z else Z.of_uint u in
      if ((GoInt.minInt w <=? n) && (n <=? GoInt.maxInt w))%Z then Ok n
      else Err (errAtoiRange s)
  end.

(** The text of an [int] in the output of the template: its decimal
    digits, after a minus sign when negative. *)
Definition formatInt (x : Z) : string := NilZero.string_of_int (Z.to_int x).

(** ** String: the template [tmplPeriod] *)

(** [{{if .F}}{{.F}}c{{end}}] *)
Definition tmplField (x : Z) (c : ascii) : string :=
  if nonzero x then formatInt x ++ String c "" else "".

Definition PeriodString (period : Period) : string :=
  "P" ++ tmplField (Years period) "Y"
      ++ tmplField (Months period) "M"
      ++ tmplField (Weeks period) "W"
      ++ tmplField (Days period) "D"
      ++ (if HasTimePart period then "T" else "")
      ++ tmplField (Hours period) "H"
      ++ tmplField (Minutes period) "M"
      ++ tmplField (Seconds period) "S".

(** ** Regular expressions

    The constructs of [regexpPeriod] and [regexpWeek], matched as Go's
    [regexp] does from the start of the text: leftmost-first, an optional
    group and [\d+] taking as much as they can before giving back.  The
    continuation receives the rest of the text and the submatches. *)

Inductive regex : Set :=
| Lit (c : ascii)
| Digits
| Cat (r1 r2 : regex)
| Opt (r : regex)
| Group (i : nat) (r : regex).

Definition orElse {A : Type} (x y : option A) : option A :=
  match x with Some a => Some a | None => y end.

Fixpoint setNth (i : nat) (x : string) (l : list string) : list string :=
  match l, i with
  | [], _ => []
  | _ :: t, O => x :: t
  | h :: t, S j => h :: setNth j x t
  end.

(** The part of [s] read when [rest] is what is left of it. *)
Definition consumed (s rest : string) : string :=
  substring 0 (String.length s - String.length rest) s.

Section Matcher.
Context {A : Type}.

(** [\d+] *)
Fixpoint matchDigits (s : string) (k : string -> option A) : option A :=
  match s with
  | EmptyString => None
  | String c s' =>
      if isDigit c then orElse (matchDigits s' k) (k s') else None
  end.

Fixpoint matchRegex (r : regex) (s : string) (caps : list string)
    (k : string -> list string -> option A) : option A :=
  match r with
  | Lit c =>
      match s with
      | String c' s' => if Ascii.eqb c' c then k s' caps else None
      | EmptyString => None
      end
  | Digits => matchDigits s (fun s' => k s' caps)
  | Cat r1 r2 =>
      matchRegex r1 s caps (fun s' caps' => matchRegex r2 s' caps' k)
  | Opt r1 => orElse (matchRegex r1 s caps k) (k s caps)
  | Group i r1 =>
      matchRegex r1 s caps
        (fun s' caps' => k s' (setNth i (consumed s s') caps'))
  end.
End Matcher.

(** A compiled pattern [^r$] with the names of its groups
    ([SubexpNames]; the empty name for group 0 and for unnamed groups). *)
Record Regexp : Set := mkRegexp {
  pattern : regex;
  SubexpNames : list string
}.

(** [FindStringSubmatch]: the text of the match and of each group, the
    empty text for a group that took no part; [None] for Go's nil. *)
Definition FindStringSubmatch (re : Regexp) (str : string)
  : option (list string) :=
  matchRegex (pattern re) str (repeat "" (List.length (SubexpNames re)))
    (fun rest caps =>
       match rest with
       | EmptyString => Some (setNth 0 str caps)
       | _ => None
       end).

(** [((?P<name>\d+)c)?] with groups [i] and [i+1]. *)
Definition unitGroup (i : nat) (c : ascii) : regex :=
  Group i (Cat (Group (S i) Digits) (Lit c)).

Definition regexpPeriod : Regexp :=
  mkRegexp
    (Cat (Lit "P")
    (Cat (Opt (unitGroup 1 "Y"))
    (Cat (Opt (unitGroup 3 "M"))
    (Cat (Opt (unitGroup 5 "D"))
         (Opt (Group 7
            (Cat (Lit "T")
            (Cat (Opt (unitGroup 8 "H"))
            (Cat (Opt (unitGroup 10 "M"))
                 (Opt (unitGroup 12 "S")))))))))))
    [""; ""; "year"; ""; "month"; ""; "day"; "";
     ""; "hour"; ""; "minute"; ""; "second"].

Definition regexpWeek : Regexp :=
  mkRegexp (Cat (Lit "P") (unitGroup 1 "W")) [""; ""; "week"].

(** ** FromString *)

(** The [switch name] of the loop. *)
Definition setField (name : string) (val : Z) (period : Period) : Period :=
  let '(mkPeriod y mo wk d h mi s) := period in
  if String.eqb name "year" then mkPeriod val mo wk d h mi s
  else if String.eqb name "month" then mkPeriod y val wk d h mi s
  else if String.eqb name "week" then mkPeriod y mo val d h mi s
  else if String.eqb name "day" then mkPeriod y mo wk val h mi s
  else if String.eqb name "hour" then mkPeriod y mo wk d val mi s
  else if String.eqb name "minute" then mkPeriod y mo wk d h val s
  else if String.eqb name "second" then mkPeriod y mo wk d h mi val
  else period.

(** The loop [for i, name := range re.SubexpNames()], from index [i]. *)
Fixpoint fillFields (w : WordSize) (match_ : list string) (i : nat)
    (names : list string) (period : Period) : result Period :=
  match names with
  | [] => Ok period
  | name :: names' =>
      let part := nth i match_ "" in
      if Nat.eqb i 0 || String.eqb name "" || String.eqb part "" then
        fillFields w match_ (S i) names' period
      else
        match Atoi w part with
        | Err e => Err e
        | Ok val => fillFields w match_ (S i) names' (setField name val period)
        end
  end.

Definition FromString (w : WordSize) (str : string) : result Period :=
  let '(match_, re) :=
    match FindStringSubmatch regexpWeek str with
    | Some m => (Some m, regexpWeek)
    | None => (FindStringSubmatch regexpPeriod str, regexpPeriod)
    end in
  match match_ with
  | None => Err errPeriodBadFormat
  | Some m => fillFields w m 0 (SubexpNames re) zeroPeriod
  end.

(** ** The textual grammar, in the words of the specification

    [P[nY][nM][nD][T[nH][nM][nS]]] or [PnW], each [n] one or more decimal
    digits. *)

Definition number (ds : string) : Prop :=
  ds <> "" /\ allDigits ds = true.

(** An optional block [nc]. *)
Definition unitText (c : ascii) (u : string) : Prop :=
  u = "" \/ exists ds, number ds /\ u = ds ++ String c "".

Definition timeText (t : string) : Prop :=
  t = "" \/
  exists h mi se, unitText "H" h /\ unitText "M" mi /\ unitText "S" se /\
                  t = "T" ++ h ++ mi ++ se.

Definition periodText (s : string) : Prop :=
  exists y m d t, unitText "Y" y /\ unitText "M" m /\ unitText "D" d /\
                  timeText t /\ s = "P" ++ y ++ m ++ d ++ t.

Definition weekText (s : string) : Prop :=
  exists ds, number ds /\ s = "P" ++ ds ++ "W".

(** The value of a number of the grammar. *)
Definition numberValue (ds : string) : Z :=
  match NilZero.uint_of_string ds with
  | Some u => Z.of_uint u
  | None => 0
  end.

(** The longest prefix of digits and what follows it. *)
Fixpoint spanDigits (s : string) : string * string :=
  match s with
  | EmptyString => ("", "")
  | String c s' =>
      if isDigit c then
        let '(ds, rest) := spanDigits s' in (String c ds, rest)
      else ("", s)
  end.

(** A leading block [nc] and what follows it. *)
Definition splitUnit (c : ascii) (s : string) : option (string * string) :=
  match spanDigits s with
  | (String d ds, String c' rest) =>
      if Ascii.eqb c' c then Some (String d ds, rest) else None
  | _ => None
  end.

(** An optional block given by its digits. *)
Definition unitStr (c : ascii) (o : option string) : string :=
  match o with Some ds => ds ++ String c "" | None => "" end.

Definition digitsStr (o : option string) : string :=
  match o with Some ds => ds | None => "" end.

Definition validOpt (o : option string) : Prop :=
  match o with Some ds => number ds | None => True end.

Definition optValue (o : option string) : Z :=
  match o with Some ds => numberValue ds | None => 0 end.

(** The time part [T[nH][nM][nS]], when present. *)
Definition timeStr (ot : option (option string * option string * option string))
  : string :=
  match ot with
  | Some (oh, omi, ose) => "T" ++ unitStr "H" oh ++ unitStr "M" omi ++ unitStr "S" ose
  | None => ""
  end.

Definition periodStr (oy om od : option string)
    (ot : option (option string * option string * option string)) : string :=
  "P" ++ unitStr "Y" oy ++ unitStr "M" om ++ unitStr "D" od ++ timeStr ot.

Definition validTime (ot : option (option string * option string * option string))
  : Prop :=
  match ot with
  | Some (oh, omi, ose) => validOpt oh /\ validOpt omi /\ validOpt ose
  | None => True
  end.

Definition timeHour (ot : option (option string * option string * option string)) :=
  match ot with Some (oh, _, _) => oh | None => None end.
Definition timeMinute (ot : option (option string * option string * option string)) :=
  match ot with Some (_, omi, _) => omi | None => None end.
Definition timeSecond (ot : option (option string * option string * option string)) :=
  match ot with Some (_, _, ose) => ose | None => None end.

(** The submatches of [regexpPeriod] on such a text. *)
Definition periodSubmatches (oy om od : option string)
    (ot : option (option string * option string * option string))
  : list string :=
  [periodStr oy om od ot;
   unitStr "Y" oy; digitsStr oy; unitStr "M" om; digitsStr om;
   unitStr "D" od; digitsStr od; timeStr ot;
   unitStr "H" (timeHour ot); digitsStr (timeHour ot);
   unitStr "M" (timeMinute ot); digitsStr (timeMinute ot);
   unitStr "S" (timeSecond ot); digitsStr (timeSecond ot)].

Definition startsDigit (s : string) : bool :=
  match s with String c _ => isDigit c | EmptyString => false end.

(** One named submatch of the loop of FromString: left out, or converted
    and stored. *)
Definition applyPart (w : WordSize) (name : string) (o : option string)
    (r : result Period) : result Period :=
  match r, o with
  | Err e, _ => Err e
  | Ok p, None => Ok p
  | Ok p, Some ds =>
      match Atoi w ds with
      | Ok v => Ok (setField name v p)
      | Err e => Err e
      end
  end.

(** What FromString makes of a text of the grammar, block by block. *)
Definition periodOfText (w : WordSize) (oy om od : option string)
    (ot : option (option string * option string * option string))
  : result Period :=
  applyPart w "second" (timeSecond ot)
    (applyPart w "minute" (timeMinute ot)
      (applyPart w "hour" (timeHour ot)
        (applyPart w "day" od
          (applyPart w "month" om
            (applyPart w "year" oy (Ok zeroPeriod)))))).

(** The range error of Atoi on a number of the grammar that does not fit
    [int]. *)
Definition rangeError (w : WordSize) (e : error) : Prop :=
  exists ds, number ds /\ (GoInt.maxInt w < numberValue ds)%Z /\
             e = errAtoiRange ds.

(** The block the template prints for a field: none for zero. *)
Definition optOf (x : Z) : option string :=
  if nonzero x then Some (formatInt x) else None.

(** A period that the grammar can express: no weeks, or weeks only. *)
Definition weeksExclusive (p : Period) : Prop :=
  Weeks p = 0%Z \/
  (Years p = 0 /\ Months p = 0 /\ Days p = 0 /\
   Hours p = 0 /\ Minutes p = 0 /\ Seconds p = 0)%Z.

(** ** Go's [time] package

    The package is modelled on mathematical integers, as it behaves on
    the instants it represents exactly: an instant is a count of seconds
    since the Unix epoch and a count of nanoseconds within the second;
    the calendar is the proleptic Gregorian one; a [time.Duration] is an
    [int64] count of nanoseconds.

    The package itself keeps the seconds of an instant in an [int64],
    counted from 1 January of year 1, and [Sub] gives the greatest or
    the least duration when adding the difference back does not give
    the instant again.  The model has no such wrap-around of the seconds:
    it is exact where the seconds since the Unix epoch and those since
    year 1 both fit [int64] ([representable] below), which holds for
    the years from -292277022399 to 292277022399 in zones whose offsets
    are within a day, and for all instants within 2^54 seconds of the
    Unix epoch.  The properties of [Date], [DaysInYear], [DaysInMonth],
    [Between] and [Apply] are stated within these bounds; outside them
    (a zone of an offset of thousands of millions of years, say) the
    model and the package differ. *)

Local Open Scope Z_scope.

(** A location: the offset (seconds east of UTC) in force before the
    first transition, and the transitions in increasing order of their
    instant, each with the offset it starts. *)
Record Location : Set := mkLocation {
  zoneOffset0 : Z;
  transitions : list (Z * Z)
}.

Definition UTC : Location := mkLocation 0 [].

(** [time.FixedZone]. *)
Definition FixedZone (offset : Z) : Location := mkLocation offset [].

Record Time : Set := mkTime {
  unixSec : Z;
  nsec : Z;
  Time_Location : Location
}.

Definition alpha : Z := minInt64.
Definition omega : Z := maxInt64.

(** The offset in force at an instant and the bounds of its period. *)
Fixpoint lookupFrom (offset start : Z) (tx : list (Z * Z)) (sec : Z)
  : Z * Z * Z :=
  match tx with
  | [] => (offset, start, omega)
  | (when, offset') :: tx' =>
      if sec <? when then (offset, start, when)
      else lookupFrom offset' when tx' sec
  end.

Definition lookup (loc : Location) (sec : Z) : Z * Z * Z :=
  lookupFrom (zoneOffset0 loc) alpha (transitions loc) sec.

Definition zoneOffset (loc : Location) (sec : Z) : Z :=
  fst (fst (lookup loc sec)).

(** *** The calendar *)

Definition isLeap (year : Z) : bool :=
  (year mod 4 =? 0) && (negb (year mod 100 =? 0) || (year mod 400 =? 0)).

(** [daysBefore[m]]: the days of a common year before month [m+1]. *)
Definition daysBefore (m : Z) : Z :=
  nth (Z.to_nat m) [0; 31; 59; 90; 120; 151; 181; 212; 243; 273; 304; 334; 365] 0.

(** Days from 1 January of year 1 to 1 January of [year]. *)
Definition daysBeforeYear (year : Z) : Z :=
  let y := year - 1 in
  365 * y + y / 4 - y / 100 + y / 400.

(** Days from 1 January of year 1 to the Unix epoch. *)
Definition unixEpochDays : Z := 719162.

Definition secondsPerDay : Z := 86400.
Definition daysPer400Years : Z := 146097.
Definition daysPer100Years : Z := 36524.
Definition daysPer4Years : Z := 1461.

(** Days since the Unix epoch of a calendar date. *)
Definition daysOfDate (year month day : Z) : Z :=
  daysBeforeYear year + daysBefore (month - 1)
  + (if isLeap year && (3 <=? month) then 1 else 0)
  + (day - 1) - unixEpochDays.

(** [norm hi lo base]: [lo] brought into [0, base), the excess moved to
    [hi]. *)
Definition norm (hi lo base : Z) : Z * Z := (hi + lo / base, lo mod base).

(** [time.Date], on the dates whose instant is [representable]. *)
Definition Date (year month day hour min sec nsec_ : Z) (loc : Location)
  : Time :=
  let m := month - 1 in
  let '(year, m) := norm year m 12 in
  let month := m + 1 in
  let '(sec, nsec_) := norm sec nsec_ 1000000000 in
  let '(min, sec) := norm min sec 60 in
  let '(hour, min) := norm hour min 60 in
  let '(day, hour) := norm day hour 24 in
  let d := daysOfDate year month day in
  let unix := d * secondsPerDay + hour * 3600 + min * 60 + sec in
  let '(offset, start, end_) := lookup loc unix in
  let unix :=
    if offset =? 0 then unix
    else
      let utc := unix - offset in
      let offset :=
        if (utc <? start) || (end_ <=? utc) then zoneOffset loc utc
        else offset in
      unix - offset in
  mkTime unix nsec_ loc.

(** The year and the day of the year (from 0) of a count of days since
    1 January of year 1, by cycles of 400, 100, 4 and 1 years. *)
Definition yearOfDays (d : Z) : Z * Z :=
  let n400 := d / daysPer400Years in
  let d := d - daysPer400Years * n400 in
  let n100 := d / daysPer100Years in
  let n100 := n100 - Z.shiftr n100 2 in
  let d := d - daysPer100Years * n100 in
  let n4 := d / daysPer4Years in
  let d := d - daysPer4Years * n4 in
  let n1 := d / 365 in
  let n1 := n1 - Z.shiftr n1 2 in
  let d := d - 365 * n1 in
  (400 * n400 + 100 * n100 + 4 * n4 + n1 + 1, d).

(** The month and the day of the month of a day of the year. *)
Definition monthDayOf (leap : bool) (yday : Z) : Z * Z :=
  if leap && (yday =? 31 + 29 - 1) then (2, 29)
  else
    let day := if leap && (yday >? 31 + 29 - 1) then yday - 1 else yday in
    let month := day / 31 in
    let end_ := daysBefore (month + 1) in
    let '(month, begin) :=
      if end_ <=? day then (month + 1, end_) else (month, daysBefore month) in
    (month + 1, day - begin + 1).

(** Seconds of local time since the Unix epoch. *)
Definition localSec (t : Time) : Z :=
  unixSec t + zoneOffset (Time_Location t) (unixSec t).

Definition civilOfDays (d : Z) : Z * Z * Z :=
  let '(year, yday) := yearOfDays (d + unixEpochDays) in
  let '(month, day) := monthDayOf (isLeap year) yday in
  (year, month, day).

Section TimeMethods.
Variable w : WordSize.

(** [t.Date()] *)
Definition Time_Date (t : Time) : Z * Z * Z :=
  let '(year, month, day) := civilOfDays (localSec t / secondsPerDay) in
  (GoInt.wrap w year, month, day).

(** [t.Clock()] *)
Definition Time_Clock (t : Time) : Z * Z * Z :=
  let s := localSec t mod secondsPerDay in
  (s / 3600, (s mod 3600) / 60, s mod 60).

Definition Time_Hour (t : Time) : Z := fst (fst (Time_Clock t)).
Definition Time_Minute (t : Time) : Z := snd (fst (Time_Clock t)).
Definition Time_Second (t : Time) : Z := snd (Time_Clock t).
Definition Time_Nanosecond (t : Time) : Z := nsec t.

Definition Time_In (t : Time) (loc : Location) : Time :=
  mkTime (unixSec t) (nsec t) loc.

Definition Time_Equal (t u : Time) : bool :=
  (unixSec t =? unixSec u) && (nsec t =? nsec u).

(** [t.Sub(u)]: the duration [t-u], or the greatest or least duration
    when it does not fit. *)
Definition Time_Sub (t u : Time) : Z :=
  let d := (unixSec t - unixSec u) * Second + (nsec t - nsec u) in
  if d <? minInt64 then minInt64
  else if maxInt64 <? d then maxInt64
  else d.

(** [t.Add(d)] *)
Definition Time_Add (t : Time) (d : Z) : Time :=
  let dsec := Z.quot d 1000000000 in
  let nsec_ := nsec t + Z.rem d 1000000000 in
  let '(dsec, nsec_) :=
    if 1000000000 <=? nsec_ then (dsec + 1, nsec_ - 1000000000)
    else if nsec_ <? 0 then (dsec - 1, nsec_ + 1000000000)
    else (dsec, nsec_) in
  mkTime (unixSec t + dsec) nsec_ (Time_Location t).

(** ** DaysInYear and DaysInMonth *)

Definition DaysInYear (year : Z) (loc : Location) : Z :=
  let end_ := Date (GoInt.add w year 1) 1 1 0 0 0 0 loc in
  let start := Date year 1 1 0 0 0 0 loc in
  let duration := Time_Sub end_ start in
  GoInt.wrap w (wrap64 (Z.quot duration (wrap64 (Hour * 24)))).

Definition DaysInMonth (year month : Z) (loc : Location) : Z :=
  let end_ := Date year (GoInt.add w month 1) 1 0 0 0 0 loc in
  let start := Date year month 1 0 0 0 0 loc in
  let duration := Time_Sub end_ start in
  GoInt.wrap w (wrap64 (Z.quot duration (wrap64 (Hour * 24)))).

(** ** Between *)

(** The four steps that let components flow into each other. *)
Definition flowSeconds (minutes seconds : Z) : Z * Z :=
  if (minutes >? 0) && (seconds <? 0) then
    (GoInt.sub w minutes 1, GoInt.add w seconds 60)
  else if (minutes <? 0) && (seconds >? 0) then
    (GoInt.add w minutes 1, GoInt.sub w seconds 24)
  else (minutes, seconds).

Definition flowMinutes (hours minutes : Z) : Z * Z :=
  if (hours >? 0) && (minutes <? 0) then
    (GoInt.sub w hours 1, GoInt.add w minutes 60)
  else if (hours <? 0) && (minutes >? 0) then
    (GoInt.add w hours 1, GoInt.sub w minutes 60)
  else (hours, minutes).

Definition flowHours (days hours : Z) : Z * Z :=
  if (days >? 0) && (hours <? 0) then
    (GoInt.sub w days 1, GoInt.add w hours 24)
  else if (days <? 0) && (hours >? 0) then
    (GoInt.add w days 1, GoInt.sub w hours 24)
  else (days, hours).

Definition flowMonths (years months : Z) : Z * Z :=
  if (years >? 0) && (months <? 0) then
    (GoInt.sub w years 1, GoInt.add w months 12)
  else if (years <? 0) && (months >? 0) then
    (GoInt.add w years 1, GoInt.sub w months 12)
  else (years, months).

(** The whole pass, on the components computed from the two dates. *)
Definition flow (years months days hours minutes seconds : Z) : Period :=
  let '(minutes, seconds) := flowSeconds minutes seconds in
  let '(hours, minutes) := flowMinutes hours minutes in
  let '(days, hours) := flowHours days hours in
  let '(years, months) := flowMonths years months in
  mkPeriod years months 0 days hours minutes seconds.

Definition Between (start end_ : Time) (loc : Location) : Period :=
  if Time_Equal start end_ then zeroPeriod
  else
    let start := Time_In start loc in
    let end_ := Time_In end_ loc in
    let '(year1, month1, day1) := Time_Date start in
    let '(year2, month2, day2) := Time_Date end_ in
    let years := GoInt.sub w year2 year1 in
    let months := GoInt.sub w month2 month1 in
    let days := GoInt.sub w day2 day1 in
    let '(hour, minute, second) := Time_Clock start in
    let adjusted :=
      Date (GoInt.add w year1 years) (GoInt.add w month1 months)
           (GoInt.add w day1 days) hour minute second 0 loc in
    let diff := Time_Sub end_ adjusted in
    let hours := GoInt.wrap w (wrap64 (Z.quot diff Hour)) in
    let minutes := GoInt.wrap w (wrap64 (Z.quot (Z.rem diff Hour) Minute)) in
    let seconds :=
      GoInt.wrap w
        (wrap64 (Z.quot (Z.rem (Z.rem diff Hour) Minute) Second)) in
    flow years months days hours minutes seconds.

(** ** Apply *)

Definition Apply (period : Period) (t : Time) : Time :=
  let '(year, month, day) := Time_Date t in
  let '(hour, minute, second, nanos) :=
    (Time_Hour t, Time_Minute t, Time_Second t, Time_Nanosecond t) in
  let duration :=
    wrap64 (wrap64 (wrap64 (Hour * Hours period)
                    + wrap64 (Minute * Minutes period))
            + wrap64 (Second * Seconds period)) in
  Time_Add
    (Date (GoInt.add w year (Years period))
          (GoInt.add w month (Months period))
          (GoInt.add w day (Days period))
          hour minute second nanos (Time_Location t))
    duration.

End TimeMethods.

(** *** Locations used in the tests and examples *)

(** Europe/Amsterdam as in force in 2017: CET, with summer time from
    26 March 01:00 UTC to 29 October 01:00 UTC. *)
Definition Amsterdam : Location :=
  mkLocation 3600 [(1490490000, 7200); (1509238800, 3600)].

(** Asia/Pyongyang as in force from August 2015: UTC+8:30, and UTC+9
    again from 4 May 2018 15:00 UTC. *)
Definition Pyongyang : Location :=
  mkLocation 30600 [(1525446000, 32400)].

(** The days of a month. *)
Definition daysIn (leap : bool) (month : Z) : Z :=
  if leap && (month =? 2) then 29 else daysBefore month - daysBefore (month - 1).

(** [monthDayOf] gives a date of the year that lies [yday] days after
    1 January. *)
Definition monthDayOk (leap : bool) (yday : Z) : bool :=
  let '(m, d) := monthDayOf leap yday in
  (1 <=? m) && (m <=? 12) && (1 <=? d) && (d <=? daysIn leap m)
  && (daysBefore (m - 1) + (if leap && (3 <=? m) then 1 else 0) + (d - 1)
      =? yday).

(** The offset [time.Date] subtracts from the seconds of the local time
    it is given. *)
Definition dateOffset (loc : Location) (unix : Z) : Z :=
  let '(offset, start, end_) := lookup loc unix in
  if offset =? 0 then 0
  else
    let utc := unix - offset in
    if (utc <? start) || (end_ <=? utc) then zoneOffset loc utc else offset.

(** Every offset of the location is within a day. *)
Definition boundedLocation (loc : Location) : Prop :=
  Z.abs (zoneOffset0 loc) <= 86400 /\
  Forall (fun tx => Z.abs (snd tx) <= 86400) (transitions loc).

(** The years the model of the time package stands for (the package
    counts from its absolute zero year, -292277022399), that are [int]s
    with an [int] successor. *)
Definition representableYear (w : WordSize) (year : Z) : Prop :=
  GoInt.minInt w <= year < GoInt.maxInt w /\
  -292277022399 <= year <= 292277022399.

(** Timestamps with no fraction of a second, and timestamps within
    2^54 seconds of the Unix epoch (some 570 million years), whose years
    and differences of years are [int]s on every platform. *)
Definition wholeSecond (t : Time) : Prop := nsec t = 0.

Definition inEra (t : Time) : Prop :=
  Z.abs (unixSec t) <= 18014398509481984 /\ 0 <= nsec t < 1000000000.

(** Hours, minutes and seconds of a count of seconds, each truncated
    toward zero. *)
Definition clockParts (delta : Z) : Z * Z * Z :=
  (Z.quot delta 3600, Z.quot (Z.rem delta 3600) 60,
   Z.rem (Z.rem delta 3600) 60).

(** Years and months without opposite signs, and days and hours. *)
Definition signsAgree (p : Period) : Prop :=
  ~ (0 < Years p /\ Months p < 0) /\ ~ (Years p < 0 /\ 0 < Months p) /\
  ~ (0 < Days p /\ Hours p < 0) /\ ~ (Days p < 0 /\ 0 < Hours p).

(** ** Conditions of the further properties *)

(** The sums Normalize forms, taken exactly, are [int]s (fields of
    either sign). *)
Definition carriesExact (w : WordSize) (p : Period) : Prop :=
  let m := Z.quot (Seconds p) 60 + Minutes p in
  let h := Z.quot m 60 + Hours p in
  GoInt.inRange w m /\ GoInt.inRange w h /\
  GoInt.inRange w (Z.quot h 24 + Days p) /\
  GoInt.inRange w (Weeks p * 7) /\
  GoInt.inRange w (Z.quot h 24 + Days p + Weeks p * 7) /\
  GoInt.inRange w (Z.quot (Months p) 12 + Years p).

(** The seconds a period stands for besides its years and months, a week
    as seven days and a day as 24 hours. *)
Definition totalSeconds (p : Period) : Z :=
  Seconds p + 60 * Minutes p + 3600 * Hours p
  + 86400 * (Days p + 7 * Weeks p).

Definition totalMonths (p : Period) : Z := Months p + 12 * Years p.

(** The ranges of a normalized period. *)
Definition normalRanges (w : WordSize) (p : Period) : Prop :=
  Z.abs (Seconds p) < 60 /\ Z.abs (Minutes p) < 60 /\
  Z.abs (Hours p) < 24 /\ Z.abs (Months p) < 12 /\ Weeks p = 0 /\
  GoInt.inRange w (Days p) /\ GoInt.inRange w (Years p).

(** The period a text of the grammar stands for. *)
Definition periodOfValues (oy om od : option string)
    (ot : option (option string * option string * option string)) : Period :=
  mkPeriod (optValue oy) (optValue om) 0 (optValue od)
           (optValue (timeHour ot)) (optValue (timeMinute ot))
           (optValue (timeSecond ot)).

(** Every number of the text fits [int]. *)
Definition valuesFit (w : WordSize) (oy om od : option string)
    (ot : option (option string * option string * option string)) : Prop :=
  optValue oy <= GoInt.maxInt w /\ optValue om <= GoInt.maxInt w /\
  optValue od <= GoInt.maxInt w /\
  optValue (timeHour ot) <= GoInt.maxInt w /\
  optValue (timeMinute ot) <= GoInt.maxInt w /\
  optValue (timeSecond ot) <= GoInt.maxInt w.

(** The length of a month of the Gregorian calendar. *)
Definition monthLength (leap : bool) (month : Z) : Z :=
  if month =? 2 then (if leap then 29 else 28)
  else if (month =? 4) || (month =? 6) || (month =? 9) || (month =? 11)
       then 30 else 31.

(** The duration Apply forms from hours, minutes and seconds is computed
    without overflow of [int64]. *)
Definition durationFits (p : Period) : Prop :=
  inInt64 (Hour * Hours p) /\ inInt64 (Minute * Minutes p) /\
  inInt64 (Second * Seconds p) /\
  inInt64 (Hour * Hours p + Minute * Minutes p) /\
  inInt64 (Hour * Hours p + Minute * Minutes p + Second * Seconds p).

(** Days, hours, minutes and seconds of a period as seconds of elapsed
    time, its weeks left out. *)
Definition elapsedSeconds (p : Period) : Z :=
  86400 * Days p + 3600 * Hours p + 60 * Minutes p + Seconds p.

(** A character occurs in a text. *)
Fixpoint hasChar (c : ascii) (s : string) : bool :=
  match s with
  | EmptyString => false
  | String c' s' => Ascii.eqb c' c || hasChar c s'
  end.

(** ** The components of Between and the numbers of a text *)


(** A number of a text that does not fit [int], on which Atoi fails. *)
Definition oversized (w : WordSize) (o : option string) : option string :=
  match o with
  | Some ds => if numberValue ds <=? GoInt.maxInt w then None else Some ds
  | None => None
  end.

(** The first such number in the order of the loop of FromString: year,
    month, day, hour, minute, second. *)
Definition firstOversized (w : WordSize) (oy om od : option string)
    (ot : option (option string * option string * option string))
  : option string :=
  orElse (oversized w oy)
    (orElse (oversized w om)
      (orElse (oversized w od)
        (orElse (oversized w (timeHour ot))
          (orElse (oversized w (timeMinute ot))
                  (oversized w (timeSecond ot)))))).

(** The instants a [time.Time] holds without wrap-around: the package
    keeps the seconds since 1 January of year 1 in an [int64], and
    converts from and to seconds since the Unix epoch. *)
Definition unixToInternal : Z := 62135596800.

Definition representable (t : Time) : Prop :=
  inInt64 (unixSec t) /\ inInt64 (unixSec t + unixToInternal).


(** * Properties *)

(** ** Go's [int] arithmetic *)

Ltac word_cases w :=
  destruct w;
  cbv [GoInt.inRange GoInt.maxInt GoInt.minInt GoInt.wrap GoInt.add GoInt.sub
       GoInt.mul GoInt.neg GoInt.quot GoInt.rem GoInt.wrapBits GoInt.half
       IntSize] in *;
  change (2 ^ (32 - 1)) with 2147483648 in *;
  change (2 ^ 32) with 4294967296 in *;
  change (2 ^ (64 - 1)) with 9223372036854775808 in *;
  change (2 ^ 64) with 18446744073709551616 in *.

Ltac zdiv := Z.to_euclidean_division_equations; lia.

Lemma wrap_inRange (w : WordSize) (x : Z) : GoInt.inRange w (GoInt.wrap w x).
Proof. word_cases w; zdiv. Qed.

Lemma wrap_id (w : WordSize) (x : Z) :
  GoInt.inRange w x -> GoInt.wrap w x = x.
Proof. word_cases w; intros; zdiv. Qed.

Lemma wrap_small (w : WordSize) (x : Z) :
  -2147483648 <= x <= 2147483647 -> GoInt.wrap w x = x.
Proof. word_cases w; intros; zdiv. Qed.

Lemma wrap_neg_wrap (w : WordSize) (x : Z) :
  GoInt.wrap w (- GoInt.wrap w x) = GoInt.wrap w (- x).
Proof. word_cases w; zdiv. Qed.

Lemma wrap_opp (w : WordSize) (x : Z) :
  GoInt.wrap w x <> GoInt.minInt w ->
  GoInt.wrap w (- x) = - GoInt.wrap w x.
Proof. word_cases w; intros; zdiv. Qed.

Lemma wrap_add_l (w : WordSize) (x y : Z) :
  GoInt.wrap w (GoInt.wrap w x + y) = GoInt.wrap w (x + y).
Proof. word_cases w; zdiv. Qed.

Lemma wrap_add_r (w : WordSize) (x y : Z) :
  GoInt.wrap w (x + GoInt.wrap w y) = GoInt.wrap w (x + y).
Proof. word_cases w; zdiv. Qed.

Lemma neg_involutive (w : WordSize) (x : Z) :
  GoInt.inRange w x -> GoInt.neg w (GoInt.neg w x) = x.
Proof. word_cases w; intros; zdiv. Qed.

Lemma minInt_neg (w : WordSize) : GoInt.minInt w < 0 < GoInt.maxInt w.
Proof. destruct w; vm_compute; split; reflexivity. Qed.

Lemma add_exact (w : WordSize) (x y : Z) :
  GoInt.inRange w (x + y) -> GoInt.add w x y = x + y.
Proof. apply wrap_id. Qed.

Lemma quot_nonneg (w : WordSize) (x d : Z) :
  GoInt.inRange w x -> 0 <= x -> 0 < d ->
  GoInt.quot w x d = x / d /\ 0 <= x / d <= x.
Proof.
  intros Hr Hx Hd.
  assert (Hq : 0 <= x / d <= x).
  { split; [apply Z.div_pos; lia|].
    apply Z.div_le_upper_bound; nia. }
  split; [|exact Hq].
  unfold GoInt.quot. rewrite Z.quot_div_nonneg by lia.
  apply wrap_id. pose proof (minInt_neg w). unfold GoInt.inRange in *. lia.
Qed.

(** ** Normalize *)

Ltac norm_unfold :=
  cbv [Normalize carryHours carryMinutes negPeriod absPeriod goAbs
       Years Months Weeks Days Hours Minutes Seconds] in *.

Lemma Normalize_example (w : WordSize) :
  Normalize w testPeriod = mkPeriod 2 3 0 46 4 14 31.
Proof. destruct w; vm_compute; reflexivity. Qed.

Lemma carryMinutes_exact (w : WordSize) (p : Period) :
  wfPeriod w p -> nonNegPeriod p -> carriesFit w p ->
  carryMinutes w p = Seconds p / 60 + Minutes p.
Proof.
  unfold wfPeriod, nonNegPeriod, carriesFit, carryMinutes.
  intros Hwf Hnn Hfit.
  destruct (quot_nonneg w (Seconds p) 60) as [-> Hq]; [tauto|tauto|lia|].
  apply add_exact. pose proof (minInt_neg w). unfold GoInt.inRange. lia.
Qed.

Lemma carryHours_exact (w : WordSize) (p : Period) :
  wfPeriod w p -> nonNegPeriod p -> carriesFit w p ->
  carryHours w p = (Seconds p / 60 + Minutes p) / 60 + Hours p.
Proof.
  intros Hwf Hnn Hfit. unfold carryHours.
  rewrite carryMinutes_exact by assumption.
  unfold wfPeriod, nonNegPeriod, carriesFit in *.
  pose proof (minInt_neg w).
  assert (0 <= Seconds p / 60) by (apply Z.div_pos; lia).
  destruct (quot_nonneg w (Seconds p / 60 + Minutes p) 60) as [-> Hq];
    [unfold GoInt.inRange; lia|lia|lia|].
  apply add_exact. unfold GoInt.inRange. lia.
Qed.

Lemma Normalize_nonneg_eq (w : WordSize) (p : Period) :
  wfPeriod w p -> nonNegPeriod p -> carriesFit w p ->
  let m := Seconds p / 60 + Minutes p in
  let h := m / 60 + Hours p in
  Normalize w p =
  mkPeriod (Months p / 12 + Years p) (Months p mod 12) 0
           (h / 24 + Days p + Weeks p * 7) (h mod 24) (m mod 60)
           (Seconds p mod 60).
Proof.
  intros Hwf Hnn Hfit m h.
  pose proof (carryMinutes_exact w p Hwf Hnn Hfit) as Hm.
  pose proof (carryHours_exact w p Hwf Hnn Hfit) as Hh.
  pose proof (minInt_neg w) as Hmm.
  fold m in Hm, Hh. fold h in Hh.
  destruct Hwf as (HY & HMo & HW & HD & HH & HM & HS).
  destruct Hnn as (nY & nMo & nW & nD & nH & nM & nS).
  destruct Hfit as (F1 & F2 & F3 & F4).
  fold m in F1, F2, F3. fold h in F2, F3.
  assert (Hm0 : 0 <= m) by (subst m; pose proof (Z.div_pos (Seconds p) 60); lia).
  assert (Hh0 : 0 <= h) by (subst h; pose proof (Z.div_pos m 60); lia).
  assert (Hh1 : 0 <= h / 24) by (apply Z.div_pos; lia).
  assert (Hmo1 : 0 <= Months p / 12) by (apply Z.div_pos; lia).
  unfold Normalize. rewrite Hh, Hm.
  destruct (quot_nonneg w h 24) as [-> _]; [unfold GoInt.inRange; lia|lia|lia|].
  destruct (quot_nonneg w (Months p) 12) as [-> _]; [assumption|lia|lia|].
  unfold GoInt.mul. rewrite (wrap_id w (Weeks p * 7)) by (unfold GoInt.inRange; lia).
  rewrite (add_exact w (h / 24) (Days p)) by (unfold GoInt.inRange; lia).
  rewrite (add_exact w (h / 24 + Days p)) by (unfold GoInt.inRange; lia).
  rewrite (add_exact w (Months p / 12)) by (unfold GoInt.inRange; lia).
  unfold GoInt.rem. rewrite !Z.rem_mod_nonneg by lia.
  reflexivity.
Qed.

(** C3, as amended: for a period of non-negative fields whose carries fit
    in [int], Normalize yields seconds and minutes in [0,60), hours in
    [0,24), months in [0,12) and no weeks; the carried magnitude is
    preserved in days and years (the total of seconds and the total of
    months are unchanged); and the period of the test normalizes to
    2 years, 3 months, 46 days, 4 hours, 14 minutes and 31 seconds. *)
Theorem Normalize_nonneg_bounds (w : WordSize) (p : Period) :
  wfPeriod w p -> nonNegPeriod p -> carriesFit w p ->
  (0 <= Seconds (Normalize w p) < 60 /\
   0 <= Minutes (Normalize w p) < 60 /\
   0 <= Hours (Normalize w p) < 24 /\
   0 <= Months (Normalize w p) < 12 /\
   Weeks (Normalize w p) = 0) /\
  (Seconds (Normalize w p) + 60 * Minutes (Normalize w p)
   + 3600 * Hours (Normalize w p) + 86400 * Days (Normalize w p) =
   Seconds p + 60 * Minutes p + 3600 * Hours p
   + 86400 * (Days p + 7 * Weeks p) /\
   Months (Normalize w p) + 12 * Years (Normalize w p) =
   Months p + 12 * Years p) /\
  Normalize w testPeriod = mkPeriod 2 3 0 46 4 14 31.
Proof.
  intros Hwf Hnn Hfit.
  rewrite (Normalize_nonneg_eq w p Hwf Hnn Hfit).
  cbn [Years Months Weeks Days Hours Minutes Seconds].
  remember (Seconds p / 60 + Minutes p) as m eqn:Em.
  remember (m / 60 + Hours p) as h eqn:Eh.
  split; [|split; [|apply Normalize_example]].
  - pose proof (Z.mod_pos_bound (Seconds p) 60).
    pose proof (Z.mod_pos_bound m 60).
    pose proof (Z.mod_pos_bound h 24).
    pose proof (Z.mod_pos_bound (Months p) 12).
    repeat split; lia.
  - pose proof (Z.div_mod (Seconds p) 60).
    pose proof (Z.div_mod m 60).
    pose proof (Z.div_mod h 24).
    pose proof (Z.div_mod (Months p) 12).
    split; lia.
Qed.

Lemma Normalize_nonneg_bounds_witness :
  0 <= Minutes (Normalize W64 testPeriod) < 60 /\
  Days (Normalize W64 testPeriod) = 46.
Proof.
  assert (Hwf : wfPeriod W64 testPeriod) by (vm_compute; intuition discriminate).
  assert (Hnn : nonNegPeriod testPeriod) by (vm_compute; intuition discriminate).
  assert (Hfit : carriesFit W64 testPeriod) by (vm_compute; intuition discriminate).
  pose proof (Normalize_nonneg_bounds W64 testPeriod Hwf Hnn Hfit) as [Hb [_ He]].
  split; [apply Hb|rewrite He; reflexivity].
Defined.

(** C3 as stated fails where a carry overflows [int]: with the greatest
    [int] as minutes, sixty seconds carry one minute too many and the
    minutes wrap around to a negative value. *)
Lemma Normalize_nonneg_overflow :
  let p := mkPeriod 0 0 0 0 0 9223372036854775807 60 in
  wfPeriod W64 p /\ nonNegPeriod p /\
  Normalize W64 p = mkPeriod 0 0 0 (-6405119470038038) (-18) (-8) 0 /\
  ~ (0 <= Minutes (Normalize W64 p) < 60).
Proof.
  cbv zeta.
  assert (E : Normalize W64 (mkPeriod 0 0 0 0 0 9223372036854775807 60)
              = mkPeriod 0 0 0 (-6405119470038038) (-18) (-8) 0)
    by (vm_compute; reflexivity).
  rewrite E. cbn [Minutes].
  split; [|split; [|split; [reflexivity|lia]]].
  - vm_compute; intuition discriminate.
  - vm_compute; intuition discriminate.
Qed.

(** *** Idempotence *)

Lemma rem_small (x d : Z) : 0 < d -> Z.abs x < d -> Z.rem x d = x.
Proof. intros. apply Z.rem_small_iff; lia. Qed.

Lemma quot_small_zero (w : WordSize) (x d : Z) :
  0 < d -> Z.abs x < d -> GoInt.quot w x d = 0.
Proof.
  intros. unfold GoInt.quot.
  replace (Z.quot x d) with 0 by (symmetry; apply Z.quot_small_iff; lia).
  apply wrap_small. lia.
Qed.

Lemma small_inRange (w : WordSize) (x : Z) :
  Z.abs x < 60 -> GoInt.inRange w x.
Proof. word_cases w; lia. Qed.

Lemma add_0_l (w : WordSize) (x : Z) :
  GoInt.inRange w x -> GoInt.add w 0 x = x.
Proof. intros. unfold GoInt.add. rewrite Z.add_0_l. now apply wrap_id. Qed.

Lemma add_0_r (w : WordSize) (x : Z) :
  GoInt.inRange w x -> GoInt.add w x 0 = x.
Proof. intros. unfold GoInt.add. rewrite Z.add_0_r. now apply wrap_id. Qed.

(** A period already in the ranges Normalize produces is left as it is. *)
Lemma Normalize_fixed (w : WordSize) (q : Period) :
  Z.abs (Seconds q) < 60 -> Z.abs (Minutes q) < 60 ->
  Z.abs (Hours q) < 24 -> Z.abs (Months q) < 12 -> Weeks q = 0 ->
  GoInt.inRange w (Days q) -> GoInt.inRange w (Years q) ->
  Normalize w q = q.
Proof.
  destruct q as [Y Mo W D H M S]; cbn [Years Months Weeks Days Hours Minutes Seconds].
  intros HS HM HH HMo -> HD HY.
  cbv beta zeta delta [Normalize carryHours carryMinutes];
    cbn [Years Months Weeks Days Hours Minutes Seconds].
  rewrite (quot_small_zero w S 60) by lia.
  rewrite (add_0_l w M) by (apply small_inRange; lia).
  rewrite (quot_small_zero w M 60) by lia.
  rewrite (add_0_l w H) by (apply small_inRange; lia).
  rewrite (quot_small_zero w H 24), (quot_small_zero w Mo 12) by lia.
  rewrite (add_0_l w D), (add_0_l w Y) by assumption.
  replace (GoInt.mul w 0 7) with 0 by (symmetry; apply wrap_small; lia).
  rewrite (add_0_r w D) by assumption.
  unfold GoInt.rem. rewrite !rem_small by lia. reflexivity.
Qed.

Lemma rem_abs_lt (x d : Z) : 0 < d -> Z.abs (Z.rem x d) < d.
Proof. intros. pose proof (Z.rem_bound_abs x d). lia. Qed.

(** C4: Normalize is idempotent on every period, whatever the signs of
    its fields and whether or not a carry wrapped around. *)
Theorem Normalize_idempotent (w : WordSize) (p : Period) :
  Normalize w (Normalize w p) = Normalize w p.
Proof.
  apply Normalize_fixed; cbv beta zeta delta [Normalize];
    cbn [Years Months Weeks Days Hours Minutes Seconds];
    try (apply rem_abs_lt; lia); try reflexivity; apply wrap_inRange.
Qed.

(** *** Normalize and negation *)

Lemma neg_exact (w : WordSize) (x : Z) :
  GoInt.inRange w x -> x <> GoInt.minInt w -> GoInt.neg w x = - x.
Proof. word_cases w; intros; zdiv. Qed.

Lemma neg_add (w : WordSize) (x y : Z) :
  GoInt.add w (GoInt.neg w x) (GoInt.neg w y) = GoInt.neg w (GoInt.add w x y).
Proof.
  unfold GoInt.add, GoInt.neg.
  rewrite wrap_add_l, wrap_add_r, wrap_neg_wrap. f_equal. lia.
Qed.

Lemma neg_mul7 (w : WordSize) (x : Z) :
  GoInt.mul w (GoInt.neg w x) 7 = GoInt.neg w (GoInt.mul w x 7).
Proof. word_cases w; zdiv. Qed.

Lemma neg_quot (w : WordSize) (x d : Z) :
  GoInt.inRange w x -> x <> GoInt.minInt w -> d <> 0 ->
  GoInt.quot w (GoInt.neg w x) d = GoInt.neg w (GoInt.quot w x d).
Proof.
  intros Hr Hx Hd. rewrite neg_exact by assumption.
  unfold GoInt.quot, GoInt.neg. rewrite Z.quot_opp_l, wrap_neg_wrap by assumption.
  reflexivity.
Qed.

Lemma neg_rem (w : WordSize) (x d : Z) :
  GoInt.inRange w x -> x <> GoInt.minInt w -> 0 < d <= 60 ->
  GoInt.rem (GoInt.neg w x) d = GoInt.neg w (GoInt.rem x d).
Proof.
  intros Hr Hx Hd. rewrite neg_exact by assumption.
  unfold GoInt.rem. rewrite Z.rem_opp_l'.
  pose proof (rem_abs_lt x d ltac:(lia)).
  unfold GoInt.neg. symmetry. apply wrap_small. lia.
Qed.

Lemma carryMinutes_neg (w : WordSize) (p : Period) :
  wfPeriod w p -> Seconds p <> GoInt.minInt w ->
  carryMinutes w (negPeriod w p) = GoInt.neg w (carryMinutes w p).
Proof.
  intros Hwf HS. unfold carryMinutes, negPeriod; cbn [Seconds Minutes].
  rewrite neg_quot by (assumption || apply Hwf || lia). apply neg_add.
Qed.

Lemma carryHours_neg (w : WordSize) (p : Period) :
  wfPeriod w p -> Seconds p <> GoInt.minInt w ->
  carryMinutes w p <> GoInt.minInt w ->
  carryHours w (negPeriod w p) = GoInt.neg w (carryHours w p).
Proof.
  intros Hwf HS Hm. unfold carryHours.
  rewrite carryMinutes_neg by assumption.
  unfold negPeriod; cbn [Hours].
  rewrite neg_quot by (assumption || apply wrap_inRange || lia). apply neg_add.
Qed.

Lemma Normalize_neg (w : WordSize) (p : Period) :
  wfPeriod w p -> negationExact w p ->
  Normalize w (negPeriod w p) = negPeriod w (Normalize w p).
Proof.
  intros Hwf (HS & HMo & Hm & Hh).
  cbv beta zeta delta [Normalize].
  rewrite carryHours_neg, carryMinutes_neg by assumption.
  unfold negPeriod at 1 2 3 4 5 6; cbn [Years Months Weeks Days Hours Minutes Seconds].
  unfold negPeriod; cbn [Years Months Weeks Days Hours Minutes Seconds].
  rewrite !neg_rem by (assumption || apply Hwf || apply wrap_inRange || lia).
  rewrite !neg_quot by (assumption || apply Hwf || apply wrap_inRange || lia).
  rewrite neg_mul7, !neg_add.
  replace (GoInt.neg w 0) with 0 by (symmetry; apply wrap_small; lia).
  reflexivity.
Qed.

Lemma negPeriod_involutive (w : WordSize) (p : Period) :
  wfPeriod w p -> negPeriod w (negPeriod w p) = p.
Proof.
  destruct p as [Y Mo W D H M S]; unfold wfPeriod, negPeriod;
    cbn [Years Months Weeks Days Hours Minutes Seconds].
  intros (? & ? & ? & ? & ? & ? & ?).
  rewrite !neg_involutive by assumption. reflexivity.
Qed.

Lemma absPeriod_nonPos (w : WordSize) (p : Period) :
  nonPosPeriod p -> absPeriod w p = negPeriod w p.
Proof.
  assert (E : forall x, x <= 0 -> goAbs w x = GoInt.neg w x).
  { intros x Hx. unfold goAbs. destruct (Z.ltb_spec x 0); [reflexivity|].
    replace x with 0 by lia. symmetry. apply wrap_small. lia. }
  unfold nonPosPeriod, absPeriod, negPeriod.
  intros (? & ? & ? & ? & ? & ? & ?). rewrite !E by assumption. reflexivity.
Qed.

Lemma neg_minInt_iff (w : WordSize) (x : Z) :
  GoInt.inRange w x -> x <> GoInt.minInt w -> GoInt.neg w x <> GoInt.minInt w.
Proof. word_cases w; intros; zdiv. Qed.

Lemma negPeriod_wf (w : WordSize) (p : Period) : wfPeriod w (negPeriod w p).
Proof. unfold wfPeriod, negPeriod; cbn; repeat split; apply wrap_inRange. Qed.

Lemma negationExact_neg (w : WordSize) (p : Period) :
  wfPeriod w p -> negationExact w p -> negationExact w (negPeriod w p).
Proof.
  intros Hwf (HS & HMo & Hm & Hh). unfold negationExact.
  rewrite carryHours_neg, carryMinutes_neg by assumption.
  unfold negPeriod; cbn [Seconds Months].
  repeat split; apply neg_minInt_iff;
    assumption || apply Hwf || apply wrap_inRange.
Qed.

(** C10, as amended: on a period whose seconds, months and two carries
    are not the least [int], Normalize commutes with field-wise negation;
    consequently such a period with non-positive fields normalizes to the
    negation of the normalization of its absolute values. *)
Theorem Normalize_odd (w : WordSize) (p : Period) :
  wfPeriod w p -> negationExact w p ->
  Normalize w (negPeriod w p) = negPeriod w (Normalize w p) /\
  (nonPosPeriod p ->
   Normalize w p = negPeriod w (Normalize w (absPeriod w p))).
Proof.
  intros Hwf Hex. split; [now apply Normalize_neg|].
  intros Hnp. rewrite absPeriod_nonPos by assumption.
  rewrite <- Normalize_neg
    by (apply negPeriod_wf || now apply negationExact_neg).
  now rewrite negPeriod_involutive.
Qed.

Lemma Normalize_odd_witness :
  Normalize W64 (negPeriod W64 testPeriod)
  = mkPeriod (-2) (-3) 0 (-46) (-4) (-14) (-31).
Proof.
  assert (Hwf : wfPeriod W64 testPeriod) by (vm_compute; intuition discriminate).
  assert (Hex : negationExact W64 testPeriod) by (vm_compute; intuition discriminate).
  destruct (Normalize_odd W64 testPeriod Hwf Hex) as [-> _].
  vm_compute. reflexivity.
Defined.

(** C10 as stated fails at the least [int], whose negation is itself:
    the seconds of the negated period normalize to -8, not to 8.  It
    fails in the same way when a carry is the least [int], as with -60
    seconds and one more than the least [int] of minutes. *)
Lemma Normalize_odd_minInt :
  let p := mkPeriod 0 0 0 0 0 0 (-9223372036854775808) in
  let q := mkPeriod 0 0 0 0 0 (-9223372036854775807) (-60) in
  (wfPeriod W64 p /\
   Normalize W64 (negPeriod W64 p)
   = mkPeriod 0 0 0 (-106751991167300) (-15) (-30) (-8) /\
   negPeriod W64 (Normalize W64 p)
   = mkPeriod 0 0 0 106751991167300 15 30 8 /\
   Normalize W64 (negPeriod W64 p) <> negPeriod W64 (Normalize W64 p)) /\
  (wfPeriod W64 q /\ carryMinutes W64 q = GoInt.minInt W64 /\
   Normalize W64 (negPeriod W64 q) <> negPeriod W64 (Normalize W64 q)).
Proof.
  cbv zeta. split.
  - split; [vm_compute; intuition discriminate|].
    split; [vm_compute; reflexivity|].
    split; [vm_compute; reflexivity|].
    vm_compute. discriminate.
  - split; [vm_compute; intuition discriminate|].
    split; [vm_compute; reflexivity|].
    vm_compute. discriminate.
Qed.


(** ** FromDuration *)

Lemma durationSeconds_quot (d : Z) :
  inInt64 d -> durationSeconds d = Z.quot d Second /\ inInt64 (Z.quot d Second).
Proof.
  unfold inInt64, minInt64, maxInt64, durationSeconds, wrap64, Second,
    Millisecond, Microsecond, Nanosecond, GoInt.wrapBits, GoInt.half.
  change (2 ^ (64 - 1)) with 9223372036854775808.
  change (2 ^ 64) with 18446744073709551616.
  intros. zdiv.
Qed.

(** FromDuration fails exactly when the second count is above the
    greatest [int]. *)
Lemma FromDuration_overflow_iff (w : WordSize) (d : Z) :
  inInt64 d ->
  FromDuration w d = Err errPeriodOverflow <->
  Z.quot d Second > GoInt.maxInt w.
Proof.
  intros Hd. destruct (durationSeconds_quot d Hd) as [E Hq].
  unfold FromDuration. rewrite E.
  replace (wrap64 (2 ^ (IntSize w - 1) - 1)) with (GoInt.maxInt w)
    by (destruct w; vm_compute; reflexivity).
  destruct (Z.gtb_spec (Z.quot d Second) (GoInt.maxInt w)).
  - split; [lia|reflexivity].
  - split; [discriminate|lia].
Qed.

(** A second count inside [int] is returned as a normalized period. *)
Lemma FromDuration_inRange (w : WordSize) (d : Z) :
  inInt64 d -> GoInt.inRange w (Z.quot d Second) ->
  FromDuration w d = Ok (Normalize w (mkPeriod 0 0 0 0 0 0 (Z.quot d Second))).
Proof.
  intros Hd Hr. destruct (durationSeconds_quot d Hd) as [E Hq].
  unfold FromDuration. rewrite E.
  replace (wrap64 (2 ^ (IntSize w - 1) - 1)) with (GoInt.maxInt w)
    by (destruct w; vm_compute; reflexivity).
  destruct (Z.gtb_spec (Z.quot d Second) (GoInt.maxInt w)).
  - unfold GoInt.inRange in Hr. lia.
  - now rewrite wrap_id.
Qed.

(** With a 64-bit [int] no duration overflows. *)
Lemma FromDuration_W64 (d : Z) :
  inInt64 d ->
  FromDuration W64 d = Ok (Normalize W64 (mkPeriod 0 0 0 0 0 0 (Z.quot d Second))).
Proof.
  intros Hd. apply FromDuration_inRange; [assumption|].
  destruct (durationSeconds_quot d Hd) as [_ Hq]. exact Hq.
Qed.

Lemma FromDuration_example (w : WordSize) :
  FromDuration w (27 * Hour + 74 * Minute + 63 * Second)
  = Ok (mkPeriod 0 0 0 1 4 15 3).
Proof. destruct w; vm_compute; reflexivity. Qed.

(** C6, on the code: with a 32-bit [int], a duration of -2147483649
    seconds has a second count below the least [int]; FromDuration does not
    fail but converts the count to 2147483647 and returns a positive
    period. *)
Theorem FromDuration_underflow_W32 :
  let d := -2147483649 * Second in
  inInt64 d /\
  Z.quot d Second = -2147483649 /\
  ~ GoInt.inRange W32 (Z.quot d Second) /\
  FromDuration W32 d = Ok (mkPeriod 0 0 0 24855 3 14 7).
Proof.
  cbv zeta. split; [vm_compute; intuition discriminate|].
  split; [vm_compute; reflexivity|].
  split; [vm_compute; intuition|vm_compute; reflexivity].
Qed.


(** ** Texts and digits *)

Local Open Scope string_scope.

Lemma append_nil_r (s : string) : s ++ "" = s.
Proof. induction s; cbn; congruence. Qed.

Lemma append_assoc (a b c : string) : (a ++ b) ++ c = a ++ (b ++ c).
Proof. induction a; cbn; congruence. Qed.

Lemma length_append (a b : string) :
  String.length (a ++ b) = (String.length a + String.length b)%nat.
Proof. induction a; cbn; congruence. Qed.

Lemma substring_prefix (a b : string) :
  substring 0 (String.length a) (a ++ b) = a.
Proof.
  induction a as [|c a IH]; cbn.
  - destruct b; reflexivity.
  - now rewrite IH.
Qed.

Lemma consumed_app (a b : string) : consumed (a ++ b) b = a.
Proof.
  unfold consumed. rewrite length_append.
  replace (String.length a + String.length b - String.length b)%nat
    with (String.length a) by lia.
  apply substring_prefix.
Qed.

Lemma consumed_all (a : string) : consumed a "" = a.
Proof.
  rewrite <- (append_nil_r a) at 1. apply consumed_app.
Qed.

Lemma spanDigits_spec (s ds rest : string) :
  spanDigits s = (ds, rest) ->
  s = ds ++ rest /\ allDigits ds = true /\ startsDigit rest = false.
Proof.
  revert ds rest. induction s as [|c s IH]; cbn; intros ds rest E.
  - inversion E; subst. auto.
  - destruct (isDigit c) eqn:Hc.
    + destruct (spanDigits s) as [ds' rest'].
      inversion E; subst. destruct (IH _ _ eq_refl) as (-> & Hd & Hr).
      cbn. rewrite Hc, Hd. auto.
    + inversion E; subst. cbn. auto.
Qed.

Lemma spanDigits_app (ds rest : string) :
  allDigits ds = true -> startsDigit rest = false ->
  spanDigits (ds ++ rest) = (ds, rest).
Proof.
  induction ds as [|c ds IH]; cbn; intros Hd Hr.
  - destruct rest as [|c r]; [reflexivity|]. cbn in *. now rewrite Hr.
  - apply andb_true_iff in Hd as [Hc Hd]. now rewrite Hc, IH.
Qed.

Lemma splitUnit_spec (c : ascii) (s ds rest : string) :
  splitUnit c s = Some (ds, rest) ->
  number ds /\ s = ds ++ String c rest.
Proof.
  unfold splitUnit. destruct (spanDigits s) as [ds' rest'] eqn:E.
  apply spanDigits_spec in E as (-> & Hd & _).
  destruct ds' as [|d ds']; [discriminate|].
  destruct rest' as [|c' rest']; [discriminate|].
  destruct (Ascii.eqb_spec c' c); [|discriminate].
  intros H; inversion H; subst. repeat split; [discriminate|assumption].
Qed.

Lemma splitUnit_present (c : ascii) (ds rest : string) :
  isDigit c = false -> number ds ->
  splitUnit c (ds ++ String c rest) = Some (ds, rest).
Proof.
  intros Hc [Hne Hd]. unfold splitUnit.
  rewrite spanDigits_app by assumption.
  destruct ds; [contradiction|]. now rewrite Ascii.eqb_refl.
Qed.

(** ** The matcher on a block [nc] *)

Lemma matchDigits_span {A : Type} (k : string -> option A) (s : string) :
  (forall t, startsDigit t = true -> k t = None) ->
  matchDigits s k =
  match spanDigits s with
  | (String _ _, rest) => k rest
  | _ => None
  end.
Proof.
  intros Hk. induction s as [|c s IH]; cbn; [reflexivity|].
  destruct (isDigit c) eqn:Hc; [|reflexivity].
  rewrite IH. destruct (spanDigits s) as [ds rest] eqn:E.
  destruct ds as [|d ds].
  - apply spanDigits_spec in E as (-> & _ & _). reflexivity.
  - destruct (k rest) eqn:Ek; cbn; [reflexivity|].
    apply Hk. apply spanDigits_spec in E as (-> & Hd & _).
    cbn in *. now apply andb_true_iff in Hd as [-> _].
Qed.

Lemma unitGroup_spec {A : Type} (i : nat) (c : ascii) (s : string)
    (caps : list string) (k : string -> list string -> option A) :
  isDigit c = false ->
  matchRegex (unitGroup i c) s caps k =
  match splitUnit c s with
  | Some (ds, rest) =>
      k rest (setNth i (ds ++ String c "") (setNth (S i) ds caps))
  | None => None
  end.
Proof.
  intros Hc. unfold unitGroup. cbn [matchRegex].
  rewrite matchDigits_span.
  - unfold splitUnit. destruct (spanDigits s) as [ds rest] eqn:E.
    apply spanDigits_spec in E as (-> & Hd & Hr).
    destruct ds as [|d ds]; [reflexivity|].
    destruct rest as [|c' rest]; [reflexivity|].
    destruct (Ascii.eqb_spec c' c) as [->|]; [|reflexivity].
    rewrite consumed_app.
    change (String d ds ++ String c rest)
      with (String d ds ++ (String c "" ++ rest)).
    rewrite <- append_assoc, consumed_app. reflexivity.
  - intros [|c' t] Ht; [reflexivity|]. cbn in Ht.
    destruct (Ascii.eqb_spec c' c) as [->|]; [congruence|reflexivity].
Qed.

Lemma orElse_Some_l {A : Type} (x y : option A) (a : A) :
  x = Some a -> orElse x y = Some a.
Proof. now intros ->. Qed.

Lemma orElse_inv {A : Type} (x y : option A) (a : A) :
  orElse x y = Some a -> x = Some a \/ y = Some a.
Proof. destruct x; cbn; auto. Qed.

Lemma setNth_same (i : nat) (l : list string) :
  nth i l "" = "" -> setNth i "" l = l.
Proof.
  revert i. induction l as [|h t IH]; intros [|i]; cbn; intros H;
    try reflexivity; [now subst|now rewrite IH].
Qed.

Lemma matchRegex_Cat {A : Type} (r1 r2 : regex) (s : string)
    (caps : list string) (k : string -> list string -> option A) :
  matchRegex (Cat r1 r2) s caps k =
  matchRegex r1 s caps (fun s' caps' => matchRegex r2 s' caps' k).
Proof. reflexivity. Qed.

(** An optional block that is there, or that is left out before a text
    that does not start with such a block. *)
Lemma optUnit_step {A : Type} (i : nat) (c : ascii) (o : option string)
    (rest : string) (caps : list string)
    (k : string -> list string -> option A) (res : A) :
  isDigit c = false -> validOpt o ->
  (o = None -> splitUnit c rest = None) ->
  nth i caps "" = "" -> nth (S i) caps "" = "" ->
  k rest (setNth i (unitStr c o) (setNth (S i) (digitsStr o) caps)) = Some res ->
  matchRegex (Opt (unitGroup i c)) (unitStr c o ++ rest) caps k = Some res.
Proof.
  intros Hc Hv Habs Hi HSi Hk. cbn [matchRegex]. rewrite unitGroup_spec by assumption.
  destruct o as [ds|]; cbn [unitStr digitsStr] in *.
  - rewrite append_assoc. cbn [append].
    rewrite splitUnit_present by assumption. now rewrite Hk.
  - cbn [append]. rewrite Habs by reflexivity. cbn [orElse].
    rewrite (setNth_same (S i)), (setNth_same i) in Hk by assumption.
    exact Hk.
Qed.

Lemma optUnit_sound {A : Type} (Q : string -> Prop) (i : nat) (c : ascii)
    (s : string) (caps : list string)
    (k : string -> list string -> option A) (res : A) :
  isDigit c = false ->
  (forall rest caps' res', k rest caps' = Some res' -> Q rest) ->
  matchRegex (Opt (unitGroup i c)) s caps k = Some res ->
  exists o rest, validOpt o /\ s = unitStr c o ++ rest /\ Q rest.
Proof.
  intros Hc Hk H. cbn [matchRegex] in H. rewrite unitGroup_spec in H by assumption.
  apply orElse_inv in H as [H|H].
  - destruct (splitUnit c s) as [[ds rest]|] eqn:E; [|discriminate].
    apply splitUnit_spec in E as [Hn ->].
    exists (Some ds), rest. cbn. rewrite append_assoc. cbn. eauto.
  - exists None, s. cbn. eauto.
Qed.

(** Texts that do not start with a block [nc]. *)
Lemma splitUnit_nil (c : ascii) : splitUnit c "" = None.
Proof. reflexivity. Qed.

Lemma splitUnit_nondigit (c d : ascii) (s : string) :
  isDigit d = false -> splitUnit c (String d s) = None.
Proof. intros H. unfold splitUnit. cbn. now rewrite H. Qed.

Lemma splitUnit_other (c c' : ascii) (o : option string) (rest : string) :
  isDigit c' = false -> c' <> c -> validOpt o ->
  splitUnit c rest = None -> splitUnit c (unitStr c' o ++ rest) = None.
Proof.
  intros Hc' Hne Hv Hr. destruct o as [ds|]; cbn [unitStr]; [|exact Hr].
  destruct Hv as [Hnil Hd]. rewrite append_assoc. cbn [append].
  unfold splitUnit. rewrite spanDigits_app by assumption.
  destruct ds; [contradiction|].
  destruct (Ascii.eqb_spec c' c); [contradiction|reflexivity].
Qed.

Lemma splitUnit_time (c : ascii) ot : splitUnit c (timeStr ot) = None.
Proof. destruct ot as [[[oh omi] ose]|]; reflexivity. Qed.

(** ** [regexpPeriod] and [regexpWeek] against the grammar *)

Lemma splitUnit_last (c c' : ascii) (o : option string) :
  isDigit c' = false -> c' <> c -> validOpt o ->
  splitUnit c (unitStr c' o) = None.
Proof.
  intros. rewrite <- (append_nil_r (unitStr c' o)).
  now apply splitUnit_other.
Qed.

Lemma nth_setNth_other (i j : nat) (x : string) (l : list string) :
  i <> j -> nth i (setNth j x l) "" = nth i l "".
Proof.
  revert i j. induction l as [|h t IH]; intros [|i] [|j] H; cbn;
    try reflexivity; try contradiction.
  apply IH. congruence.
Qed.

Lemma matchRegex_Opt {A : Type} (r : regex) (s : string)
    (caps : list string) (k : string -> list string -> option A) :
  matchRegex (Opt r) s caps k = orElse (matchRegex r s caps k) (k s caps).
Proof. reflexivity. Qed.

Lemma matchRegex_Group {A : Type} (i : nat) (r : regex) (s : string)
    (caps : list string) (k : string -> list string -> option A) :
  matchRegex (Group i r) s caps k =
  matchRegex r s caps (fun s' caps' => k s' (setNth i (consumed s s') caps')).
Proof. reflexivity. Qed.

Lemma matchRegex_Lit {A : Type} (c : ascii) (s : string)
    (caps : list string) (k : string -> list string -> option A) :
  matchRegex (Lit c) (String c s) caps k = k s caps.
Proof. cbn. now rewrite Ascii.eqb_refl. Qed.

Ltac letter_side :=
  match goal with
  | |- isDigit _ = false => reflexivity
  | |- validOpt _ => assumption
  | |- nth _ _ _ = _ =>
      rewrite ?nth_setNth_other by discriminate; assumption || reflexivity
  | |- _ <> _ => discriminate
  | |- _ = None -> splitUnit _ _ = None => intros _
  end.

Lemma timeGroup_submatches {A : Type} (ot : option (option string * option string * option string))
    (caps : list string) (k : string -> list string -> option A) (res : A) :
  validTime ot ->
  nth 7 caps "" = "" -> nth 8 caps "" = "" -> nth 9 caps "" = "" ->
  nth 10 caps "" = "" -> nth 11 caps "" = "" -> nth 12 caps "" = "" ->
  nth 13 caps "" = "" ->
  k "" (setNth 7 (timeStr ot)
         (setNth 12 (unitStr "S" (timeSecond ot))
         (setNth 13 (digitsStr (timeSecond ot))
         (setNth 10 (unitStr "M" (timeMinute ot))
         (setNth 11 (digitsStr (timeMinute ot))
         (setNth 8 (unitStr "H" (timeHour ot))
         (setNth 9 (digitsStr (timeHour ot)) caps))))))) = Some res ->
  matchRegex
    (Opt (Group 7
       (Cat (Lit "T")
       (Cat (Opt (unitGroup 8 "H"))
       (Cat (Opt (unitGroup 10 "M"))
            (Opt (unitGroup 12 "S")))))))
    (timeStr ot) caps k = Some res.
Proof.
  intros Hv H7 H8 H9 H10 H11 H12 H13 Hk.
  rewrite matchRegex_Opt.
  destruct ot as [[[oh omi] ose]|];
    cbn [timeStr timeHour timeMinute timeSecond validTime] in *.
  - destruct Hv as (Hh & Hmi & Hse).
    apply orElse_Some_l.
    rewrite matchRegex_Group, matchRegex_Cat.
    change ("T" ++ unitStr "H" oh ++ unitStr "M" omi ++ unitStr "S" ose)
      with (String "T" (unitStr "H" oh ++ unitStr "M" omi ++ unitStr "S" ose)) at 1.
    rewrite matchRegex_Lit, matchRegex_Cat.
    apply optUnit_step; try letter_side.
    { apply splitUnit_other; try letter_side.
      apply splitUnit_last; letter_side. }
    cbv beta. rewrite matchRegex_Cat. apply optUnit_step; try letter_side.
    { apply splitUnit_last; letter_side. }
    cbv beta. rewrite <- (append_nil_r (unitStr "S" ose)) at 1.
    apply optUnit_step; try letter_side.
    { apply splitUnit_nil. }
    rewrite consumed_all. exact Hk.
  - cbn [matchRegex orElse unitStr digitsStr] in *.
    rewrite !setNth_same in Hk; try letter_side. exact Hk.
Qed.

(** Every text of the grammar is matched by [regexpPeriod], with the
    blocks and their digits as submatches. *)
Lemma regexpPeriod_submatches (oy om od : option string)
    (ot : option (option string * option string * option string)) :
  validOpt oy -> validOpt om -> validOpt od -> validTime ot ->
  FindStringSubmatch regexpPeriod (periodStr oy om od ot)
  = Some (periodSubmatches oy om od ot).
Proof.
  intros Hy Hm Hd Ht.
  unfold FindStringSubmatch.
  cbv [pattern SubexpNames regexpPeriod List.length repeat].
  set (str := periodStr oy om od ot).
  unfold periodStr in str.
  change str with
    (String "P" (unitStr "Y" oy ++ unitStr "M" om ++ unitStr "D" od ++ timeStr ot)) at 1.
  rewrite matchRegex_Cat, matchRegex_Lit, matchRegex_Cat.
  apply optUnit_step; try letter_side.
  { repeat (apply splitUnit_other; try letter_side). apply splitUnit_time. }
  cbv beta. rewrite matchRegex_Cat. apply optUnit_step; try letter_side.
  { repeat (apply splitUnit_other; try letter_side). apply splitUnit_time. }
  cbv beta. rewrite matchRegex_Cat. apply optUnit_step; try letter_side.
  { apply splitUnit_time. }
  cbv beta. apply timeGroup_submatches; try assumption; try reflexivity.
Qed.

Lemma matchRegex_Lit_inv {A : Type} (c : ascii) (s : string)
    (caps : list string) (k : string -> list string -> option A) (res : A) :
  matchRegex (Lit c) s caps k = Some res ->
  exists s', s = String c s' /\ k s' caps = Some res.
Proof.
  destruct s as [|c' s']; cbn; [discriminate|].
  destruct (Ascii.eqb_spec c' c) as [->|]; [eauto|discriminate].
Qed.

Lemma timeGroup_sound {A : Type} (s : string) (caps : list string)
    (k : string -> list string -> option A) (res : A) :
  (forall rest caps' res', k rest caps' = Some res' -> rest = "") ->
  matchRegex
    (Opt (Group 7
       (Cat (Lit "T")
       (Cat (Opt (unitGroup 8 "H"))
       (Cat (Opt (unitGroup 10 "M"))
            (Opt (unitGroup 12 "S")))))))
    s caps k = Some res ->
  exists ot, validTime ot /\ s = timeStr ot.
Proof.
  intros Hk H. rewrite matchRegex_Opt in H. apply orElse_inv in H as [H|H].
  - rewrite matchRegex_Group, matchRegex_Cat in H.
    apply matchRegex_Lit_inv in H as (s1 & -> & H).
    rewrite matchRegex_Cat in H.
    apply (optUnit_sound
             (fun r => exists omi ose, validOpt omi /\ validOpt ose /\
                         r = unitStr "M" omi ++ unitStr "S" ose)) in H;
      [|reflexivity|].
    + destruct H as (oh & r & Hh & -> & omi & ose & Hmi & Hse & ->).
      exists (Some (oh, omi, ose)). cbn. auto.
    + intros r caps' res' H'. rewrite matchRegex_Cat in H'.
      apply (optUnit_sound
               (fun r => exists ose, validOpt ose /\ r = unitStr "S" ose)) in H';
        [|reflexivity|].
      * destruct H' as (omi & r' & Hmi & -> & ose & Hse & ->). eauto.
      * intros r' caps'' res'' H''.
        apply (optUnit_sound (fun r => r = "")) in H''; [|reflexivity|].
        -- destruct H'' as (ose & r'' & Hse & -> & ->).
           exists ose. now rewrite append_nil_r.
        -- intros r'' c3 res3 H3. now apply Hk in H3.
  - apply Hk in H as ->. exists None. cbn. auto.
Qed.

(** Every text matched by [regexpPeriod] is a text of the grammar. *)
Lemma regexpPeriod_sound (s : string) (m : list string) :
  FindStringSubmatch regexpPeriod s = Some m ->
  exists oy om od ot,
    validOpt oy /\ validOpt om /\ validOpt od /\ validTime ot /\
    s = periodStr oy om od ot.
Proof.
  unfold FindStringSubmatch.
  cbv [pattern SubexpNames regexpPeriod List.length repeat].
  intros H. rewrite matchRegex_Cat in H.
  apply matchRegex_Lit_inv in H as (s1 & E & H). rewrite matchRegex_Cat in H.
  apply (optUnit_sound
           (fun r => exists om od ot, validOpt om /\ validOpt od /\ validTime ot /\
                       r = unitStr "M" om ++ unitStr "D" od ++ timeStr ot)) in H;
    [|reflexivity|].
  - destruct H as (oy & r & Hy & -> & om & od & ot & Hm & Hd & Ht & ->).
    exists oy, om, od, ot. rewrite E. unfold periodStr. cbn. auto.
  - intros r caps' res' H'. rewrite matchRegex_Cat in H'.
    apply (optUnit_sound
             (fun r => exists od ot, validOpt od /\ validTime ot /\
                         r = unitStr "D" od ++ timeStr ot)) in H';
      [|reflexivity|].
    + destruct H' as (om & r' & Hm & -> & od & ot & Hd & Ht & ->).
      exists om, od, ot. auto.
    + intros r' caps'' res'' H''. rewrite matchRegex_Cat in H''.
      apply (optUnit_sound
               (fun r => exists ot, validTime ot /\ r = timeStr ot)) in H'';
        [|reflexivity|].
      * destruct H'' as (od & r'' & Hd & -> & ot & Ht & ->). eauto.
      * intros r'' c3 res3 H3. apply timeGroup_sound in H3; [exact H3|].
        intros rest c4 res4. destruct rest; [reflexivity|discriminate].
Qed.

(** [regexpWeek] *)
Lemma regexpWeek_spec (s : string) :
  FindStringSubmatch regexpWeek s =
  match s with
  | String "P" s1 =>
      match splitUnit "W" s1 with
      | Some (ds, "") => Some [s; ds ++ "W"; ds]
      | _ => None
      end
  | _ => None
  end.
Proof.
  unfold FindStringSubmatch.
  cbv [pattern SubexpNames regexpWeek List.length repeat].
  rewrite matchRegex_Cat.
  destruct s as [|c s1]; [reflexivity|].
  destruct (Ascii.eqb_spec c "P") as [->|Hne].
  - rewrite matchRegex_Lit, unitGroup_spec by reflexivity.
    destruct (splitUnit "W" s1) as [[ds rest]|]; [|reflexivity].
    destruct rest; reflexivity.
  - cbn. destruct (Ascii.eqb_spec c "P"); [contradiction|].
    destruct c as [[|] [|] [|] [|] [|] [|] [|] [|]]; try reflexivity.
    contradiction.
Qed.

(** ** The loop of FromString *)

Lemma number_eqb_nil (ds : string) : number ds -> String.eqb ds "" = false.
Proof. intros [H _]. destruct ds; [contradiction|reflexivity]. Qed.

Lemma fillFields_unnamed (w : WordSize) (m : list string) (i : nat)
    (names : list string) (p : Period) :
  fillFields w m i ("" :: names) p = fillFields w m (S i) names p.
Proof. cbn. now rewrite orb_true_r. Qed.

Lemma fillFields_named (w : WordSize) (m : list string) (i : nat)
    (name : string) (names : list string) (o : option string) (p : Period) :
  String.eqb name "" = false -> nth (S i) m "" = digitsStr o -> validOpt o ->
  fillFields w m (S i) (name :: names) p =
  match applyPart w name o (Ok p) with
  | Ok p' => fillFields w m (S (S i)) names p'
  | Err e => Err e
  end.
Proof.
  intros Hname Hnth Hv. cbn [fillFields Nat.eqb orb].
  rewrite Hname, Hnth. cbn [orb].
  destruct o as [ds|]; cbn [digitsStr applyPart validOpt] in *.
  - rewrite number_eqb_nil by assumption.
    destruct (Atoi w ds); reflexivity.
  - reflexivity.
Qed.

Lemma fillFields_period (w : WordSize) (oy om od : option string)
    (ot : option (option string * option string * option string)) :
  validOpt oy -> validOpt om -> validOpt od -> validTime ot ->
  fillFields w (periodSubmatches oy om od ot) 0 (SubexpNames regexpPeriod)
    zeroPeriod
  = periodOfText w oy om od ot.
Proof.
  intros Hy Hm Hd Ht.
  assert (Hh : validOpt (timeHour ot) /\ validOpt (timeMinute ot)
               /\ validOpt (timeSecond ot)).
  { destruct ot as [[[? ?] ?]|]; cbn in *; tauto. }
  destruct Hh as (Hh & Hmi & Hse).
  cbv [SubexpNames regexpPeriod]. unfold periodOfText.
  change (fillFields w ?m 0 ("" :: ?n) ?p) with (fillFields w m 1 n p).
  rewrite fillFields_unnamed.
  rewrite (fillFields_named w _ 1 "year" _ oy) by (reflexivity || assumption).
  destruct (applyPart w "year" oy (Ok zeroPeriod)) as [p1|e]; [|reflexivity].
  rewrite fillFields_unnamed.
  rewrite (fillFields_named w _ 3 "month" _ om) by (reflexivity || assumption).
  destruct (applyPart w "month" om (Ok p1)) as [p2|e]; [|reflexivity].
  rewrite fillFields_unnamed.
  rewrite (fillFields_named w _ 5 "day" _ od) by (reflexivity || assumption).
  destruct (applyPart w "day" od (Ok p2)) as [p3|e]; [|reflexivity].
  rewrite !fillFields_unnamed.
  rewrite (fillFields_named w _ 8 "hour" _ (timeHour ot)) by (reflexivity || assumption).
  destruct (applyPart w "hour" _ (Ok p3)) as [p4|e]; [|reflexivity].
  rewrite fillFields_unnamed.
  rewrite (fillFields_named w _ 10 "minute" _ (timeMinute ot)) by (reflexivity || assumption).
  destruct (applyPart w "minute" _ (Ok p4)) as [p5|e]; [|reflexivity].
  rewrite fillFields_unnamed.
  rewrite (fillFields_named w _ 12 "second" _ (timeSecond ot)) by (reflexivity || assumption).
  destruct (applyPart w "second" _ (Ok p5)) as [p6|e]; reflexivity.
Qed.

(** ** Atoi on the numbers of the grammar *)

Lemma allDigits_uint (ds : string) :
  allDigits ds = true -> exists u, NilEmpty.uint_of_string ds = Some u.
Proof.
  induction ds as [|c ds IH]; cbn; [eauto|].
  intros H. apply andb_true_iff in H as [Hc Hd].
  destruct (IH Hd) as [u ->]. unfold isDigit in Hc.
  destruct c as [[|] [|] [|] [|] [|] [|] [|] [|]]; try discriminate; cbn; eauto.
Qed.

Lemma of_uint_nonneg (u : Decimal.uint) : 0 <= Z.of_uint u.
Proof. unfold Z.of_uint. apply N2Z.is_nonneg. Qed.

Lemma Atoi_number (w : WordSize) (ds : string) :
  number ds ->
  0 <= numberValue ds /\
  Atoi w ds = if (numberValue ds <=? GoInt.maxInt w)%Z then Ok (numberValue ds)
              else Err (errAtoiRange ds).
Proof.
  intros [Hne Hd]. destruct (allDigits_uint ds Hd) as [u Hu].
  assert (Hz : NilZero.uint_of_string ds = Some u).
  { unfold NilZero.uint_of_string. destruct ds; [contradiction|exact Hu]. }
  unfold numberValue. rewrite Hz.
  pose proof (of_uint_nonneg u) as Hpos. split; [assumption|].
  destruct ds as [|c r]; [contradiction|].
  assert (Hc : isDigit c = true) by (cbn in Hd; now apply andb_true_iff in Hd).
  unfold Atoi.
  destruct c as [[|] [|] [|] [|] [|] [|] [|] [|]]; try discriminate Hc;
    rewrite Hz; cbv zeta;
    (destruct (Z.leb_spec (GoInt.minInt w) (Z.of_uint u));
     [reflexivity|pose proof (minInt_neg w); lia]).
Qed.

(** ** FromString on the texts of the grammar *)

Lemma regexpWeek_periodStr (oy om od : option string)
    (ot : option (option string * option string * option string)) :
  validOpt oy -> validOpt om -> validOpt od ->
  FindStringSubmatch regexpWeek (periodStr oy om od ot) = None.
Proof.
  intros Hy Hm Hd. rewrite regexpWeek_spec. unfold periodStr. cbn [append].
  replace (splitUnit "W" _) with (@None (string * string)); [reflexivity|].
  symmetry. repeat (apply splitUnit_other; try letter_side).
  apply splitUnit_time.
Qed.

Lemma FromString_periodStr (w : WordSize) (oy om od : option string)
    (ot : option (option string * option string * option string)) :
  validOpt oy -> validOpt om -> validOpt od -> validTime ot ->
  FromString w (periodStr oy om od ot) = periodOfText w oy om od ot.
Proof.
  intros Hy Hm Hd Ht. unfold FromString.
  rewrite regexpWeek_periodStr, regexpPeriod_submatches by assumption.
  now apply fillFields_period.
Qed.

Lemma FromString_weekStr (w : WordSize) (ds : string) :
  number ds ->
  FromString w ("P" ++ ds ++ "W") = applyPart w "week" (Some ds) (Ok zeroPeriod).
Proof.
  intros Hn. unfold FromString. rewrite regexpWeek_spec. cbn [append].
  rewrite splitUnit_present by (reflexivity || assumption).
  cbv [SubexpNames regexpWeek].
  change (fillFields w ?m 0 ("" :: ?n) ?p) with (fillFields w m 1 n p).
  rewrite fillFields_unnamed.
  rewrite (fillFields_named w _ 1 "week" _ (Some ds)) by (reflexivity || assumption).
  destruct (applyPart w "week" (Some ds) (Ok zeroPeriod)); reflexivity.
Qed.

Lemma unitText_opt (c : ascii) (u : string) :
  unitText c u <-> exists o, validOpt o /\ u = unitStr c o.
Proof.
  split.
  - intros [->|(ds & Hn & ->)]; [exists None|exists (Some ds)]; cbn; auto.
  - intros ([ds|] & Hv & ->); [right|left]; cbn in *; eauto.
Qed.

Lemma timeText_opt (t : string) :
  timeText t <-> exists ot, validTime ot /\ t = timeStr ot.
Proof.
  split.
  - intros [->|(h & mi & se & Hh & Hmi & Hse & ->)]; [exists None; cbn; auto|].
    apply unitText_opt in Hh as (oh & ? & ->).
    apply unitText_opt in Hmi as (omi & ? & ->).
    apply unitText_opt in Hse as (ose & ? & ->).
    exists (Some (oh, omi, ose)). cbn. auto.
  - intros ([[[oh omi] ose]|] & Hv & ->); [right|left; reflexivity].
    cbn in Hv. destruct Hv as (? & ? & ?).
    exists (unitStr "H" oh), (unitStr "M" omi), (unitStr "S" ose).
    repeat split; try reflexivity; apply unitText_opt; eauto.
Qed.

Lemma periodText_opt (s : string) :
  periodText s <->
  exists oy om od ot, validOpt oy /\ validOpt om /\ validOpt od /\
                      validTime ot /\ s = periodStr oy om od ot.
Proof.
  split.
  - intros (y & m & d & t & Hy & Hm & Hd & Ht & ->).
    apply unitText_opt in Hy as (oy & ? & ->).
    apply unitText_opt in Hm as (om & ? & ->).
    apply unitText_opt in Hd as (od & ? & ->).
    apply timeText_opt in Ht as (ot & ? & ->).
    exists oy, om, od, ot. auto.
  - intros (oy & om & od & ot & Hy & Hm & Hd & Ht & ->).
    exists (unitStr "Y" oy), (unitStr "M" om), (unitStr "D" od), (timeStr ot).
    repeat split; try reflexivity;
      try (apply unitText_opt; eauto); apply timeText_opt; eauto.
Qed.

(** The three outcomes of the two patterns. *)
Lemma FromString_cases (w : WordSize) (s : string) :
  (exists ds, number ds /\ s = "P" ++ ds ++ "W" /\
     FromString w s = applyPart w "week" (Some ds) (Ok zeroPeriod)) \/
  (exists oy om od ot, validOpt oy /\ validOpt om /\ validOpt od /\
     validTime ot /\ s = periodStr oy om od ot /\
     FromString w s = periodOfText w oy om od ot) \/
  (~ weekText s /\ ~ periodText s /\ FromString w s = Err errPeriodBadFormat).
Proof.
  destruct (FindStringSubmatch regexpWeek s) as [m|] eqn:Ew.
  - left. rewrite regexpWeek_spec in Ew.
    destruct s as [|c s1]; [discriminate|].
    destruct (Ascii.eqb_spec c "P") as [->|Hne].
    + destruct (splitUnit "W" s1) as [[ds rest]|] eqn:E; [|discriminate].
      destruct rest; [|discriminate].
      apply splitUnit_spec in E as [Hn ->].
      exists ds. split; [assumption|]. split; [reflexivity|].
      now apply (FromString_weekStr w ds).
    + exfalso. destruct c as [[|] [|] [|] [|] [|] [|] [|] [|]];
        try discriminate. contradiction.
  - destruct (FindStringSubmatch regexpPeriod s) as [m|] eqn:Ep.
    + right; left. apply regexpPeriod_sound in Ep
        as (oy & om & od & ot & Hy & Hm & Hd & Ht & ->).
      exists oy, om, od, ot. repeat split; try assumption.
      now apply FromString_periodStr.
    + right; right. repeat split.
      * intros (ds & Hn & ->). rewrite regexpWeek_spec in Ew. cbn [append] in Ew.
        rewrite splitUnit_present in Ew by (reflexivity || assumption).
        discriminate.
      * intros Hp. apply periodText_opt in Hp
          as (oy & om & od & ot & Hy & Hm & Hd & Ht & ->).
        rewrite regexpPeriod_submatches in Ep by assumption. discriminate.
      * unfold FromString. now rewrite Ew, Ep.
Qed.

(** An error met in the loop is the range error of a number that does
    not fit [int]. *)
Lemma applyPart_error (w : WordSize) (name : string) (o : option string)
    (r : result Period) (e : error) :
  validOpt o -> applyPart w name o r = Err e ->
  r = Err e \/ rangeError w e.
Proof.
  intros Hv. destruct r as [p|e']; cbn; [|intros [= ->]; now left].
  destruct o as [ds|]; [|discriminate].
  destruct (Atoi_number w ds Hv) as [_ ->].
  destruct (Z.leb_spec (numberValue ds) (GoInt.maxInt w)); [discriminate|].
  intros [= <-]. right. exists ds. auto.
Qed.

Lemma periodOfText_error (w : WordSize) (oy om od : option string)
    (ot : option (option string * option string * option string)) (e : error) :
  validOpt oy -> validOpt om -> validOpt od -> validTime ot ->
  periodOfText w oy om od ot = Err e -> rangeError w e.
Proof.
  intros Hy Hm Hd Ht.
  assert (Hh : validOpt (timeHour ot) /\ validOpt (timeMinute ot)
               /\ validOpt (timeSecond ot)).
  { destruct ot as [[[? ?] ?]|]; cbn in *; tauto. }
  destruct Hh as (Hh & Hmi & Hse). unfold periodOfText. intros H.
  repeat (apply applyPart_error in H; [|assumption];
          destruct H as [H|H]; [|exact H]).
  discriminate.
Qed.

Lemma FromString_examples (w : WordSize) :
  FromString w "PT1S" = Ok (mkPeriod 0 0 0 0 0 0 1) /\
  FromString w "P7W" = Ok (mkPeriod 0 0 7 0 0 0 0) /\
  FromString w "DT1S" = Err errPeriodBadFormat /\
  FromString w "P1S" = Err errPeriodBadFormat.
Proof. destruct w; vm_compute; auto. Qed.

(** One step of the loop on a period: the range error of Atoi for a
    number that does not fit [int], and the field set otherwise. *)
Lemma applyPart_oversized (w : WordSize) (name : string) (o : option string)
    (p : Period) :
  validOpt o ->
  applyPart w name o (Ok p) =
  match oversized w o with
  | Some ds => Err (errAtoiRange ds)
  | None => Ok (match o with
                | Some _ => setField name (optValue o) p
                | None => p
                end)
  end.
Proof.
  intros Hv. destruct o as [ds|]; cbn [applyPart oversized optValue];
    [|reflexivity].
  destruct (Atoi_number w ds Hv) as [_ ->].
  destruct (numberValue ds <=? GoInt.maxInt w)%Z; reflexivity.
Qed.

Lemma applyPart_Err (w : WordSize) (name : string) (o : option string)
    (e : error) : applyPart w name o (Err e) = Err e.
Proof. reflexivity. Qed.

(** The loop on a text of the grammar: it stops at the first number that
    does not fit [int] with the error of Atoi, and gives the period of
    all the values when there is none. *)
Lemma periodOfText_oversized (w : WordSize) (oy om od : option string)
    (ot : option (option string * option string * option string)) :
  validOpt oy -> validOpt om -> validOpt od -> validTime ot ->
  periodOfText w oy om od ot =
  match firstOversized w oy om od ot with
  | Some ds => Err (errAtoiRange ds)
  | None => Ok (periodOfValues oy om od ot)
  end.
Proof.
  intros Hy Hm Hd Ht.
  assert (Hh : validOpt (timeHour ot) /\ validOpt (timeMinute ot)
               /\ validOpt (timeSecond ot)).
  { destruct ot as [[[? ?] ?]|]; cbn in *; tauto. }
  destruct Hh as (Hh & Hmi & Hse).
  unfold periodOfText, firstOversized, periodOfValues.
  rewrite (applyPart_oversized w "year" oy) by assumption.
  destruct (oversized w oy); cbn [orElse]; [reflexivity|].
  rewrite (applyPart_oversized w "month" om) by assumption.
  destruct (oversized w om); cbn [orElse]; [reflexivity|].
  rewrite (applyPart_oversized w "day" od) by assumption.
  destruct (oversized w od); cbn [orElse]; [reflexivity|].
  rewrite (applyPart_oversized w "hour") by assumption.
  destruct (oversized w (timeHour ot)); cbn [orElse]; [reflexivity|].
  rewrite (applyPart_oversized w "minute") by assumption.
  destruct (oversized w (timeMinute ot)); cbn [orElse]; [reflexivity|].
  rewrite (applyPart_oversized w "second") by assumption.
  destruct (oversized w (timeSecond ot)); [reflexivity|].
  f_equal.
  destruct oy, om, od, (timeHour ot), (timeMinute ot), (timeSecond ot);
    reflexivity.
Qed.

(** C5, as amended: FromString fails with the BadFormat error exactly
    when the text is in neither grammar; its only other failure is the
    range error of strconv.Atoi, passed on as it is, for a number of the
    text that does not fit [int].  On a text of the grammar
    [P[nY][nM][nD][T[nH][nM][nS]]] it fails with that error for the first
    number (year, month, day, hour, minute, second in this order) that
    does not fit, and returns the period of all the values when every
    number fits; on [PnW] it fails with that error when [n] does not
    fit and returns the period of [n] weeks when it does: an error or
    the whole period, never a part of it.  The four texts of the test
    give the results of the test. *)
Theorem FromString_BadFormat_iff (w : WordSize) (s : string) :
  (FromString w s = Err errPeriodBadFormat <-> ~ (periodText s \/ weekText s)) /\
  (forall e, FromString w s = Err e ->
             e = errPeriodBadFormat \/ rangeError w e) /\
  (forall oy om od ot,
      validOpt oy -> validOpt om -> validOpt od -> validTime ot ->
      s = periodStr oy om od ot ->
      FromString w s =
      match firstOversized w oy om od ot with
      | Some ds => Err (errAtoiRange ds)
      | None => Ok (periodOfValues oy om od ot)
      end) /\
  (forall ds,
      number ds -> s = "P" ++ ds ++ "W" ->
      FromString w s =
      if (numberValue ds <=? GoInt.maxInt w)%Z
      then Ok (mkPeriod 0 0 (numberValue ds) 0 0 0 0)
      else Err (errAtoiRange ds)) /\
  (FromString w "PT1S" = Ok (mkPeriod 0 0 0 0 0 0 1) /\
   FromString w "P7W" = Ok (mkPeriod 0 0 7 0 0 0 0) /\
   FromString w "DT1S" = Err errPeriodBadFormat /\
   FromString w "P1S" = Err errPeriodBadFormat).
Proof.
  split; [|split; [|split; [|split; [|apply FromString_examples]]]].
  - destruct (FromString_cases w s)
      as [(ds & Hn & -> & E)|[(oy & om & od & ot & Hy & Hm & Hd & Ht & -> & E)
                             |(Hw & Hp & E)]].
    + split.
      * rewrite E. intros H. apply applyPart_error in H as [H|(? & _ & _ & H)];
          [discriminate|discriminate|exact Hn].
      * intros H. exfalso. apply H. right. exists ds. auto.
    + split.
      * rewrite E. intros H.
        apply periodOfText_error in H as (? & _ & _ & H); try assumption.
        discriminate.
      * intros H. exfalso. apply H. left. apply periodText_opt.
        exists oy, om, od, ot. auto.
    + split; [tauto|intros _; exact E].
  - intros e He.
    destruct (FromString_cases w s)
      as [(ds & Hn & -> & E)|[(oy & om & od & ot & Hy & Hm & Hd & Ht & -> & E)
                             |(Hw & Hp & E)]].
    + rewrite E in He. apply applyPart_error in He as [He|He];
        [discriminate|now right|exact Hn].
    + rewrite E in He. right. now apply periodOfText_error in He.
    + rewrite E in He. left. congruence.
  - intros oy om od ot Hy Hm Hd Ht ->.
    rewrite FromString_periodStr by assumption.
    now apply periodOfText_oversized.
  - intros ds Hn ->. rewrite FromString_weekStr by assumption.
    rewrite (applyPart_oversized w "week" (Some ds) zeroPeriod Hn).
    cbn [oversized optValue].
    destruct (numberValue ds <=? GoInt.maxInt w)%Z; reflexivity.
Qed.

(** C5 as stated fails on a number that does not fit [int]: the text is
    in the grammar, Atoi fails, and the error returned is Atoi's range
    error, not BadFormat. *)
Lemma FromString_range_error :
  let s := "P99999999999999999999Y" in
  periodText s /\
  Atoi W64 "99999999999999999999" = Err (errAtoiRange "99999999999999999999") /\
  FromString W64 s = Err (errAtoiRange "99999999999999999999") /\
  FromString W64 s <> Err errPeriodBadFormat.
Proof.
  cbv zeta. split; [|split; [vm_compute; reflexivity|split]].
  - exists "99999999999999999999Y", "", "", "".
    repeat split; try (now left).
    right. exists "99999999999999999999". repeat split. discriminate.
  - vm_compute; reflexivity.
  - vm_compute; discriminate.
Qed.


(** ** Printing and reading back an [int] *)

Lemma allDigits_string_of_uint (d : Decimal.uint) :
  allDigits (NilEmpty.string_of_uint d) = true.
Proof. induction d; cbn; auto. Qed.

Lemma to_uint_nonnil (p : positive) : Pos.to_uint p <> Decimal.Nil.
Proof.
  intros H. pose proof (DecimalPos.Unsigned.of_to p) as E.
  rewrite H in E. discriminate.
Qed.

Lemma formatInt_pos (x : Z) :
  0 < x -> number (formatInt x) /\ numberValue (formatInt x) = x.
Proof.
  destruct x as [|p|p]; try lia. intros _.
  unfold formatInt, numberValue. cbn [Z.to_int NilZero.string_of_int].
  pose proof (to_uint_nonnil p) as Hn.
  rewrite (NilZero.usu _ Hn).
  unfold Z.of_uint. rewrite DecimalPos.Unsigned.of_to. cbn [Z.of_N].
  split; [|reflexivity]. unfold NilZero.string_of_uint.
  destruct (Pos.to_uint p) eqn:E; try contradiction;
    (split; [discriminate|rewrite <- E at 1; apply allDigits_string_of_uint
                          || apply (allDigits_string_of_uint (Pos.to_uint p))]).
Qed.

Lemma optOf_valid (x : Z) : 0 <= x -> validOpt (optOf x).
Proof.
  intros Hx. unfold optOf, nonzero. destruct (Z.eqb_spec x 0); cbn; [exact I|].
  apply formatInt_pos. lia.
Qed.

Lemma tmplField_unitStr (x : Z) (c : ascii) :
  tmplField x c = unitStr c (optOf x).
Proof. unfold tmplField, optOf. destruct (nonzero x); reflexivity. Qed.

Lemma applyPart_optOf (w : WordSize) (name : string) (x : Z) (p : Period) :
  0 <= x <= GoInt.maxInt w ->
  applyPart w name (optOf x) (Ok p) =
  Ok (if nonzero x then setField name x p else p).
Proof.
  intros Hx. unfold optOf, nonzero. destruct (Z.eqb_spec x 0); cbn; [reflexivity|].
  destruct (formatInt_pos x ltac:(lia)) as [Hn Hv].
  destruct (Atoi_number w (formatInt x) Hn) as [_ ->]. rewrite Hv.
  destruct (Z.leb_spec x (GoInt.maxInt w)); [reflexivity|lia].
Qed.

Lemma nonzero_false (x : Z) : nonzero x = false -> x = 0.
Proof. unfold nonzero. destruct (Z.eqb_spec x 0); [auto|discriminate]. Qed.

(** The text of a period without weeks is a text of the grammar. *)
Lemma PeriodString_periodStr (p : Period) :
  Weeks p = 0 ->
  PeriodString p =
  periodStr (optOf (Years p)) (optOf (Months p)) (optOf (Days p))
    (if HasTimePart p
     then Some (optOf (Hours p), optOf (Minutes p), optOf (Seconds p))
     else None).
Proof.
  intros HW. unfold PeriodString, periodStr. rewrite HW, !tmplField_unitStr.
  change (unitStr "W" (optOf 0)) with "". cbn [append].
  do 3 f_equal. unfold HasTimePart.
  destruct (nonzero (Hours p)) eqn:EH; [reflexivity|].
  destruct (nonzero (Minutes p)) eqn:EM; [reflexivity|].
  destruct (nonzero (Seconds p)) eqn:ES; [reflexivity|].
  unfold optOf. rewrite EH, EM, ES. reflexivity.
Qed.

Lemma setField_nonzero (name : string) (x : Z) (p : Period) :
  setField name x p = p ->
  (if nonzero x then setField name x p else p) = p.
Proof. intros H. destruct (nonzero x); congruence. Qed.

Lemma periodOfText_optOf (w : WordSize) (p : Period) :
  wfPeriod w p -> nonNegPeriod p -> Weeks p = 0 ->
  periodOfText w (optOf (Years p)) (optOf (Months p)) (optOf (Days p))
    (if HasTimePart p
     then Some (optOf (Hours p), optOf (Minutes p), optOf (Seconds p))
     else None) = Ok p.
Proof.
  intros (HY & HMo & _ & HD & HH & HM & HS) (nY & nMo & _ & nD & nH & nM & nS) HW.
  unfold GoInt.inRange in *.
  assert (Eh : timeHour (if HasTimePart p
     then Some (optOf (Hours p), optOf (Minutes p), optOf (Seconds p))
     else None) = optOf (Hours p)).
  { unfold HasTimePart, optOf.
    destruct (nonzero (Hours p)), (nonzero (Minutes p)), (nonzero (Seconds p));
      reflexivity. }
  assert (Em : timeMinute (if HasTimePart p
     then Some (optOf (Hours p), optOf (Minutes p), optOf (Seconds p))
     else None) = optOf (Minutes p)).
  { unfold HasTimePart, optOf.
    destruct (nonzero (Hours p)), (nonzero (Minutes p)), (nonzero (Seconds p));
      reflexivity. }
  assert (Es : timeSecond (if HasTimePart p
     then Some (optOf (Hours p), optOf (Minutes p), optOf (Seconds p))
     else None) = optOf (Seconds p)).
  { unfold HasTimePart, optOf.
    destruct (nonzero (Hours p)), (nonzero (Minutes p)), (nonzero (Seconds p));
      reflexivity. }
  unfold periodOfText. rewrite Eh, Em, Es.
  rewrite !applyPart_optOf by lia.
  destruct p as [y mo wk d h mi s];
    cbn [Years Months Weeks Days Hours Minutes Seconds] in *. subst wk.
  f_equal. unfold zeroPeriod.
  destruct (nonzero y) eqn:Ey; [|apply nonzero_false in Ey; subst y];
  (destruct (nonzero mo) eqn:Emo; [|apply nonzero_false in Emo; subst mo]);
  (destruct (nonzero d) eqn:Ed; [|apply nonzero_false in Ed; subst d]);
  (destruct (nonzero h) eqn:Eh'; [|apply nonzero_false in Eh'; subst h]);
  (destruct (nonzero mi) eqn:Emi; [|apply nonzero_false in Emi; subst mi]);
  (destruct (nonzero s) eqn:Es'; [|apply nonzero_false in Es'; subst s]);
  reflexivity.
Qed.

(** The text of a period with weeks only. *)
Lemma PeriodString_weeks (x : Z) :
  0 < x -> PeriodString (mkPeriod 0 0 x 0 0 0 0) = "P" ++ formatInt x ++ "W".
Proof.
  intros Hx. unfold PeriodString, HasTimePart, tmplField, nonzero.
  cbn [Years Months Weeks Days Hours Minutes Seconds].
  destruct (Z.eqb_spec x 0); [lia|]. cbn. now rewrite append_nil_r.
Qed.

Lemma FromString_PeriodString_noWeeks (w : WordSize) (p : Period) :
  wfPeriod w p -> nonNegPeriod p -> Weeks p = 0 ->
  FromString w (PeriodString p) = Ok p.
Proof.
  intros Hwf Hnn HW. rewrite PeriodString_periodStr by assumption.
  pose proof Hnn as (nY & nMo & _ & nD & nH & nM & nS).
  rewrite FromString_periodStr.
  - now apply periodOfText_optOf.
  - now apply optOf_valid.
  - now apply optOf_valid.
  - now apply optOf_valid.
  - destruct (HasTimePart p); cbn; auto using optOf_valid.
Qed.

Lemma FromString_PeriodString (w : WordSize) (p : Period) :
  wfPeriod w p -> nonNegPeriod p -> weeksExclusive p ->
  FromString w (PeriodString p) = Ok p.
Proof.
  intros Hwf Hnn [HW|(HY & HMo & HD & HH & HM & HS)].
  - now apply FromString_PeriodString_noWeeks.
  - destruct (Z.eq_dec (Weeks p) 0) as [HW|HW].
    + now apply FromString_PeriodString_noWeeks.
    + destruct p as [y mo wk d h mi s];
        cbn [Years Months Weeks Days Hours Minutes Seconds] in *. subst.
      destruct Hnn as (_ & _ & nW & _). destruct Hwf as (_ & _ & HWr & _).
      cbn [Weeks] in *. unfold GoInt.inRange in HWr.
      rewrite PeriodString_weeks by lia.
      destruct (formatInt_pos wk ltac:(lia)) as [Hn Hv].
      rewrite FromString_weekStr by assumption.
      cbn [applyPart]. destruct (Atoi_number w (formatInt wk) Hn) as [_ ->].
      rewrite Hv. destruct (Z.leb_spec wk (GoInt.maxInt w)); [reflexivity|lia].
Qed.

(** C8, as amended: for a period of non-negative fields that has no
    weeks or has weeks only, FromString of its text succeeds and gives
    the period itself; the result is Normalize of the period exactly when
    the period is already normalized. *)
Theorem FromString_String_roundtrip (w : WordSize) (p : Period) :
  wfPeriod w p -> nonNegPeriod p -> weeksExclusive p ->
  FromString w (PeriodString p) = Ok p /\
  (FromString w (PeriodString p) = Ok (Normalize w p) <-> Normalize w p = p).
Proof.
  intros Hwf Hnn Hex. rewrite (FromString_PeriodString w p Hwf Hnn Hex).
  split; [reflexivity|]. split; [intros [= H]; now symmetry|now intros ->].
Qed.

Lemma FromString_String_roundtrip_witness :
  FromString W64 (PeriodString (mkPeriod 6 5 0 4 3 2 1))
  = Ok (mkPeriod 6 5 0 4 3 2 1).
Proof.
  refine (proj1 (FromString_String_roundtrip W64 (mkPeriod 6 5 0 4 3 2 1) _ _ _)).
  - vm_compute; intuition discriminate.
  - vm_compute; intuition discriminate.
  - left; reflexivity.
Defined.

(** C8 as stated fails on any period that is not normalized: ninety-one
    seconds are printed and read back as ninety-one seconds, not as one
    minute and thirty-one.  A negative field is printed with a minus
    sign, which no text of the grammar has. *)
Lemma FromString_String_not_Normalize :
  let p := mkPeriod 0 0 0 0 0 0 91 in
  let q := mkPeriod (-1) 0 0 0 0 0 0 in
  (PeriodString p = "PT91S" /\
   FromString W64 (PeriodString p) = Ok p /\
   Normalize W64 p = mkPeriod 0 0 0 0 0 1 31 /\
   FromString W64 (PeriodString p) <> Ok (Normalize W64 p)) /\
  (PeriodString q = "P-1Y" /\
   FromString W64 (PeriodString q) = Err errPeriodBadFormat).
Proof.
  cbv zeta. repeat split; try (vm_compute; reflexivity).
  vm_compute; discriminate.
Qed.


Local Open Scope Z_scope.

(** ** The calendar *)

Lemma shiftr2_div (n : Z) : Z.shiftr n 2 = n / 4.
Proof. rewrite Z.shiftr_div_pow2 by lia. reflexivity. Qed.

Lemma isLeap_true (y : Z) :
  isLeap y = true <-> y mod 4 = 0 /\ (y mod 100 <> 0 \/ y mod 400 = 0).
Proof.
  unfold isLeap. rewrite andb_true_iff, orb_true_iff, negb_true_iff.
  rewrite !Z.eqb_eq, Z.eqb_neq. tauto.
Qed.

(** The cycles of [yearOfDays] add up to the days before the year, and
    the day of the year lies within the year. *)
Lemma yearOfDays_spec (d : Z) :
  daysBeforeYear (fst (yearOfDays d)) + snd (yearOfDays d) = d /\
  0 <= snd (yearOfDays d)
    < (if isLeap (fst (yearOfDays d)) then 366 else 365).
Proof.
  unfold yearOfDays, daysBeforeYear, daysPer400Years, daysPer100Years,
    daysPer4Years. cbv zeta. cbn [fst snd]. rewrite !shiftr2_div.
  set (n400 := d / 146097).
  set (r1 := d - 146097 * n400).
  assert (H1 : 0 <= r1 < 146097) by (subst r1 n400; zdiv).
  set (q100 := r1 / 36524).
  assert (Hq100 : 0 <= q100 <= 4) by (subst q100; zdiv).
  set (n100 := q100 - q100 / 4).
  assert (Hn100 : 0 <= n100 <= 3 /\ (q100 <= 3 -> n100 = q100) /\ (q100 = 4 -> n100 = 3))
    by (subst n100; zdiv).
  set (r2 := r1 - 36524 * n100).
  assert (H2 : 0 <= r2 <= 36524 /\ (n100 < 3 -> r2 < 36524))
    by (subst r2 q100; zdiv).
  set (n4 := r2 / 1461).
  assert (Hn4 : 0 <= n4 <= 24) by (subst n4; zdiv).
  set (r3 := r2 - 1461 * n4).
  assert (H3 : 0 <= r3 < 1461) by (subst r3 n4; zdiv).
  set (q1 := r3 / 365).
  assert (Hq1 : 0 <= q1 <= 4) by (subst q1; zdiv).
  set (n1 := q1 - q1 / 4).
  assert (Hn1 : 0 <= n1 <= 3 /\ (q1 <= 3 -> n1 = q1) /\ (q1 = 4 -> n1 = 3))
    by (subst n1; zdiv).
  set (yd := r3 - 365 * n1).
  assert (Hyd : 0 <= yd <= 365 /\ (n1 < 3 -> yd < 365)) by (subst yd q1; zdiv).
  replace (400 * n400 + 100 * n100 + 4 * n4 + n1 + 1 - 1)
    with (400 * n400 + 100 * n100 + 4 * n4 + n1) by ring.
  set (y := 400 * n400 + 100 * n100 + 4 * n4 + n1).
  assert (E4 : y / 4 = 100 * n400 + 25 * n100 + n4) by (subst y; zdiv).
  assert (E100 : y / 100 = 4 * n400 + n100) by (subst y; zdiv).
  assert (E400 : y / 400 = n400) by (subst y; zdiv).
  split.
  - rewrite E4, E100, E400. subst y yd r3 r2 r1. lia.
  - destruct (isLeap (y + 1)) eqn:EL.
    + lia.
    + assert (HL : ~ ((y + 1) mod 4 = 0 /\ ((y + 1) mod 100 <> 0 \/ (y + 1) mod 400 = 0))).
      { rewrite <- isLeap_true. congruence. }
      destruct (Z.eq_dec n1 3) as [En1|]; [|lia].
      assert (M4 : (y + 1) mod 4 = 0) by (subst y; zdiv).
      destruct (Z.eq_dec n4 24) as [En4|].
      * destruct (Z.eq_dec n100 3) as [En100|].
        -- exfalso. apply HL. split; [assumption|right]. subst y; zdiv.
        -- assert (r2 < 36524) by lia. subst yd r3. lia.
      * exfalso. apply HL. split; [assumption|left]. subst y; zdiv.
Qed.

Lemma monthDayOk_all (leap : bool) :
  forallb (fun n => monthDayOk leap (Z.of_nat n))
          (seq 0 (if leap then 366 else 365)) = true.
Proof. destruct leap; vm_compute; reflexivity. Qed.

Lemma monthDayOf_spec (leap : bool) (yday : Z) :
  0 <= yday < (if leap then 366 else 365) ->
  let '(m, d) := monthDayOf leap yday in
  1 <= m <= 12 /\ 1 <= d <= daysIn leap m /\
  daysBefore (m - 1) + (if leap && (3 <=? m) then 1 else 0) + (d - 1) = yday.
Proof.
  intros H. pose proof (monthDayOk_all leap) as Hall.
  rewrite forallb_forall in Hall.
  specialize (Hall (Z.to_nat yday)).
  rewrite Z2Nat.id in Hall by lia.
  assert (Hin : In (Z.to_nat yday) (seq 0 (if leap then 366 else 365))).
  { apply in_seq. destruct leap; lia. }
  specialize (Hall Hin). unfold monthDayOk in Hall.
  destruct (monthDayOf leap yday) as [m d].
  rewrite !andb_true_iff, !Z.leb_le, Z.eqb_eq in Hall. lia.
Qed.

Lemma daysIn_le_31 (leap : bool) (m : Z) : 1 <= m <= 12 -> daysIn leap m <= 31.
Proof.
  intros H.
  assert (C : m = 1 \/ m = 2 \/ m = 3 \/ m = 4 \/ m = 5 \/ m = 6 \/ m = 7 \/
              m = 8 \/ m = 9 \/ m = 10 \/ m = 11 \/ m = 12) by lia.
  destruct leap; intuition (subst; vm_compute; discriminate).
Qed.

(** A date read from a count of days gives the count back. *)
Lemma civilOfDays_roundtrip (d : Z) :
  let '(y, m, dd) := civilOfDays d in
  daysOfDate y m dd = d /\ 1 <= m <= 12 /\ 1 <= dd <= daysIn (isLeap y) m.
Proof.
  unfold civilOfDays.
  pose proof (yearOfDays_spec (d + unixEpochDays)) as [Hy Hyd].
  destruct (yearOfDays (d + unixEpochDays)) as [y yd]. cbn [fst snd] in *.
  pose proof (monthDayOf_spec (isLeap y) yd Hyd) as Hmd.
  destruct (monthDayOf (isLeap y) yd) as [m dd].
  destruct Hmd as (Hm & Hdd & E). unfold daysOfDate. lia.
Qed.

Lemma norm_id (hi lo base : Z) :
  0 <= lo < base -> norm hi lo base = (hi, lo).
Proof.
  intros H. unfold norm. rewrite Z.div_small, Z.mod_small by lia.
  f_equal. lia.
Qed.

Lemma year_length (y : Z) :
  daysBeforeYear (y + 1) - daysBeforeYear y = if isLeap y then 366 else 365.
Proof.
  unfold daysBeforeYear. cbv zeta.
  replace (y + 1 - 1) with y by ring.
  destruct (isLeap y) eqn:EL.
  - apply isLeap_true in EL. zdiv.
  - assert (HL : ~ (y mod 4 = 0 /\ (y mod 100 <> 0 \/ y mod 400 = 0))).
    { rewrite <- isLeap_true. congruence. }
    zdiv.
Qed.

Lemma wrap64_id (x : Z) : inInt64 x -> wrap64 x = x.
Proof. intros H. apply (wrap_id W64 x). exact H. Qed.

(** ** [time.Date] *)

Lemma Date_normal (y m d h mi s ns : Z) (loc : Location) :
  1 <= m <= 12 -> 0 <= h < 24 -> 0 <= mi < 60 -> 0 <= s < 60 ->
  0 <= ns < 1000000000 ->
  Date y m d h mi s ns loc =
  let unix := daysOfDate y m d * secondsPerDay + h * 3600 + mi * 60 + s in
  mkTime (unix - dateOffset loc unix) ns loc.
Proof.
  intros Hm Hh Hmi Hs Hns. unfold Date.
  rewrite (norm_id y (m - 1) 12) by lia.
  rewrite (norm_id s ns), (norm_id mi s), (norm_id h mi), (norm_id d h) by lia.
  replace (m - 1 + 1) with m by ring. cbv zeta.
  unfold dateOffset.
  destruct (lookup loc _) as [[offset start] end_].
  destruct (offset =? 0); [now rewrite Z.sub_0_r|reflexivity].
Qed.

Lemma lookupFrom_bounded (tx : list (Z * Z)) (off start sec : Z) :
  Z.abs off <= 86400 ->
  Forall (fun t => Z.abs (snd t) <= 86400) tx ->
  Z.abs (fst (fst (lookupFrom off start tx sec))) <= 86400.
Proof.
  revert off start. induction tx as [|[when off'] tx IH]; intros off start Ho Htx.
  - exact Ho.
  - cbn [lookupFrom]. inversion Htx; subst.
    destruct (sec <? when); [exact Ho|]. now apply IH.
Qed.

Lemma zoneOffset_bounded (loc : Location) (sec : Z) :
  boundedLocation loc -> Z.abs (zoneOffset loc sec) <= 86400.
Proof. intros [H0 Htx]. now apply lookupFrom_bounded. Qed.

Lemma dateOffset_bounded (loc : Location) (unix : Z) :
  boundedLocation loc -> Z.abs (dateOffset loc unix) <= 86400.
Proof.
  intros Hb. unfold dateOffset.
  pose proof (zoneOffset_bounded loc unix Hb) as H1. unfold zoneOffset in H1.
  destruct (lookup loc unix) as [[offset start] end_]. cbn [fst] in H1.
  destruct (offset =? 0); [cbn; lia|]. cbv zeta.
  destruct ((unix - offset <? start) || (end_ <=? unix - offset));
    [now apply zoneOffset_bounded|exact H1].
Qed.

Lemma dateOffset_fixed (o unix : Z) : dateOffset (FixedZone o) unix = o.
Proof.
  unfold dateOffset, lookup, FixedZone, zoneOffset, lookup. cbn.
  destruct (Z.eqb_spec o 0); [auto|].
  destruct ((unix - o <? alpha) || (omega <=? unix - o)); reflexivity.
Qed.

Lemma daysOfDate_jan1 (y : Z) : daysOfDate y 1 1 = daysBeforeYear y - unixEpochDays.
Proof.
  unfold daysOfDate. rewrite andb_false_r.
  change (daysBefore (1 - 1)) with 0. lia.
Qed.

(** ** DaysInYear *)

Lemma isLeap_days (y : Z) : 365 <= (if isLeap y then 366 else 365) <= 366.
Proof. destruct (isLeap y); lia. Qed.

(** The year from one 1 January 00:00 to the next, in seconds of elapsed
    time. *)
Lemma DaysInYear_elapsed (w : WordSize) (y : Z) (loc : Location) :
  representableYear w y ->
  Z.abs (dateOffset loc (daysOfDate (y + 1) 1 1 * 86400)
         - dateOffset loc (daysOfDate y 1 1 * 86400)) <= 2 * 86400 ->
  let elapsed := unixSec (Date (y + 1) 1 1 0 0 0 0 loc)
                 - unixSec (Date y 1 1 0 0 0 0 loc) in
  DaysInYear w y loc = Z.quot elapsed 86400 /\
  elapsed = (if isLeap y then 366 else 365) * 86400
            - (dateOffset loc (daysOfDate (y + 1) 1 1 * 86400)
               - dateOffset loc (daysOfDate y 1 1 * 86400)).
Proof.
  intros [Hy _] B. cbv zeta. unfold DaysInYear.
  rewrite add_exact by (unfold GoInt.inRange; lia).
  rewrite !Date_normal by lia. cbv zeta. cbn [unixSec nsec].
  unfold secondsPerDay. rewrite !Z.mul_0_l, !Z.add_0_r.
  set (o1 := dateOffset loc (daysOfDate (y + 1) 1 1 * 86400)) in *.
  set (o0 := dateOffset loc (daysOfDate y 1 1 * 86400)) in *.
  pose proof (year_length y) as HL. pose proof (isLeap_days y) as HD.
  rewrite !daysOfDate_jan1.
  set (L := if isLeap y then 366 else 365) in *.
  assert (E : (daysBeforeYear (y + 1) - unixEpochDays) * 86400 - o1
              - ((daysBeforeYear y - unixEpochDays) * 86400 - o0)
              = L * 86400 - (o1 - o0)) by lia.
  rewrite E. split; [|reflexivity].
  unfold Time_Sub. cbn [unixSec nsec]. rewrite E.
  unfold Hour, Minute, Second, Millisecond, Microsecond, Nanosecond,
    minInt64, maxInt64.
  replace (0 - 0) with 0 by ring.
  set (e := L * 86400 - (o1 - o0)).
  assert (He : 0 <= e <= 368 * 86400) by (subst e; lia).
  destruct (Z.ltb_spec (e * (1000 * (1000 * (1000 * 1))) + 0) (-9223372036854775808));
    [lia|].
  destruct (Z.ltb_spec 9223372036854775807 (e * (1000 * (1000 * (1000 * 1))) + 0));
    [lia|].
  change (wrap64 (60 * (60 * (1000 * (1000 * (1000 * 1)))) * 24))
    with 86400000000000.
  replace (Z.quot (e * (1000 * (1000 * (1000 * 1))) + 0) 86400000000000)
    with (Z.quot e 86400).
  2:{ rewrite !Z.quot_div_nonneg by lia. zdiv. }
  assert (Hq : 0 <= Z.quot e 86400 <= 368).
  { rewrite Z.quot_div_nonneg by lia. zdiv. }
  rewrite wrap64_id by (unfold inInt64, minInt64, maxInt64; lia).
  rewrite (wrap_small w) by lia. reflexivity.
Qed.

(** Midnight of 1 January in a zone of offsets within a day, for the
    years the package counts and the year after the last: an instant the
    package holds without wrap-around, where the model is exact. *)
Lemma Date_jan1_representable (y : Z) (loc : Location) :
  -292277022399 <= y <= 292277022400 -> boundedLocation loc ->
  representable (Date y 1 1 0 0 0 0 loc).
Proof.
  intros Hy Hb. rewrite Date_normal by lia. cbv zeta.
  unfold representable. cbn [unixSec].
  unfold secondsPerDay. rewrite !Z.mul_0_l, !Z.add_0_r.
  pose proof (dateOffset_bounded loc (daysOfDate y 1 1 * 86400) Hb) as Ho.
  revert Ho. generalize (dateOffset loc (daysOfDate y 1 1 * 86400)).
  intros o Ho. rewrite daysOfDate_jan1.
  unfold daysBeforeYear, unixEpochDays, unixToInternal, inInt64,
    minInt64, maxInt64. cbv zeta.
  clear Hb loc. zdiv.
Qed.

Lemma FixedZone_bounded (o : Z) :
  Z.abs o <= 86400 -> boundedLocation (FixedZone o).
Proof. intros H. split; [exact H|constructor]. Qed.

Lemma DaysInYear_FixedZone (w : WordSize) (y o : Z) :
  representableYear w y -> Z.abs o <= 86400 ->
  DaysInYear w y (FixedZone o) = if isLeap y then 366 else 365.
Proof.
  intros Hy _.
  destruct (DaysInYear_elapsed w y (FixedZone o) Hy) as [-> ->].
  - rewrite !dateOffset_fixed. replace (o - o) with 0 by ring. cbn; lia.
  - rewrite !dateOffset_fixed, Z.sub_diag, Z.sub_0_r.
    destruct (isLeap y); reflexivity.
Qed.

(** Where the offset of the zone never changes the function counts the
    days of the year: for a year the time package represents and a zone
    of a fixed offset within a day (UTC among them), DaysInYear is 366
    if and only if the year is a Gregorian leap year, and 365 otherwise.
    In any zone whose offsets are within a day it is the number of whole
    24-hour blocks of elapsed time from 1 January 00:00 of the year to
    1 January 00:00 of the next, two instants the package holds without
    wrap-around. *)
Lemma DaysInYear_leap (w : WordSize) (y o : Z) (loc : Location) :
  representableYear w y -> Z.abs o <= 86400 -> boundedLocation loc ->
  (DaysInYear w y (FixedZone o) = 366 <-> isLeap y = true) /\
  (isLeap y = false -> DaysInYear w y (FixedZone o) = 365) /\
  (isLeap y = true <->
   y mod 4 = 0 /\ (y mod 100 <> 0 \/ y mod 400 = 0)) /\
  DaysInYear w y loc =
  Z.quot (unixSec (Date (y + 1) 1 1 0 0 0 0 loc)
          - unixSec (Date y 1 1 0 0 0 0 loc)) 86400 /\
  representable (Date y 1 1 0 0 0 0 loc) /\
  representable (Date (y + 1) 1 1 0 0 0 0 loc) /\
  representable (Date y 1 1 0 0 0 0 (FixedZone o)) /\
  representable (Date (y + 1) 1 1 0 0 0 0 (FixedZone o)).
Proof.
  intros Hy Ho Hb. rewrite (DaysInYear_FixedZone w y o Hy Ho).
  assert (Hy' : -292277022399 <= y <= 292277022399) by apply Hy.
  split; [|split; [|split; [|split]]].
  - destruct (isLeap y); split; congruence || discriminate.
  - now intros ->.
  - apply isLeap_true.
  - apply DaysInYear_elapsed; [assumption|].
    pose proof (dateOffset_bounded loc (daysOfDate (y + 1) 1 1 * 86400) Hb).
    pose proof (dateOffset_bounded loc (daysOfDate y 1 1 * 86400) Hb).
    lia.
  - repeat split; apply Date_jan1_representable;
      try lia; try assumption; now apply FixedZone_bounded.
Qed.

(** The years 2016 and 2017 in UTC. *)
Lemma DaysInYear_UTC_examples :
  DaysInYear W64 2016 UTC = 366 /\ DaysInYear W64 2017 UTC = 365.
Proof.
  assert (Hb : boundedLocation Amsterdam).
  { split; [vm_compute; discriminate|].
    repeat constructor; vm_compute; discriminate. }
  assert (H16 : representableYear W64 2016) by (vm_compute; intuition discriminate).
  assert (H17 : representableYear W64 2017) by (vm_compute; intuition discriminate).
  assert (Ho : Z.abs 0 <= 86400) by (vm_compute; discriminate).
  split.
  - apply (proj1 (DaysInYear_leap W64 2016 0 Amsterdam H16 Ho Hb)). reflexivity.
  - apply (proj1 (proj2 (DaysInYear_leap W64 2017 0 Amsterdam H17 Ho Hb))).
    reflexivity.
Qed.

(** C9, on the code: DaysInYear does not count the days of the year, it
    divides the elapsed time of the year by 24 hours.  Pyongyang moved
    its clocks forward by half an hour on 4 May 2018, so the common year
    2018 lasted 364 days, 23 hours and 30 minutes there, and DaysInYear
    returns 364, with either size of [int], where the year has 365 days
    (and where the same call in UTC returns 365).  The two instants are
    ones the package holds without wrap-around. *)
Theorem DaysInYear_Pyongyang_2018 :
  isLeap 2018 = false /\
  Time_Sub (Date 2019 1 1 0 0 0 0 Pyongyang) (Date 2018 1 1 0 0 0 0 Pyongyang)
  = 364 * (24 * Hour) + 23 * Hour + 30 * Minute /\
  DaysInYear W64 2018 Pyongyang = 364 /\
  DaysInYear W64 2018 Pyongyang <> 365 /\
  DaysInYear W32 2018 Pyongyang = 364 /\
  DaysInYear W64 2018 UTC = 365 /\
  representable (Date 2018 1 1 0 0 0 0 Pyongyang) /\
  representable (Date 2019 1 1 0 0 0 0 Pyongyang).
Proof.
  split; [reflexivity|]. split; [vm_compute; reflexivity|].
  split; [vm_compute; reflexivity|]. split; [vm_compute; discriminate|].
  split; [vm_compute; reflexivity|]. split; [vm_compute; reflexivity|].
  split; vm_compute; intuition discriminate.
Qed.


(** ** Apply *)

Lemma Apply_Weeks (w : WordSize) (p : Period) (t : Time) :
  Apply w p t =
  Apply w (mkPeriod (Years p) (Months p) 0 (Days p) (Hours p) (Minutes p)
                    (Seconds p)) t.
Proof. reflexivity. Qed.

(** The cases of [TestPeriodApply]. *)
Lemma Apply_examples (w : WordSize) :
  Apply w (mkPeriod 1 1 0 1 1 1 1) (Date 2017 3 7 12 30 45 999999999 UTC)
  = Date 2018 4 8 13 31 46 999999999 UTC /\
  Apply w (mkPeriod 0 0 0 1 12 0 0) (Date 2017 3 26 0 0 0 0 Amsterdam)
  = Date 2017 3 27 12 0 0 0 Amsterdam /\
  Apply w (mkPeriod 0 0 0 0 36 0 0) (Date 2017 3 26 0 0 0 0 Amsterdam)
  = Date 2017 3 27 13 0 0 0 Amsterdam /\
  Apply w (mkPeriod 0 0 0 0 36 0 0) (Date 2017 10 29 0 0 0 0 Amsterdam)
  = Date 2017 10 30 11 0 0 0 Amsterdam.
Proof. destruct w; vm_compute; auto. Qed.

(** C7, on the code: Apply does not read the Weeks of the period.  One
    week applied to 7 March 2017 12:30:45.999999999 UTC gives that same
    instant, where seven days give 14 March; and on every input the
    result is that of the period without its weeks. *)
Theorem Apply_ignores_Weeks :
  let t := Date 2017 3 7 12 30 45 999999999 UTC in
  Apply W64 (mkPeriod 0 0 1 0 0 0 0) t = t /\
  Apply W64 (mkPeriod 0 0 0 7 0 0 0) t = Date 2017 3 14 12 30 45 999999999 UTC /\
  Apply W64 (mkPeriod 0 0 1 0 0 0 0) t
  <> Apply W64 (mkPeriod 0 0 0 7 0 0 0) t /\
  (forall w p u,
      Apply w p u =
      Apply w (mkPeriod (Years p) (Months p) 0 (Days p) (Hours p) (Minutes p)
                        (Seconds p)) u).
Proof.
  cbv zeta. split; [vm_compute; reflexivity|].
  split; [vm_compute; reflexivity|].
  split; [vm_compute; discriminate|]. intros; reflexivity.
Qed.

(** ** The flow of components in Between *)

Ltac flow_cases :=
  repeat match goal with
  | |- context [?a >? ?b] => destruct (Z.gtb_spec a b)
  | |- context [?a <? ?b] => destruct (Z.ltb_spec a b)
  end; cbn [andb]; try lia.


Lemma flowSeconds_examples :
  flowSeconds W64 (-2) 30 = (-1, 6) /\ flowSeconds W64 2 (-30) = (1, 30).
Proof. split; reflexivity. Qed.

(** Within Between the first two steps never apply: the hours, minutes
    and seconds are cut from one duration and share its sign. *)
Lemma Between_parts_same_sign (w : WordSize) (diff : Z) :
  inInt64 diff ->
  let hours := GoInt.wrap w (wrap64 (Z.quot diff Hour)) in
  let minutes := GoInt.wrap w (wrap64 (Z.quot (Z.rem diff Hour) Minute)) in
  let seconds :=
    GoInt.wrap w (wrap64 (Z.quot (Z.rem (Z.rem diff Hour) Minute) Second)) in
  flowSeconds w minutes seconds = (minutes, seconds) /\
  flowMinutes w hours minutes = (hours, minutes).
Proof.
  intros Hd. cbv zeta.
  unfold Hour, Minute, Second, Millisecond, Microsecond, Nanosecond.
  change (60 * (60 * (1000 * (1000 * (1000 * 1))))) with 3600000000000.
  change (60 * (1000 * (1000 * (1000 * 1)))) with 60000000000.
  change (1000 * (1000 * (1000 * 1))) with 1000000000.
  unfold inInt64, minInt64, maxInt64 in Hd.
  set (h := Z.quot diff 3600000000000).
  set (mi := Z.quot (Z.rem diff 3600000000000) 60000000000).
  set (s := Z.quot (Z.rem (Z.rem diff 3600000000000) 60000000000) 1000000000).
  assert (Hh : Z.abs h <= 2562047) by (subst h; zdiv).
  assert (Hmi : Z.abs mi < 60) by (subst mi; zdiv).
  assert (Hs : Z.abs s < 60) by (subst s; zdiv).
  assert (Hsign : (0 <= h /\ 0 <= mi /\ 0 <= s) \/ (h <= 0 /\ mi <= 0 /\ s <= 0))
    by (subst h mi s; zdiv).
  rewrite !wrap64_id by (unfold inInt64, minInt64, maxInt64; lia).
  rewrite !(wrap_small w) by lia.
  unfold flowSeconds, flowMinutes. split; flow_cases; reflexivity.
Qed.

Lemma Time_Sub_inInt64 (t u : Time) : inInt64 (Time_Sub t u).
Proof.
  unfold Time_Sub, inInt64.
  destruct (Z.ltb_spec ((unixSec t - unixSec u) * Second + (nsec t - nsec u)) minInt64);
    [unfold minInt64, maxInt64; lia|].
  destruct (Z.ltb_spec maxInt64 ((unixSec t - unixSec u) * Second + (nsec t - nsec u)));
    [unfold minInt64, maxInt64; lia|lia].
Qed.






(** ** Between in a zone of fixed offset *)

Lemma zoneOffset_fixed (o sec : Z) : zoneOffset (FixedZone o) sec = o.
Proof. reflexivity. Qed.

Lemma daysBefore_range (m : Z) : 1 <= m <= 12 -> 0 <= daysBefore (m - 1) <= 334.
Proof.
  intros H.
  assert (C : m = 1 \/ m = 2 \/ m = 3 \/ m = 4 \/ m = 5 \/ m = 6 \/ m = 7 \/
              m = 8 \/ m = 9 \/ m = 10 \/ m = 11 \/ m = 12) by lia.
  repeat (destruct C as [->|C]); try subst m; vm_compute; split; discriminate.
Qed.

(** The date of a day within the era: its year is far inside [int]. *)
Lemma civilOfDays_bounds (d y m dd : Z) :
  Z.abs d <= 208500000002 -> civilOfDays d = (y, m, dd) ->
  Z.abs y <= 600000000 /\ 1 <= m <= 12 /\ 1 <= dd <= 31 /\
  daysOfDate y m dd = d.
Proof.
  intros Hd E. pose proof (civilOfDays_roundtrip d) as H. rewrite E in H.
  destruct H as (Hr & Hm & Hdd).
  pose proof (daysIn_le_31 (isLeap y) m Hm) as H31.
  pose proof (daysBefore_range m Hm) as Hb.
  repeat split; try lia.
  unfold daysOfDate, unixEpochDays in Hr.
  assert (Hl : 0 <= (if isLeap y && (3 <=? m) then 1 else 0) <= 1)
    by (destruct (isLeap y && (3 <=? m)); lia).
  unfold daysBeforeYear in Hr. cbv zeta in Hr.
  zdiv.
Qed.

Lemma clockParts_neg (delta : Z) :
  clockParts (- delta) =
  (- fst (fst (clockParts delta)), - snd (fst (clockParts delta)),
   - snd (clockParts delta)).
Proof.
  unfold clockParts. cbn [fst snd].
  rewrite !Z.rem_opp_l', !Z.quot_opp_l by lia. reflexivity.
Qed.

(** The three parts have the sign of the whole. *)
Lemma clockParts_sign (delta h mi s : Z) :
  Z.abs delta < 86400 -> clockParts delta = (h, mi, s) ->
  Z.abs h < 24 /\ Z.abs mi < 60 /\ Z.abs s < 60 /\
  (0 <= delta -> 0 <= h /\ 0 <= mi /\ 0 <= s) /\
  (delta <= 0 -> h <= 0 /\ mi <= 0 /\ s <= 0).
Proof.
  unfold clockParts. intros Hd [= <- <- <-].
  repeat split; zdiv.
Qed.

Lemma clock_recompose (r : Z) :
  0 <= r < 86400 ->
  0 <= r / 3600 < 24 /\ 0 <= (r mod 3600) / 60 < 60 /\ 0 <= r mod 60 < 60 /\
  r / 3600 * 3600 + (r mod 3600) / 60 * 60 + r mod 60 = r.
Proof. intros H. repeat split; zdiv. Qed.

(** The duration between two instants of whole seconds less than a day
    apart, in hours, minutes and seconds. *)
Lemma duration_parts (w : WordSize) (delta : Z) :
  Z.abs delta < 86400 ->
  let diff := delta * Second in
  (GoInt.wrap w (wrap64 (Z.quot diff Hour)),
   GoInt.wrap w (wrap64 (Z.quot (Z.rem diff Hour) Minute)),
   GoInt.wrap w (wrap64 (Z.quot (Z.rem (Z.rem diff Hour) Minute) Second)))
  = clockParts delta.
Proof.
  intros Hd. cbv zeta.
  unfold Hour, Minute, Second, Millisecond, Microsecond, Nanosecond, clockParts.
  change (60 * (60 * (1000 * (1000 * (1000 * 1))))) with (3600 * 1000000000).
  change (60 * (1000 * (1000 * (1000 * 1)))) with (60 * 1000000000).
  change (1000 * (1000 * (1000 * 1))) with 1000000000.
  rewrite Z.quot_mul_cancel_r by lia.
  rewrite Z.mul_rem_distr_r by lia.
  rewrite Z.quot_mul_cancel_r by lia.
  rewrite Z.mul_rem_distr_r by lia.
  rewrite Z.quot_mul by lia.
  pose proof (clockParts_sign delta _ _ _ Hd eq_refl) as (Hh & Hmi & Hs & _).
  rewrite !wrap64_id by (unfold inInt64, minInt64, maxInt64; lia).
  rewrite !(wrap_small w) by lia. reflexivity.
Qed.

Lemma era_days (t : Time) (o : Z) :
  inEra t -> Z.abs o <= 86400 ->
  Z.abs ((unixSec t + o) / 86400) <= 208500000002.
Proof. intros [H _] Ho. zdiv. Qed.

(** Between in a zone of fixed offset, in closed form: the differences
    of the dates, and the difference of the times of day. *)
Lemma Between_FixedZone (w : WordSize) (a b : Time) (o : Z)
    (y1 m1 d1 y2 m2 d2 : Z) :
  inEra a -> inEra b -> wholeSecond b -> Z.abs o <= 86400 ->
  Time_Equal a b = false ->
  civilOfDays ((unixSec a + o) / 86400) = (y1, m1, d1) ->
  civilOfDays ((unixSec b + o) / 86400) = (y2, m2, d2) ->
  Between w a b (FixedZone o) =
  let '(h, mi, s) :=
    clockParts ((unixSec b + o) mod 86400 - (unixSec a + o) mod 86400) in
  flow w (y2 - y1) (m2 - m1) (d2 - d1) h mi s.
Proof.
  intros Ha Hb Hwb Ho Heq E1 E2.
  pose proof (civilOfDays_bounds _ _ _ _ (era_days a o Ha Ho) E1)
    as (By1 & Bm1 & Bd1 & R1).
  pose proof (civilOfDays_bounds _ _ _ _ (era_days b o Hb Ho) E2)
    as (By2 & Bm2 & Bd2 & R2).
  unfold Between. rewrite Heq.
  unfold Time_Date, Time_Clock, Time_In, localSec, secondsPerDay.
  cbn [unixSec nsec Time_Location]. rewrite !zoneOffset_fixed, E1, E2.
  rewrite (wrap_small w y1), (wrap_small w y2) by lia.
  unfold GoInt.sub, GoInt.add.
  rewrite (wrap_small w (y2 - y1)), (wrap_small w (m2 - m1)),
    (wrap_small w (d2 - d1)) by lia.
  replace (y1 + (y2 - y1)) with y2 by ring.
  replace (m1 + (m2 - m1)) with m2 by ring.
  replace (d1 + (d2 - d1)) with d2 by ring.
  rewrite (wrap_small w y2), (wrap_small w m2), (wrap_small w d2) by lia.
  set (ra := (unixSec a + o) mod 86400).
  set (rb := (unixSec b + o) mod 86400).
  assert (Hra : 0 <= ra < 86400) by (subst ra; zdiv).
  assert (Hrb : 0 <= rb < 86400) by (subst rb; zdiv).
  destruct (clock_recompose ra Hra) as (Hh & Hmi & Hs & Hsum).
  rewrite Date_normal by lia. cbv zeta.
  rewrite dateOffset_fixed, R2. unfold secondsPerDay.
  assert (Ediff :
    Time_Sub {| unixSec := unixSec b; nsec := nsec b; Time_Location := FixedZone o |}
      {| unixSec := (unixSec b + o) / 86400 * 86400 + ra / 3600 * 3600
                    + ra mod 3600 / 60 * 60 + ra mod 60 - o;
         nsec := 0; Time_Location := FixedZone o |}
    = (rb - ra) * Second).
  { unfold Time_Sub. cbn [unixSec nsec]. rewrite Hwb.
    replace (unixSec b - ((unixSec b + o) / 86400 * 86400 + ra / 3600 * 3600
                          + ra mod 3600 / 60 * 60 + ra mod 60 - o))
      with (rb - ra) by (subst rb; zdiv).
    unfold Second, Millisecond, Microsecond, Nanosecond, minInt64, maxInt64.
    destruct (Z.ltb_spec ((rb - ra) * (1000 * (1000 * (1000 * 1))) + (0 - 0))
                         (-9223372036854775808)); [lia|].
    destruct (Z.ltb_spec 9223372036854775807
                         ((rb - ra) * (1000 * (1000 * (1000 * 1))) + (0 - 0)));
      lia. }
  rewrite Ediff.
  pose proof (duration_parts w (rb - ra) ltac:(lia)) as Hparts.
  cbv zeta in Hparts.
  destruct (clockParts (rb - ra)) as [[h mi] s].
  inversion Hparts as [[Eh Em Es]]. rewrite Eh, Em, Es. reflexivity.
Qed.

(** *** The pass and negation *)

Lemma flowSeconds_same_sign (w : WordSize) (mi s : Z) :
  (0 <= mi /\ 0 <= s) \/ (mi <= 0 /\ s <= 0) ->
  flowSeconds w mi s = (mi, s).
Proof. intros H. unfold flowSeconds. flow_cases; reflexivity. Qed.

Lemma flowMinutes_same_sign (w : WordSize) (h mi : Z) :
  (0 <= h /\ 0 <= mi) \/ (h <= 0 /\ mi <= 0) ->
  flowMinutes w h mi = (h, mi).
Proof. intros H. unfold flowMinutes. flow_cases; reflexivity. Qed.

Ltac small_wrap w :=
  unfold GoInt.add, GoInt.sub, GoInt.neg;
  rewrite ?(wrap_small w) by lia.

Lemma flowHours_neg (w : WordSize) (d h : Z) :
  Z.abs d <= 2000000000 -> Z.abs h <= 2000000000 ->
  flowHours w (- d) (- h) =
  (- fst (flowHours w d h), - snd (flowHours w d h)) /\
  Z.abs (fst (flowHours w d h)) <= 2000000000 /\
  Z.abs (snd (flowHours w d h)) <= 2000000024.
Proof.
  intros Hd Hh. unfold flowHours.
  flow_cases; cbn [fst snd]; small_wrap w; repeat split; try lia; f_equal; lia.
Qed.

Lemma flowMonths_neg (w : WordSize) (y mo : Z) :
  Z.abs y <= 2000000000 -> Z.abs mo <= 2000000000 ->
  flowMonths w (- y) (- mo) =
  (- fst (flowMonths w y mo), - snd (flowMonths w y mo)) /\
  Z.abs (fst (flowMonths w y mo)) <= 2000000000 /\
  Z.abs (snd (flowMonths w y mo)) <= 2000000012.
Proof.
  intros Hy Hmo. unfold flowMonths.
  flow_cases; cbn [fst snd]; small_wrap w; repeat split; try lia; f_equal; lia.
Qed.

Lemma flow_neg (w : WordSize) (y mo d delta : Z) :
  Z.abs y <= 2000000000 -> Z.abs mo <= 2000000000 ->
  Z.abs d <= 2000000000 -> Z.abs delta < 86400 ->
  (let '(h, mi, s) := clockParts (- delta) in flow w (- y) (- mo) (- d) h mi s)
  = negPeriod w
      (let '(h, mi, s) := clockParts delta in flow w y mo d h mi s).
Proof.
  intros Hy Hmo Hd Hdelta. rewrite clockParts_neg.
  destruct (clockParts delta) as [[h mi] s] eqn:E. cbn [fst snd].
  destruct (clockParts_sign delta h mi s Hdelta E) as (Hh & Hmi & Hs & Hpos & Hneg).
  assert (Hsign : (0 <= h /\ 0 <= mi /\ 0 <= s) \/ (h <= 0 /\ mi <= 0 /\ s <= 0))
    by (destruct (Z.le_ge_cases 0 delta); [left; apply Hpos|right; apply Hneg]; lia).
  unfold flow.
  rewrite !flowSeconds_same_sign, !flowMinutes_same_sign by lia.
  destruct (flowHours_neg w d h) as (-> & Bd & Bh); try lia.
  destruct (flowMonths_neg w y mo) as (-> & By & Bmo); try lia.
  destruct (flowHours w d h) as [d' h'].
  destruct (flowMonths w y mo) as [y' mo']. cbn [fst snd] in *.
  unfold negPeriod. cbn [Years Months Weeks Days Hours Minutes Seconds].
  small_wrap w. reflexivity.
Qed.

Lemma flowMonths_consistent (w : WordSize) (y mo : Z) :
  Z.abs y <= 2000000000 -> Z.abs mo <= 11 ->
  ~ (0 < fst (flowMonths w y mo) /\ snd (flowMonths w y mo) < 0) /\
  ~ (fst (flowMonths w y mo) < 0 /\ 0 < snd (flowMonths w y mo)).
Proof.
  intros Hy Hmo. unfold flowMonths.
  flow_cases; cbn [fst snd]; small_wrap w; lia.
Qed.

Lemma flowHours_consistent (w : WordSize) (d h : Z) :
  Z.abs d <= 2000000000 -> Z.abs h <= 23 ->
  ~ (0 < fst (flowHours w d h) /\ snd (flowHours w d h) < 0) /\
  ~ (fst (flowHours w d h) < 0 /\ 0 < snd (flowHours w d h)).
Proof.
  intros Hd Hh. unfold flowHours.
  flow_cases; cbn [fst snd]; small_wrap w; lia.
Qed.

Lemma Time_Equal_sym (a b : Time) : Time_Equal a b = Time_Equal b a.
Proof. unfold Time_Equal. now rewrite (Z.eqb_sym (unixSec a)), (Z.eqb_sym (nsec a)). Qed.

Lemma negPeriod_zero (w : WordSize) : negPeriod w zeroPeriod = zeroPeriod.
Proof. destruct w; reflexivity. Qed.

(** Years and months of a result never have opposite signs, nor days
    and hours. *)
Lemma Between_signs (w : WordSize) (a b : Time) (o : Z) :
  inEra a -> inEra b -> wholeSecond b -> Z.abs o <= 86400 ->
  signsAgree (Between w a b (FixedZone o)) /\
  Weeks (Between w a b (FixedZone o)) = 0.
Proof.
  intros Ha Hb Hwb Ho.
  destruct (Time_Equal a b) eqn:Heq.
  { unfold Between. rewrite Heq. unfold signsAgree. cbn. lia. }
  destruct (civilOfDays ((unixSec a + o) / 86400)) as [[y1 m1] d1] eqn:E1.
  destruct (civilOfDays ((unixSec b + o) / 86400)) as [[y2 m2] d2] eqn:E2.
  rewrite (Between_FixedZone w a b o _ _ _ _ _ _ Ha Hb Hwb Ho Heq E1 E2).
  pose proof (civilOfDays_bounds _ _ _ _ (era_days a o Ha Ho) E1)
    as (By1 & Bm1 & Bd1 & _).
  pose proof (civilOfDays_bounds _ _ _ _ (era_days b o Hb Ho) E2)
    as (By2 & Bm2 & Bd2 & _).
  set (delta := (unixSec b + o) mod 86400 - (unixSec a + o) mod 86400).
  assert (Hdelta : Z.abs delta < 86400) by (subst delta; zdiv).
  destruct (clockParts delta) as [[h mi] s] eqn:E.
  destruct (clockParts_sign delta h mi s Hdelta E) as (Hh & Hmi & Hs & Hpos & Hneg).
  assert (Hsign : (0 <= h /\ 0 <= mi /\ 0 <= s) \/ (h <= 0 /\ mi <= 0 /\ s <= 0))
    by (destruct (Z.le_ge_cases 0 delta); [left; apply Hpos|right; apply Hneg]; lia).
  unfold flow.
  rewrite flowSeconds_same_sign, flowMinutes_same_sign by lia.
  pose proof (flowMonths_consistent w (y2 - y1) (m2 - m1)) as HM.
  pose proof (flowHours_consistent w (d2 - d1) h) as HH.
  destruct (flowHours w (d2 - d1) h) as [d' h'].
  destruct (flowMonths w (y2 - y1) (m2 - m1)) as [y' mo'].
  unfold signsAgree. cbn [Years Months Weeks Days Hours fst snd] in *.
  split; [|reflexivity].
  destruct HM as [HM1 HM2]; [lia|lia|].
  destruct HH as [HH1 HH2]; [lia|lia|]. tauto.
Qed.

(** C1, as amended: for timestamps of whole seconds within the era and
    a zone of fixed offset (UTC among them), Between(a, b, z) is the
    field-wise negation of Between(b, a, z); in the result the years and
    the months never have opposite signs, nor the days and the hours, and
    the weeks are zero. *)
Theorem Between_antisymmetric (w : WordSize) (a b : Time) (o : Z) :
  inEra a -> inEra b -> wholeSecond a -> wholeSecond b ->
  Z.abs o <= 86400 ->
  Between w a b (FixedZone o) = negPeriod w (Between w b a (FixedZone o)) /\
  signsAgree (Between w a b (FixedZone o)) /\
  Weeks (Between w a b (FixedZone o)) = 0.
Proof.
  intros Ha Hb Hwa Hwb Ho. split; [|now apply Between_signs].
  destruct (Time_Equal a b) eqn:Heq.
  { unfold Between. rewrite (Time_Equal_sym b a), Heq.
    now rewrite negPeriod_zero. }
  assert (Heq' : Time_Equal b a = false) by now rewrite Time_Equal_sym.
  destruct (civilOfDays ((unixSec a + o) / 86400)) as [[y1 m1] d1] eqn:E1.
  destruct (civilOfDays ((unixSec b + o) / 86400)) as [[y2 m2] d2] eqn:E2.
  rewrite (Between_FixedZone w a b o _ _ _ _ _ _ Ha Hb Hwb Ho Heq E1 E2).
  rewrite (Between_FixedZone w b a o _ _ _ _ _ _ Hb Ha Hwa Ho Heq' E2 E1).
  pose proof (civilOfDays_bounds _ _ _ _ (era_days a o Ha Ho) E1)
    as (By1 & Bm1 & Bd1 & _).
  pose proof (civilOfDays_bounds _ _ _ _ (era_days b o Hb Ho) E2)
    as (By2 & Bm2 & Bd2 & _).
  set (ra := (unixSec a + o) mod 86400).
  set (rb := (unixSec b + o) mod 86400).
  assert (Hra : 0 <= ra < 86400) by (subst ra; zdiv).
  assert (Hrb : 0 <= rb < 86400) by (subst rb; zdiv).
  rewrite <- (flow_neg w (y1 - y2) (m1 - m2) (d1 - d2) (ra - rb)) by lia.
  replace (- (ra - rb)) with (rb - ra) by ring.
  replace (- (y1 - y2)) with (y2 - y1) by ring.
  replace (- (m1 - m2)) with (m2 - m1) by ring.
  replace (- (d1 - d2)) with (d2 - d1) by ring.
  reflexivity.
Qed.

Lemma Between_antisymmetric_witness :
  Between W64 (Date 2016 2 28 0 0 0 0 UTC) (Date 2016 3 31 0 0 0 0 UTC) UTC
  = negPeriod W64
      (Between W64 (Date 2016 3 31 0 0 0 0 UTC) (Date 2016 2 28 0 0 0 0 UTC) UTC).
Proof.
  refine (proj1 (Between_antisymmetric W64 (Date 2016 2 28 0 0 0 0 UTC)
                   (Date 2016 3 31 0 0 0 0 UTC) 0 _ _ _ _ _)).
  - vm_compute; intuition discriminate.
  - vm_compute; intuition discriminate.
  - reflexivity.
  - reflexivity.
  - vm_compute; discriminate.
Defined.

(** C1 as stated fails in three ways.  With a fraction of a second:
    from 00:00:01 back to 00:00:00.999999999 Between gives the zero
    period, and the other way round one second.  When the end precedes
    the start, fields can stay positive: from 1 January 2017 back to
    31 December 2016 it gives minus one month and plus thirty days; from
    28 March 07:30 to 29 March 06:00, 23 hours and minus 30 minutes.  And
    across a change of offset: in Amsterdam from 25 March 2017 00:00 to
    26 March 06:00 it gives one day and five hours, and back one day and
    six hours. *)
Lemma Between_not_antisymmetric :
  let a := Date 2017 3 28 0 0 1 0 UTC in
  let b := Date 2017 3 28 0 0 0 999999999 UTC in
  let c := Date 2017 3 25 0 0 0 0 Amsterdam in
  let d := Date 2017 3 26 6 0 0 0 Amsterdam in
  (Between W64 a b UTC = zeroPeriod /\
   Between W64 b a UTC = mkPeriod 0 0 0 0 0 0 1 /\
   Between W64 a b UTC <> negPeriod W64 (Between W64 b a UTC)) /\
  (unixSec (Date 2016 12 31 0 0 0 0 UTC) < unixSec (Date 2017 1 1 0 0 0 0 UTC) /\
   Between W64 (Date 2017 1 1 0 0 0 0 UTC) (Date 2016 12 31 0 0 0 0 UTC) UTC
   = mkPeriod 0 (-1) 0 30 0 0 0) /\
  Between W64 (Date 2017 3 28 7 30 0 0 UTC) (Date 2017 3 29 6 0 0 0 UTC) UTC
  = mkPeriod 0 0 0 0 23 (-30) 0 /\
  (Between W64 c d Amsterdam = mkPeriod 0 0 0 1 5 0 0 /\
   Between W64 d c Amsterdam = mkPeriod 0 0 0 (-1) (-6) 0 0).
Proof.
  cbv zeta. repeat split; try (vm_compute; reflexivity).
  vm_compute; discriminate.
Qed.


(** * Further properties *)

(** ** Normalize on periods of any sign *)

Lemma Normalize_in_ranges (w : WordSize) (p : Period) :
  normalRanges w (Normalize w p).
Proof.
  unfold normalRanges. cbv beta zeta delta [Normalize].
  cbn [Years Months Weeks Days Hours Minutes Seconds].
  repeat split; try (apply rem_abs_lt; lia); apply wrap_inRange.
Qed.

(** X1: whatever the period, Normalize returns seconds and minutes strictly
    between -60 and 60, hours between -24 and 24, months between -12 and
    12, no weeks, and days and years that are [int]s; the seconds and the
    months keep the sign of those of the period. *)
Theorem Normalize_ranges (w : WordSize) (p : Period) :
  normalRanges w (Normalize w p) /\
  (0 <= Seconds p -> 0 <= Seconds (Normalize w p)) /\
  (Seconds p <= 0 -> Seconds (Normalize w p) <= 0) /\
  (0 <= Months p -> 0 <= Months (Normalize w p)) /\
  (Months p <= 0 -> Months (Normalize w p) <= 0).
Proof.
  split; [apply Normalize_in_ranges|].
  cbv beta zeta delta [Normalize].
  cbn [Years Months Weeks Days Hours Minutes Seconds]. unfold GoInt.rem.
  repeat split; intros; zdiv.
Qed.

(** X2: a period is left as it is by Normalize exactly when it is in the
    normalized ranges. *)
Theorem Normalize_fixed_iff (w : WordSize) (p : Period) :
  Normalize w p = p <-> normalRanges w p.
Proof.
  split.
  - intros E. rewrite <- E. apply Normalize_in_ranges.
  - intros (HS & HM & HH & HMo & HW & HD & HY). now apply Normalize_fixed.
Qed.

Lemma Normalize_exact (w : WordSize) (p : Period) :
  carriesExact w p ->
  let m := Z.quot (Seconds p) 60 + Minutes p in
  let h := Z.quot m 60 + Hours p in
  Normalize w p =
  mkPeriod (Z.quot (Months p) 12 + Years p) (Z.rem (Months p) 12) 0
           (Z.quot h 24 + Days p + Weeks p * 7) (Z.rem h 24) (Z.rem m 60)
           (Z.rem (Seconds p) 60).
Proof.
  unfold carriesExact. cbv zeta. intros (Hm & Hh & Hd1 & Hw7 & Hd & Hy).
  assert (Q : forall x y d, 2 <= d -> GoInt.inRange w (Z.quot x d + y) ->
                            GoInt.add w (GoInt.quot w x d) y = Z.quot x d + y).
  { intros x y d Hd' Hr. unfold GoInt.add, GoInt.quot.
    rewrite wrap_add_l. now apply wrap_id. }
  cbv beta zeta delta [Normalize]. unfold carryHours, carryMinutes.
  rewrite (Q (Seconds p)) by (lia || assumption).
  rewrite (Q _ (Hours p)) by (lia || assumption).
  rewrite (Q _ (Days p)) by (lia || assumption).
  rewrite (Q (Months p)) by (lia || assumption).
  unfold GoInt.mul, GoInt.add.
  rewrite (wrap_id w (Weeks p * 7)) by assumption.
  rewrite wrap_id by assumption. reflexivity.
Qed.

(** X3: when the sums it forms are [int]s, Normalize changes neither the
    total of seconds of a period (a week counted as seven days, a day as
    24 hours) nor its total of months, whatever the signs of the
    fields. *)
Theorem Normalize_preserves_totals (w : WordSize) (p : Period) :
  carriesExact w p ->
  totalSeconds (Normalize w p) = totalSeconds p /\
  totalMonths (Normalize w p) = totalMonths p.
Proof.
  intros H. rewrite (Normalize_exact w p H).
  unfold totalSeconds, totalMonths.
  cbn [Years Months Weeks Days Hours Minutes Seconds].
  pose proof (Z.quot_rem' (Seconds p) 60).
  pose proof (Z.quot_rem' (Z.quot (Seconds p) 60 + Minutes p) 60).
  pose proof (Z.quot_rem' (Z.quot (Z.quot (Seconds p) 60 + Minutes p) 60 + Hours p) 24).
  pose proof (Z.quot_rem' (Months p) 12).
  split; lia.
Qed.

Lemma Normalize_preserves_totals_witness :
  totalSeconds (Normalize W64 (mkPeriod 1 (-15) 2 (-31) 27 (-73) 91))
  = totalSeconds (mkPeriod 1 (-15) 2 (-31) 27 (-73) 91).
Proof.
  refine (proj1 (Normalize_preserves_totals W64
                   (mkPeriod 1 (-15) 2 (-31) 27 (-73) 91) _)).
  vm_compute; intuition discriminate.
Defined.

(** ** FromDuration *)

Lemma Normalize_seconds_only (w : WordSize) (x : Z) :
  GoInt.inRange w x ->
  Normalize w (mkPeriod 0 0 0 0 0 0 x) =
  mkPeriod 0 0 0 (Z.quot (Z.quot (Z.quot x 60) 60) 24)
           (Z.rem (Z.quot (Z.quot x 60) 60) 24) (Z.rem (Z.quot x 60) 60)
           (Z.rem x 60).
Proof.
  intros Hx. pose proof (minInt_neg w) as Hw. unfold GoInt.inRange in Hx.
  assert (Q60 : forall y,
             (0 <= y -> 0 <= Z.quot y 60 <= y) /\ (y <= 0 -> y <= Z.quot y 60 <= 0))
    by (intros y; split; intros; zdiv).
  assert (Q24 : forall y,
             (0 <= y -> 0 <= Z.quot y 24 <= y) /\ (y <= 0 -> y <= Z.quot y 24 <= 0))
    by (intros y; split; intros; zdiv).
  pose proof (Q60 x) as H1.
  pose proof (Q60 (Z.quot x 60)) as H2.
  pose proof (Q24 (Z.quot (Z.quot x 60) 60)) as H3.
  rewrite Normalize_exact.
  - cbn [Years Months Weeks Days Hours Minutes Seconds].
    rewrite !Z.add_0_r. reflexivity.
  - unfold carriesExact, GoInt.inRange.
    cbn [Years Months Weeks Days Hours Minutes Seconds].
    rewrite !Z.add_0_r. cbn [Z.mul Z.quot]. rewrite ?Z.add_0_r.
    change (Z.quot 0 12) with 0.
    repeat split; lia.
Qed.

(** X4: for a duration whose count of whole seconds is an [int], FromDuration
    succeeds with a period of days, hours, minutes and seconds only, which
    stands for exactly that count of seconds, with hours, minutes and
    seconds in their ranges, and with no field of a sign opposite to that
    of the duration. *)
Theorem FromDuration_seconds (w : WordSize) (d : Z) :
  inInt64 d -> GoInt.inRange w (Z.quot d Second) ->
  exists p,
    FromDuration w d = Ok p /\
    Years p = 0 /\ Months p = 0 /\ Weeks p = 0 /\
    totalSeconds p = Z.quot d Second /\
    Z.abs (Hours p) < 24 /\ Z.abs (Minutes p) < 60 /\ Z.abs (Seconds p) < 60 /\
    (0 <= d -> 0 <= Days p /\ 0 <= Hours p /\ 0 <= Minutes p /\ 0 <= Seconds p) /\
    (d <= 0 -> Days p <= 0 /\ Hours p <= 0 /\ Minutes p <= 0 /\ Seconds p <= 0).
Proof.
  intros Hd Hr. rewrite (FromDuration_inRange w d Hd Hr).
  rewrite (Normalize_seconds_only w _ Hr).
  eexists. split; [reflexivity|].
  unfold totalSeconds. cbn [Years Months Weeks Days Hours Minutes Seconds].
  unfold Second, Millisecond, Microsecond, Nanosecond.
  change (1000 * (1000 * (1000 * 1))) with 1000000000.
  set (x := Z.quot d 1000000000).
  assert (Hx : (0 <= d -> 0 <= x) /\ (d <= 0 -> x <= 0)) by (subst x; zdiv).
  clearbody x.
  repeat split; try reflexivity; try zdiv.
Qed.

Lemma FromDuration_seconds_witness :
  exists p, FromDuration W64 (-90061 * Second - 5) = Ok p /\
            totalSeconds p = -90061.
Proof.
  assert (Hd : inInt64 (-90061 * Second - 5)) by (vm_compute; intuition discriminate).
  assert (Hr : GoInt.inRange W64 (Z.quot (-90061 * Second - 5) Second))
    by (vm_compute; intuition discriminate).
  destruct (FromDuration_seconds W64 _ Hd Hr) as (p & E & _ & _ & _ & T & _).
  exists p. split; [exact E|exact T].
Defined.

(** ** String and FromString *)

Local Open Scope string_scope.

Lemma append_eq_nil (a b : string) : a ++ b = "" -> a = "" /\ b = "".
Proof. destruct a; cbn; [auto|discriminate]. Qed.

Lemma tmplField_nil (x : Z) (c : ascii) : tmplField x c = "" -> x = 0.
Proof.
  unfold tmplField. destruct (nonzero x) eqn:E; [|intros _; now apply nonzero_false].
  intros H. apply append_eq_nil in H as [_ H]. discriminate.
Qed.

(** The text of a period is the bare [P] exactly for the period whose
    fields are all zero. *)
Lemma PeriodString_bare (p : Period) :
  PeriodString p = "P" <-> p = zeroPeriod.
Proof.
  split; [|intros ->; reflexivity].
  unfold PeriodString. cbn [append]. intros [= H].
  apply append_eq_nil in H as [HY H]. apply append_eq_nil in H as [HMo H].
  apply append_eq_nil in H as [HW H]. apply append_eq_nil in H as [HD H].
  apply append_eq_nil in H as [_ H]. apply append_eq_nil in H as [HH H].
  apply append_eq_nil in H as [HM HS].
  apply tmplField_nil in HY, HMo, HW, HD, HH, HM, HS.
  destruct p; cbn in *; subst; reflexivity.
Qed.

Lemma applyPart_value (w : WordSize) (name : string) (o : option string)
    (p : Period) :
  validOpt o -> optValue o <= GoInt.maxInt w ->
  applyPart w name o (Ok p) =
  Ok (match o with Some _ => setField name (optValue o) p | None => p end).
Proof.
  intros Hv Hfit. destruct o as [ds|]; cbn [applyPart optValue] in *; [|reflexivity].
  destruct (Atoi_number w ds Hv) as [_ ->].
  destruct (Z.leb_spec (numberValue ds) (GoInt.maxInt w)); [reflexivity|lia].
Qed.

Lemma validTime_parts ot :
  validTime ot ->
  validOpt (timeHour ot) /\ validOpt (timeMinute ot) /\ validOpt (timeSecond ot).
Proof. destruct ot as [[[? ?] ?]|]; cbn; tauto. Qed.

Lemma periodOfText_values (w : WordSize) (oy om od : option string)
    (ot : option (option string * option string * option string)) :
  validOpt oy -> validOpt om -> validOpt od -> validTime ot ->
  valuesFit w oy om od ot ->
  periodOfText w oy om od ot = Ok (periodOfValues oy om od ot).
Proof.
  intros Hy Hm Hd Ht (Fy & Fm & Fd & Fh & Fmi & Fs).
  destruct (validTime_parts ot Ht) as (Hh & Hmi & Hs).
  unfold periodOfText, periodOfValues.
  rewrite !applyPart_value by assumption. f_equal.
  destruct oy, om, od, (timeHour ot), (timeMinute ot), (timeSecond ot);
    reflexivity.
Qed.

(** X6: FromString on a text of the grammar whose numbers all fit [int]: the
    period with the value of each number in its field, the absent blocks
    zero; and on [PnW] the period of [n] weeks. *)
Theorem FromString_values (w : WordSize) (oy om od : option string)
    (ot : option (option string * option string * option string))
    (ds : string) :
  validOpt oy -> validOpt om -> validOpt od -> validTime ot ->
  valuesFit w oy om od ot ->
  number ds -> numberValue ds <= GoInt.maxInt w ->
  FromString w (periodStr oy om od ot) = Ok (periodOfValues oy om od ot) /\
  FromString w ("P" ++ ds ++ "W") = Ok (mkPeriod 0 0 (numberValue ds) 0 0 0 0).
Proof.
  intros Hy Hm Hd Ht Hfit Hn Hv. split.
  - rewrite FromString_periodStr by assumption.
    now apply periodOfText_values.
  - rewrite FromString_weekStr by assumption.
    now rewrite (applyPart_value w "week" (Some ds) zeroPeriod Hn Hv).
Qed.

Lemma FromString_values_witness :
  FromString W64 "P007YT15M" = Ok (mkPeriod 7 0 0 0 0 15 0) /\
  FromString W64 "P12W" = Ok (mkPeriod 0 0 12 0 0 0 0).
Proof.
  refine (FromString_values W64 (Some "007") None None
            (Some (None, Some "15", None)) "12" _ _ _ _ _ _ _);
    try exact I; try (vm_compute; intuition discriminate).
Defined.

Lemma applyPart_Ok_inv (w : WordSize) (name : string) (o : option string)
    (r : result Period) (p : Period) :
  validOpt o -> applyPart w name o r = Ok p ->
  optValue o <= GoInt.maxInt w /\ exists q, r = Ok q.
Proof.
  intros Hv. destruct r as [q|e]; cbn [applyPart]; [|discriminate].
  destruct o as [ds|]; cbn [optValue].
  - destruct (Atoi_number w ds Hv) as [_ ->].
    destruct (Z.leb_spec (numberValue ds) (GoInt.maxInt w)); [|discriminate].
    eauto.
  - pose proof (minInt_neg w). intros _. split; [lia|eauto].
Qed.

Lemma periodOfText_Ok_inv (w : WordSize) (oy om od : option string)
    (ot : option (option string * option string * option string)) (p : Period) :
  validOpt oy -> validOpt om -> validOpt od -> validTime ot ->
  periodOfText w oy om od ot = Ok p ->
  valuesFit w oy om od ot /\ p = periodOfValues oy om od ot.
Proof.
  intros Hy Hm Hd Ht H.
  destruct (validTime_parts ot Ht) as (Hh & Hmi & Hs).
  assert (Hfit : valuesFit w oy om od ot).
  { unfold periodOfText in H.
    apply applyPart_Ok_inv in H as (Fs & q5 & H); [|assumption].
    apply applyPart_Ok_inv in H as (Fmi & q4 & H); [|assumption].
    apply applyPart_Ok_inv in H as (Fh & q3 & H); [|assumption].
    apply applyPart_Ok_inv in H as (Fd & q2 & H); [|assumption].
    apply applyPart_Ok_inv in H as (Fm & q1 & H); [|assumption].
    apply applyPart_Ok_inv in H as (Fy & _); [|assumption].
    repeat split; assumption. }
  split; [exact Hfit|].
  rewrite periodOfText_values in H by assumption. congruence.
Qed.

Lemma optValue_nonneg (o : option string) : validOpt o -> 0 <= optValue o.
Proof.
  destruct o as [ds|]; cbn; [|lia].
  intros Hv. apply (Atoi_number W64 ds Hv).
Qed.

Lemma FromString_Ok_inv (w : WordSize) (s : string) (p : Period) :
  FromString w s = Ok p ->
  wfPeriod w p /\ nonNegPeriod p /\ weeksExclusive p.
Proof.
  intros H. pose proof (minInt_neg w) as Hw.
  destruct (FromString_cases w s)
    as [(ds & Hn & -> & E)|[(oy & om & od & ot & Hy & Hm & Hd & Ht & -> & E)
                           |(_ & _ & E)]].
  - rewrite E in H.
    apply applyPart_Ok_inv in H as H'; [|exact Hn]. destruct H' as [Hv _].
    rewrite (applyPart_value w "week" (Some ds) zeroPeriod Hn Hv) in H.
    injection H as <-. pose proof (optValue_nonneg (Some ds) Hn) as Hp.
    cbn [optValue] in *.
    unfold wfPeriod, nonNegPeriod, weeksExclusive, GoInt.inRange. cbn.
    repeat split; lia.
  - rewrite E in H.
    apply periodOfText_Ok_inv in H as [(Fy & Fm & Fd & Fh & Fmi & Fs) ->];
      try assumption.
    destruct (validTime_parts ot Ht) as (Hh & Hmi & Hs).
    apply optValue_nonneg in Hy, Hm, Hd, Hh, Hmi, Hs.
    unfold wfPeriod, nonNegPeriod, weeksExclusive, GoInt.inRange, periodOfValues.
    cbn [Years Months Weeks Days Hours Minutes Seconds].
    repeat split; lia.
  - congruence.
Qed.

(** X7: a period FromString returns has no negative field, has no weeks or
    weeks only, and is read back unchanged from its own text: printing
    and parsing again gives the same period. *)
Theorem FromString_reparse (w : WordSize) (s : string) (p : Period) :
  FromString w s = Ok p ->
  nonNegPeriod p /\ weeksExclusive p /\
  FromString w (PeriodString p) = Ok p.
Proof.
  intros H. apply FromString_Ok_inv in H as (Hwf & Hnn & Hex).
  split; [assumption|]. split; [assumption|].
  now apply FromString_PeriodString.
Qed.

Lemma FromString_reparse_witness :
  FromString W64 (PeriodString (mkPeriod 0 0 0 7 0 15 0))
  = Ok (mkPeriod 0 0 0 7 0 15 0).
Proof.
  refine (proj2 (proj2 (FromString_reparse W64 "P007DT15M0S"
                          (mkPeriod 0 0 0 7 0 15 0) _))).
  vm_compute; reflexivity.
Defined.


Local Open Scope Z_scope.

(** ** DaysInMonth *)

(** [time.Date] on a clock in its ranges, whatever the month and the
    day. *)
Lemma Date_clock_normal (y m d h mi s ns : Z) (loc : Location) :
  0 <= h < 24 -> 0 <= mi < 60 -> 0 <= s < 60 -> 0 <= ns < 1000000000 ->
  Date y m d h mi s ns loc =
  let unix := daysOfDate (y + (m - 1) / 12) ((m - 1) mod 12 + 1) d
              * secondsPerDay + h * 3600 + mi * 60 + s in
  mkTime (unix - dateOffset loc unix) ns loc.
Proof.
  intros Hh Hmi Hs Hns. unfold Date.
  unfold norm at 1.
  rewrite (norm_id s ns), (norm_id mi s), (norm_id h mi), (norm_id d h) by lia.
  cbv zeta. unfold dateOffset.
  destruct (lookup loc _) as [[offset start] end_].
  destruct (offset =? 0); [now rewrite Z.sub_0_r|reflexivity].
Qed.

(** Whole days between two instants at the same time of day. *)
Lemma whole_days (w : WordSize) (t u : Time) (n : Z) :
  0 <= n <= 400 -> nsec t = nsec u -> unixSec t - unixSec u = n * 86400 ->
  GoInt.wrap w (wrap64 (Z.quot (Time_Sub t u) (wrap64 (Hour * 24)))) = n.
Proof.
  intros Hn Hns Hu. unfold Time_Sub. rewrite Hu, Hns, Z.sub_diag, Z.add_0_r.
  unfold Hour, Minute, Second, Millisecond, Microsecond, Nanosecond,
    minInt64, maxInt64.
  change (wrap64 (60 * (60 * (1000 * (1000 * (1000 * 1)))) * 24))
    with 86400000000000.
  change (1000 * (1000 * (1000 * 1))) with 1000000000.
  destruct (Z.ltb_spec (n * 86400 * 1000000000) (-9223372036854775808)); [lia|].
  destruct (Z.ltb_spec 9223372036854775807 (n * 86400 * 1000000000)); [lia|].
  replace (n * 86400 * 1000000000) with (n * 86400000000000) by ring.
  rewrite Z.quot_mul by lia.
  rewrite wrap64_id by (unfold inInt64, minInt64, maxInt64; lia).
  apply wrap_small. lia.
Qed.

Lemma month_cases (m : Z) :
  1 <= m <= 12 ->
  m = 1 \/ m = 2 \/ m = 3 \/ m = 4 \/ m = 5 \/ m = 6 \/ m = 7 \/
  m = 8 \/ m = 9 \/ m = 10 \/ m = 11 \/ m = 12.
Proof. lia. Qed.

Ltac closed_calendar :=
  repeat match goal with
  | |- context [?a / 12] =>
      let v := eval vm_compute in (a / 12) in change (a / 12) with v
  | |- context [?a mod 12] =>
      let v := eval vm_compute in (a mod 12) in change (a mod 12) with v
  end;
  repeat match goal with
  | |- context [daysBefore ?a] =>
      let v := eval vm_compute in (daysBefore a) in
      change (daysBefore a) with v
  | |- context [3 <=? ?a] =>
      let v := eval vm_compute in (3 <=? a) in change (3 <=? a) with v
  | |- context [monthLength ?l ?a] =>
      let v := eval cbv [monthLength Z.eqb Pos.eqb orb] in (monthLength l a) in
      change (monthLength l a) with v
  end;
  rewrite ?Z.add_0_r, ?andb_true_r, ?andb_false_r.

(** From the first of a month to the first of the next. *)
Lemma month_days (y m : Z) :
  1 <= m <= 12 ->
  daysOfDate (y + (m + 1 - 1) / 12) ((m + 1 - 1) mod 12 + 1) 1
  - daysOfDate y m 1 = monthLength (isLeap y) m.
Proof.
  intros Hm. pose proof (year_length y) as HL.
  unfold daysOfDate.
  apply month_cases in Hm.
  repeat (destruct Hm as [->|Hm]); try subst m; closed_calendar;
    destruct (isLeap y); lia.
Qed.

Lemma DaysInMonth_FixedZone (w : WordSize) (y m o : Z) :
  representableYear w y -> Z.abs o <= 86400 -> 1 <= m <= 12 ->
  DaysInMonth w y m (FixedZone o) = monthLength (isLeap y) m.
Proof.
  intros _ _ Hm. unfold DaysInMonth.
  rewrite add_exact by (pose proof (wrap_small w (m + 1)); apply small_inRange; lia).
  rewrite (Date_clock_normal y (m + 1)), (Date_normal y m) by lia.
  cbv zeta. rewrite !dateOffset_fixed.
  apply whole_days; cbn [unixSec nsec].
  - unfold monthLength.
    destruct (m =? 2), (isLeap y),
      ((m =? 4) || (m =? 6) || (m =? 9) || (m =? 11)); lia.
  - reflexivity.
  - pose proof (month_days y m Hm). unfold secondsPerDay. lia.
Qed.

(** The days of a year before the first of a month, for the months from
    January to the January after. *)
Lemma first_of_month_days (y m : Z) :
  1 <= m <= 13 ->
  0 <= daysOfDate (y + (m - 1) / 12) ((m - 1) mod 12 + 1) 1
       - daysOfDate y 1 1 <= 366.
Proof.
  intros Hm. pose proof (year_length y) as HL.
  unfold daysOfDate.
  assert (C : m = 1 \/ m = 2 \/ m = 3 \/ m = 4 \/ m = 5 \/ m = 6 \/ m = 7 \/
              m = 8 \/ m = 9 \/ m = 10 \/ m = 11 \/ m = 12 \/ m = 13) by lia.
  repeat (destruct C as [->|C]); try subst m; closed_calendar;
    destruct (isLeap y); lia.
Qed.

(** Midnight of the first of a month in a zone of a fixed offset within
    a day, in a year the package represents: an instant the package
    holds without wrap-around, where the model is exact. *)
Lemma Date_first_representable (y m o : Z) :
  -292277022399 <= y <= 292277022399 -> 1 <= m <= 13 -> Z.abs o <= 86400 ->
  representable (Date y m 1 0 0 0 0 (FixedZone o)).
Proof.
  intros Hy Hm Ho. rewrite Date_clock_normal by lia. cbv zeta.
  rewrite dateOffset_fixed. unfold representable. cbn [unixSec].
  unfold secondsPerDay. rewrite !Z.mul_0_l, !Z.add_0_r.
  pose proof (first_of_month_days y m Hm) as Hd. revert Hd.
  generalize (daysOfDate (y + (m - 1) / 12) ((m - 1) mod 12 + 1) 1).
  intros d Hd. rewrite daysOfDate_jan1 in Hd. revert Hd.
  unfold daysBeforeYear, unixEpochDays, unixToInternal, inInt64,
    minInt64, maxInt64. cbv zeta.
  clear Hm. intros Hd. zdiv.
Qed.

(** X10: in a zone of a fixed offset within a day and a year the time
    package represents, DaysInMonth of a month from 1 to 12 is its length in
    the Gregorian calendar: 31, 30, or for February 29 in a leap year and
    28 otherwise; December is measured up to January of the next year.
    The two instants the function subtracts are ones the package holds
    without wrap-around. *)
Theorem DaysInMonth_Gregorian (w : WordSize) (y m o : Z) :
  representableYear w y -> Z.abs o <= 86400 -> 1 <= m <= 12 ->
  DaysInMonth w y m (FixedZone o) = monthLength (isLeap y) m /\
  28 <= DaysInMonth w y m (FixedZone o) <= 31 /\
  (DaysInMonth w y 2 (FixedZone o) = 29 <-> isLeap y = true) /\
  representable (Date y m 1 0 0 0 0 (FixedZone o)) /\
  representable (Date y (m + 1) 1 0 0 0 0 (FixedZone o)).
Proof.
  intros Hy Ho Hm. rewrite !DaysInMonth_FixedZone by (assumption || lia).
  split; [reflexivity|]. split; [|split].
  - unfold monthLength.
    destruct (m =? 2), (isLeap y),
      ((m =? 4) || (m =? 6) || (m =? 9) || (m =? 11)); lia.
  - unfold monthLength. cbn. destruct (isLeap y); split; congruence || discriminate.
  - destruct Hy as [_ Hy].
    split; apply Date_first_representable; (assumption || lia).
Qed.

Lemma DaysInMonth_Gregorian_witness :
  DaysInMonth W64 2016 2 UTC = 29 /\ DaysInMonth W64 2017 12 UTC = 31.
Proof.
  split.
  - refine (proj1 (DaysInMonth_Gregorian W64 2016 2 0 _ _ _));
      [vm_compute; intuition discriminate|vm_compute; discriminate|lia].
  - refine (proj1 (DaysInMonth_Gregorian W64 2017 12 0 _ _ _));
      [vm_compute; intuition discriminate|vm_compute; discriminate|lia].
Defined.

(** X11: in a zone of a fixed offset within a day, the twelve months of a
    year the time package represents (whose successor is an [int]) add up
    to DaysInYear, which is 366 in a leap year and 365 otherwise. *)
Theorem DaysInMonth_sum (w : WordSize) (y o : Z) :
  representableYear w y -> Z.abs o <= 86400 ->
  fold_right Z.add 0
    (map (fun m => DaysInMonth w y m (FixedZone o))
         [1; 2; 3; 4; 5; 6; 7; 8; 9; 10; 11; 12])
  = DaysInYear w y (FixedZone o) /\
  DaysInYear w y (FixedZone o) = (if isLeap y then 366 else 365).
Proof.
  intros Hy Ho. rewrite (DaysInYear_FixedZone w y o Hy Ho).
  split; [|reflexivity].
  cbn [map fold_right]. rewrite !DaysInMonth_FixedZone by (assumption || lia).
  unfold monthLength. cbn. destruct (isLeap y); reflexivity.
Qed.

Lemma DaysInMonth_sum_witness :
  fold_right Z.add 0
    (map (fun m => DaysInMonth W64 2016 m UTC)
         [1; 2; 3; 4; 5; 6; 7; 8; 9; 10; 11; 12])
  = DaysInYear W64 2016 UTC.
Proof.
  apply (DaysInMonth_sum W64 2016 0);
    [vm_compute; intuition discriminate|vm_compute; discriminate].
Defined.

(** ** Apply in a zone of fixed offset *)

Lemma duration_seconds (p : Period) :
  durationFits p ->
  wrap64 (wrap64 (wrap64 (Hour * Hours p) + wrap64 (Minute * Minutes p))
          + wrap64 (Second * Seconds p))
  = (3600 * Hours p + 60 * Minutes p + Seconds p) * 1000000000.
Proof.
  intros (H1 & H2 & H3 & H4 & H5).
  rewrite (wrap64_id _ H1), (wrap64_id _ H2), (wrap64_id _ H3),
    (wrap64_id _ H4), (wrap64_id _ H5).
  unfold Hour, Minute, Second, Millisecond, Microsecond, Nanosecond. ring.
Qed.

Lemma Time_Add_seconds (t : Time) (n : Z) :
  0 <= nsec t < 1000000000 ->
  Time_Add t (n * 1000000000)
  = mkTime (unixSec t + n) (nsec t) (Time_Location t).
Proof.
  intros Hns. unfold Time_Add.
  rewrite Z.quot_mul, Z.rem_mul, Z.add_0_r by lia.
  destruct (Z.leb_spec 1000000000 (nsec t)); [lia|].
  destruct (Z.ltb_spec (nsec t) 0); [lia|]. reflexivity.
Qed.

(** Apply in closed form: the date moved by years, months and days with
    the months carried into the years, the time of day kept, and the
    hours, minutes and seconds added as elapsed time. *)
Lemma Apply_FixedZone (w : WordSize) (p : Period) (t : Time) (o y m d : Z) :
  inEra t -> Z.abs o <= 86400 -> Time_Location t = FixedZone o ->
  civilOfDays ((unixSec t + o) / 86400) = (y, m, d) ->
  Z.abs (Years p) <= 1500000000 -> Z.abs (Months p) <= 1500000000 ->
  Z.abs (Days p) <= 1500000000 -> durationFits p ->
  Apply w p t =
  mkTime (daysOfDate (y + Years p + (m + Months p - 1) / 12)
                     ((m + Months p - 1) mod 12 + 1) (d + Days p) * 86400
          + (unixSec t + o) mod 86400 - o
          + (3600 * Hours p + 60 * Minutes p + Seconds p))
         (nsec t) (FixedZone o).
Proof.
  intros Ht Ho Hloc E By Bmo Bd Hdur.
  pose proof (civilOfDays_bounds _ _ _ _ (era_days t o Ht Ho) E)
    as (Hy & Hm & Hd & R).
  unfold Apply, Time_Hour, Time_Minute, Time_Second, Time_Nanosecond,
    Time_Date, Time_Clock, localSec, secondsPerDay.
  rewrite Hloc, zoneOffset_fixed, E. cbn [fst snd].
  rewrite (wrap_small w y) by lia.
  unfold GoInt.add. rewrite !(wrap_small w) by lia.
  set (ra := (unixSec t + o) mod 86400).
  assert (Hra : 0 <= ra < 86400) by (subst ra; zdiv).
  destruct (clock_recompose ra Hra) as (Hh & Hmi & Hs & Hsum).
  destruct Ht as [_ Hns].
  rewrite Date_clock_normal by lia. cbv zeta.
  rewrite dateOffset_fixed, duration_seconds by assumption.
  rewrite Time_Add_seconds by (cbn [nsec]; lia).
  cbn [unixSec nsec Time_Location]. unfold secondsPerDay.
  f_equal. lia.
Qed.

Lemma daysOfDate_day (y m d n : Z) :
  daysOfDate y m (d + n) = daysOfDate y m d + n.
Proof. unfold daysOfDate. lia. Qed.

Lemma Time_eta (t : Time) :
  t = mkTime (unixSec t) (nsec t) (Time_Location t).
Proof. destruct t; reflexivity. Qed.

Lemma Apply_elapsed_FixedZone (w : WordSize) (p : Period) (t : Time) (o : Z) :
  inEra t -> Z.abs o <= 86400 -> Time_Location t = FixedZone o ->
  Years p = 0 -> Months p = 0 -> Z.abs (Days p) <= 1500000000 ->
  durationFits p ->
  Apply w p t = mkTime (unixSec t + elapsedSeconds p) (nsec t) (FixedZone o).
Proof.
  intros Ht Ho Hloc HY HMo HD Hdur.
  destruct (civilOfDays ((unixSec t + o) / 86400)) as [[y m] d] eqn:E.
  pose proof (civilOfDays_bounds _ _ _ _ (era_days t o Ht Ho) E)
    as (Hy & Hm & Hd & R).
  rewrite (Apply_FixedZone w p t o y m d) by (assumption || lia).
  rewrite HY, HMo, !Z.add_0_r.
  rewrite Z.div_small, Z.mod_small by lia. rewrite Z.add_0_r.
  replace (m - 1 + 1) with m by ring.
  rewrite daysOfDate_day, R. unfold elapsedSeconds.
  pose proof (Z.div_mod (unixSec t + o) 86400 ltac:(lia)).
  f_equal. lia.
Qed.

Lemma durationFits_small (p : Period) :
  Z.abs (Hours p) <= 1000 -> Z.abs (Minutes p) <= 1000 ->
  Z.abs (Seconds p) <= 1000 -> durationFits p.
Proof.
  intros. unfold durationFits, inInt64, minInt64, maxInt64,
    Hour, Minute, Second, Millisecond, Microsecond, Nanosecond. lia.
Qed.

Lemma Apply_zero_FixedZone (w : WordSize) (t : Time) (o : Z) :
  inEra t -> Z.abs o <= 86400 -> Time_Location t = FixedZone o ->
  Apply w zeroPeriod t = t.
Proof.
  intros Ht Ho Hloc.
  rewrite (Apply_elapsed_FixedZone w zeroPeriod t o); try assumption;
    try reflexivity.
  - unfold elapsedSeconds. cbn. rewrite Z.add_0_r, <- Hloc.
    symmetry. apply Time_eta.
  - cbn. lia.
  - apply durationFits_small; cbn; lia.
Qed.

(** X12: for a timestamp within 2^54 seconds of the Unix epoch whose
    location is a zone of a fixed offset within a day, and a period
    without years and months, of at most 1500000000 days either way, and
    of hours, minutes and seconds whose duration in nanoseconds is formed
    without overflow of [int64]: Apply moves the timestamp by elapsed
    time, 86400 seconds for each day, 3600 for each hour, 60 for each
    minute, and the seconds, and keeps its nanoseconds and its zone; the
    weeks count for nothing, and when these seconds add up to zero the
    timestamp is returned as it is. *)
Theorem Apply_elapsed (w : WordSize) (p : Period) (t : Time) (o : Z) :
  inEra t -> Z.abs o <= 86400 -> Time_Location t = FixedZone o ->
  Years p = 0 -> Months p = 0 -> Z.abs (Days p) <= 1500000000 ->
  durationFits p ->
  Apply w p t = mkTime (unixSec t + elapsedSeconds p) (nsec t) (FixedZone o) /\
  (elapsedSeconds p = 0 -> Apply w p t = t).
Proof.
  intros Ht Ho Hloc HY HMo HD Hdur.
  rewrite (Apply_elapsed_FixedZone w p t o) by assumption.
  split; [reflexivity|].
  intros H0. rewrite H0, Z.add_0_r, <- Hloc. symmetry. apply Time_eta.
Qed.

Lemma Apply_elapsed_witness :
  Apply W64 (mkPeriod 0 0 3 1 2 3 4) (Date 2016 2 28 23 0 0 5 UTC)
  = Date 2016 3 1 1 3 4 5 UTC.
Proof.
  refine (proj1 (Apply_elapsed W64 (mkPeriod 0 0 3 1 2 3 4)
                   (Date 2016 2 28 23 0 0 5 UTC) 0 _ _ _ _ _ _ _));
    try reflexivity; try (vm_compute; intuition discriminate).
Defined.

(** ** Between and Apply *)

Lemma flowMonths_total (w : WordSize) (y mo : Z) :
  Z.abs y <= 1300000000 -> Z.abs mo <= 11 ->
  12 * fst (flowMonths w y mo) + snd (flowMonths w y mo) = 12 * y + mo /\
  Z.abs (fst (flowMonths w y mo)) <= Z.abs y /\
  Z.abs (snd (flowMonths w y mo)) <= 11.
Proof.
  intros Hy Hmo. unfold flowMonths.
  flow_cases; cbn [fst snd]; small_wrap w; lia.
Qed.

Lemma flowHours_total (w : WordSize) (d h : Z) :
  Z.abs d <= 30 -> Z.abs h <= 23 ->
  24 * fst (flowHours w d h) + snd (flowHours w d h) = 24 * d + h /\
  Z.abs (fst (flowHours w d h)) <= Z.abs d /\
  Z.abs (snd (flowHours w d h)) <= 23.
Proof.
  intros Hd Hh. unfold flowHours.
  flow_cases; cbn [fst snd]; small_wrap w; lia.
Qed.

Lemma clockParts_sum (delta h mi s : Z) :
  clockParts delta = (h, mi, s) -> 3600 * h + 60 * mi + s = delta.
Proof. unfold clockParts. intros [= <- <- <-]. zdiv. Qed.

(** Between in a zone of fixed offset, field by field. *)
Lemma Between_fields (w : WordSize) (a b : Time) (o : Z)
    (y1 m1 d1 y2 m2 d2 : Z) :
  inEra a -> inEra b -> wholeSecond b -> Z.abs o <= 86400 ->
  Time_Equal a b = false ->
  civilOfDays ((unixSec a + o) / 86400) = (y1, m1, d1) ->
  civilOfDays ((unixSec b + o) / 86400) = (y2, m2, d2) ->
  exists y mo d h mi s,
    Between w a b (FixedZone o) = mkPeriod y mo 0 d h mi s /\
    12 * y + mo = 12 * (y2 - y1) + (m2 - m1) /\
    86400 * d + 3600 * h + 60 * mi + s
    = 86400 * (d2 - d1)
      + ((unixSec b + o) mod 86400 - (unixSec a + o) mod 86400) /\
    Z.abs y <= 1200000000 /\ Z.abs mo <= 11 /\ Z.abs d <= 30 /\
    Z.abs h <= 23 /\ Z.abs mi <= 59 /\ Z.abs s <= 59.
Proof.
  intros Ha Hb Hwb Ho Heq E1 E2.
  rewrite (Between_FixedZone w a b o _ _ _ _ _ _ Ha Hb Hwb Ho Heq E1 E2).
  pose proof (civilOfDays_bounds _ _ _ _ (era_days a o Ha Ho) E1)
    as (By1 & Bm1 & Bd1 & _).
  pose proof (civilOfDays_bounds _ _ _ _ (era_days b o Hb Ho) E2)
    as (By2 & Bm2 & Bd2 & _).
  set (delta := (unixSec b + o) mod 86400 - (unixSec a + o) mod 86400).
  assert (Hdelta : Z.abs delta < 86400) by (subst delta; zdiv).
  destruct (clockParts delta) as [[h mi] s] eqn:E.
  destruct (clockParts_sign delta h mi s Hdelta E) as (Hh & Hmi & Hs & Hpos & Hneg).
  pose proof (clockParts_sum delta h mi s E) as Hsum.
  assert (Hsign : (0 <= h /\ 0 <= mi /\ 0 <= s) \/ (h <= 0 /\ mi <= 0 /\ s <= 0))
    by (destruct (Z.le_ge_cases 0 delta); [left; apply Hpos|right; apply Hneg]; lia).
  unfold flow.
  rewrite flowSeconds_same_sign, flowMinutes_same_sign by lia.
  destruct (flowMonths_total w (y2 - y1) (m2 - m1)) as (TM & BM1 & BM2); [lia|lia|].
  destruct (flowHours_total w (d2 - d1) h) as (TH & BH1 & BH2); [lia|lia|].
  destruct (flowHours w (d2 - d1) h) as [d' h'].
  destruct (flowMonths w (y2 - y1) (m2 - m1)) as [y' mo'].
  cbn [fst snd] in *.
  exists y', mo', d', h', mi, s. repeat split; try lia; reflexivity.
Qed.

Lemma month_carry (y1 y m1 mo y2 m2 : Z) :
  1 <= m2 <= 12 -> 12 * y + mo = 12 * (y2 - y1) + (m2 - m1) ->
  y1 + y + (m1 + mo - 1) / 12 = y2 /\ (m1 + mo - 1) mod 12 + 1 = m2.
Proof.
  intros Hm E.
  replace (m1 + mo - 1) with ((m2 - 1) + (y2 - y1 - y) * 12) by lia.
  rewrite Z.div_add, Z.mod_add, Z.div_small, Z.mod_small by lia. lia.
Qed.

Lemma Apply_Between_FixedZone (w : WordSize) (a b : Time) (o : Z) :
  inEra a -> inEra b -> wholeSecond a -> wholeSecond b ->
  Z.abs o <= 86400 ->
  Apply w (Between w a b (FixedZone o)) (Time_In a (FixedZone o))
  = Time_In b (FixedZone o).
Proof.
  intros Ha Hb Hwa Hwb Ho.
  assert (Ha' : inEra (Time_In a (FixedZone o))) by exact Ha.
  destruct (Time_Equal a b) eqn:Heq.
  { unfold Between. rewrite Heq.
    rewrite (Apply_zero_FixedZone w _ o Ha' Ho eq_refl).
    unfold Time_Equal in Heq. apply andb_true_iff in Heq as [H1 H2].
    apply Z.eqb_eq in H1, H2. unfold Time_In. now rewrite H1, H2. }
  destruct (civilOfDays ((unixSec a + o) / 86400)) as [[y1 m1] d1] eqn:E1.
  destruct (civilOfDays ((unixSec b + o) / 86400)) as [[y2 m2] d2] eqn:E2.
  destruct (Between_fields w a b o _ _ _ _ _ _ Ha Hb Hwb Ho Heq E1 E2)
    as (y & mo & d & h & mi & s & -> & TM & TS & By & Bmo & Bd & Bh & Bmi & Bs).
  pose proof (civilOfDays_bounds _ _ _ _ (era_days a o Ha Ho) E1)
    as (By1 & Bm1 & Bd1 & R1).
  pose proof (civilOfDays_bounds _ _ _ _ (era_days b o Hb Ho) E2)
    as (By2 & Bm2 & Bd2 & R2).
  assert (Hdur : durationFits (mkPeriod y mo 0 d h mi s))
    by (apply durationFits_small; cbn; lia).
  rewrite (Apply_FixedZone w _ (Time_In a (FixedZone o)) o y1 m1 d1 Ha' Ho
             eq_refl E1);
    cbn [Years Months Weeks Days Hours Minutes Seconds]; try lia;
    try exact Hdur.
  cbn [Time_In unixSec nsec].
  destruct (month_carry y1 y m1 mo y2 m2 Bm2 TM) as [-> ->].
  replace (d1 + d) with (d2 + (d1 + d - d2)) by ring.
  rewrite daysOfDate_day, R2.
  unfold Time_In. rewrite Hwa, Hwb.
  pose proof (Z.div_mod (unixSec b + o) 86400 ltac:(lia)) as Hdm.
  f_equal. clear - TS Hdm. lia.
Qed.

(** X13: for two timestamps of whole seconds within 2^54 seconds of the
    Unix epoch and a zone of a fixed offset within a day, the period
    Between gives from the start to the end in that zone, applied to the
    start expressed in that zone ([start.In(zone)]: Apply works on the
    calendar of the location of the timestamp it is given), gives the
    instant of the end, in that zone; and Between gives the zero period
    exactly between equal instants. *)
Theorem Apply_Between_inverse (w : WordSize) (a b : Time) (o : Z) :
  inEra a -> inEra b -> wholeSecond a -> wholeSecond b ->
  Z.abs o <= 86400 ->
  Apply w (Between w a b (FixedZone o)) (Time_In a (FixedZone o))
  = Time_In b (FixedZone o) /\
  (Between w a b (FixedZone o) = zeroPeriod <-> Time_Equal a b = true).
Proof.
  intros Ha Hb Hwa Hwb Ho.
  pose proof (Apply_Between_FixedZone w a b o Ha Hb Hwa Hwb Ho) as HA.
  split; [exact HA|]. split.
  - intros Hz. rewrite Hz in HA.
    rewrite (Apply_zero_FixedZone w (Time_In a (FixedZone o)) o Ha Ho eq_refl) in HA.
    unfold Time_In in HA. injection HA as H1 H2. unfold Time_Equal.
    now rewrite H1, H2, !Z.eqb_refl.
  - intros Heq. unfold Between. now rewrite Heq.
Qed.

Lemma Apply_Between_inverse_witness :
  Apply W64
    (Between W64 (Date 2017 3 28 7 30 0 0 UTC) (Date 2016 2 29 6 0 0 0 UTC) UTC)
    (Date 2017 3 28 7 30 0 0 UTC)
  = Date 2016 2 29 6 0 0 0 UTC.
Proof.
  refine (proj1 (Apply_Between_inverse W64 (Date 2017 3 28 7 30 0 0 UTC)
                   (Date 2016 2 29 6 0 0 0 UTC) 0 _ _ _ _ _));
    try reflexivity; vm_compute; intuition discriminate.
Defined.

(** X14: for two timestamps within 2^54 seconds of the Unix epoch, the
    end of whole seconds, and a zone of a fixed offset within a day, the
    fields of Between are bounded: months within 11, days within 30,
    hours within 23, minutes and seconds within 59, and no weeks. *)
Theorem Between_ranges (w : WordSize) (a b : Time) (o : Z) :
  inEra a -> inEra b -> wholeSecond b -> Z.abs o <= 86400 ->
  let p := Between w a b (FixedZone o) in
  Z.abs (Months p) <= 11 /\ Weeks p = 0 /\ Z.abs (Days p) <= 30 /\
  Z.abs (Hours p) <= 23 /\ Z.abs (Minutes p) <= 59 /\ Z.abs (Seconds p) <= 59.
Proof.
  intros Ha Hb Hwb Ho. cbv zeta.
  destruct (Time_Equal a b) eqn:Heq.
  { unfold Between. rewrite Heq. cbn. lia. }
  destruct (civilOfDays ((unixSec a + o) / 86400)) as [[y1 m1] d1] eqn:E1.
  destruct (civilOfDays ((unixSec b + o) / 86400)) as [[y2 m2] d2] eqn:E2.
  destruct (Between_fields w a b o _ _ _ _ _ _ Ha Hb Hwb Ho Heq E1 E2)
    as (y & mo & d & h & mi & s & -> & _ & _ & By & Bmo & Bd & Bh & Bmi & Bs).
  cbn [Years Months Weeks Days Hours Minutes Seconds]. repeat split; lia.
Qed.

Lemma Between_ranges_witness :
  Z.abs (Hours (Between W64 (Date 2017 3 28 7 30 0 0 UTC)
                        (Date 2017 3 29 6 0 0 0 UTC) UTC)) <= 23.
Proof.
  refine (proj1 (proj2 (proj2 (proj2
    (Between_ranges W64 (Date 2017 3 28 7 30 0 0 UTC)
       (Date 2017 3 29 6 0 0 0 UTC) 0 _ _ _ _)))));
    try reflexivity; vm_compute; intuition discriminate.
Defined.


(** ** The first steps of the flow in Between *)

Lemma minute_second_parts (diff : Z) :
  -9223372036854775808 <= diff <= 9223372036854775807 ->
  let mi := Z.quot (Z.rem diff 3600000000000) 60000000000 in
  let s := Z.quot (Z.rem (Z.rem diff 3600000000000) 60000000000) 1000000000 in
  Z.abs mi < 60 /\ Z.abs s < 60 /\
  ~ (mi < 0 /\ 0 < s) /\ ~ (0 < mi /\ s < 0).
Proof. intros Hd. cbv zeta. repeat split; zdiv. Qed.

Lemma duration_units :
  Hour = 3600000000000 /\ Minute = 60000000000 /\ Second = 1000000000.
Proof. repeat split; reflexivity. Qed.

Lemma flow_minutes_seconds (w : WordSize) (y mo d : Z) (diff : Z) :
  inInt64 diff ->
  let p := flow w y mo d
             (GoInt.wrap w (wrap64 (Z.quot diff Hour)))
             (GoInt.wrap w (wrap64 (Z.quot (Z.rem diff Hour) Minute)))
             (GoInt.wrap w
                (wrap64 (Z.quot (Z.rem (Z.rem diff Hour) Minute) Second))) in
  Minutes p = Z.quot (Z.rem diff Hour) Minute /\
  Seconds p = Z.quot (Z.rem (Z.rem diff Hour) Minute) Second.
Proof.
  intros Hd. cbv zeta.
  destruct (Between_parts_same_sign w diff Hd) as [E1 E2].
  cbv zeta in E1, E2. unfold flow. rewrite E1, E2. clear E1 E2.
  destruct (flowHours w d _) as [d' h']. destruct (flowMonths w y mo) as [y' mo'].
  cbn [Minutes Seconds].
  destruct duration_units as (-> & -> & ->).
  destruct (minute_second_parts diff Hd) as (Hmi & Hs & _).
  cbv zeta in Hmi, Hs.
  rewrite !wrap64_id by (unfold inInt64, minInt64, maxInt64; lia).
  rewrite !(wrap_small w) by lia. split; reflexivity.
Qed.

(** X15: whatever the timestamps and the location, the minutes and the
    seconds Between returns are both cut from one duration: each is
    strictly between -60 and 60 and they never have opposite signs, so
    the step of the flow between seconds and minutes, with its 24, never
    applies. *)
Theorem Between_minutes_seconds (w : WordSize) (a b : Time) (loc : Location) :
  let p := Between w a b loc in
  Z.abs (Minutes p) < 60 /\ Z.abs (Seconds p) < 60 /\
  ~ (Minutes p < 0 /\ 0 < Seconds p) /\ ~ (0 < Minutes p /\ Seconds p < 0).
Proof.
  cbv zeta. unfold Between.
  destruct (Time_Equal a b); [cbn; lia|].
  destruct (Time_Date w (Time_In a loc)) as [[y1 m1] d1].
  destruct (Time_Date w (Time_In b loc)) as [[y2 m2] d2].
  destruct (Time_Clock (Time_In a loc)) as [[h mi] s].
  pose proof (Time_Sub_inInt64 (Time_In b loc)
                (Date (GoInt.add w y1 (GoInt.sub w y2 y1))
                      (GoInt.add w m1 (GoInt.sub w m2 m1))
                      (GoInt.add w d1 (GoInt.sub w d2 d1)) h mi s 0 loc)) as Hd.
  revert Hd. generalize (Time_Sub (Time_In b loc)
                (Date (GoInt.add w y1 (GoInt.sub w y2 y1))
                      (GoInt.add w m1 (GoInt.sub w m2 m1))
                      (GoInt.add w d1 (GoInt.sub w d2 d1)) h mi s 0 loc)).
  intros diff Hd.
  destruct (flow_minutes_seconds w (GoInt.sub w y2 y1) (GoInt.sub w m2 m1)
              (GoInt.sub w d2 d1) diff Hd) as [-> ->].
  destruct duration_units as (-> & -> & ->).
  exact (minute_second_parts diff Hd).
Qed.

(** ** FromDuration and Apply *)

(** X16: for a duration whose count of whole seconds is an [int] and a
    timestamp within 2^54 seconds of the Unix epoch whose location is a
    zone of a fixed offset within a day, FromDuration succeeds, and
    applying the period it makes moves the timestamp by the whole seconds
    of the duration and keeps its nanoseconds and its zone. *)
Theorem Apply_FromDuration (w : WordSize) (d : Z) (t : Time) (o : Z) :
  inInt64 d -> GoInt.inRange w (Z.quot d Second) ->
  inEra t -> Z.abs o <= 86400 -> Time_Location t = FixedZone o ->
  exists p,
    FromDuration w d = Ok p /\
    Apply w p t = mkTime (unixSec t + Z.quot d Second) (nsec t) (FixedZone o).
Proof.
  intros Hd Hr Ht Ho Hloc.
  rewrite (FromDuration_inRange w d Hd Hr), (Normalize_seconds_only w _ Hr).
  eexists. split; [reflexivity|].
  assert (Hx : Z.abs (Z.quot d Second) <= 9223372037).
  { destruct duration_units as (_ & _ & ->).
    unfold inInt64, minInt64, maxInt64 in Hd. clear - Hd. zdiv. }
  revert Hx. generalize (Z.quot d Second). intros x Hx.
  assert (B : Z.abs (Z.quot (Z.quot (Z.quot x 60) 60) 24) <= 1500000000 /\
              Z.abs (Z.rem (Z.quot (Z.quot x 60) 60) 24) <= 1000 /\
              Z.abs (Z.rem (Z.quot x 60) 60) <= 1000 /\
              Z.abs (Z.rem x 60) <= 1000 /\
              86400 * Z.quot (Z.quot (Z.quot x 60) 60) 24
              + 3600 * Z.rem (Z.quot (Z.quot x 60) 60) 24
              + 60 * Z.rem (Z.quot x 60) 60 + Z.rem x 60 = x)
    by (clear - Hx; repeat split; zdiv).
  destruct B as (B1 & B2 & B3 & B4 & B5).
  rewrite (Apply_elapsed_FixedZone w _ t o); try assumption; try reflexivity.
  - unfold elapsedSeconds. cbn [Days Hours Minutes Seconds]. now rewrite B5.
  - apply durationFits_small; assumption.
Qed.

Lemma Apply_FromDuration_witness :
  exists p,
    FromDuration W64 (27 * Hour + 74 * Minute + 63 * Second) = Ok p /\
    Apply W64 p (Date 2017 3 7 12 30 45 999999999 UTC)
    = Date 2017 3 8 16 45 48 999999999 UTC.
Proof.
  refine (Apply_FromDuration W64 (27 * Hour + 74 * Minute + 63 * Second)
            (Date 2017 3 7 12 30 45 999999999 UTC) 0 _ _ _ _ _);
    try reflexivity; vm_compute; intuition discriminate.
Defined.

(** ** Which periods come back from their text *)

Local Open Scope string_scope.

Lemma hasChar_app (c : ascii) (a b : string) :
  hasChar c (a ++ b) = hasChar c a || hasChar c b.
Proof. induction a as [|c' a IH]; cbn; [reflexivity|]. now rewrite IH, orb_assoc. Qed.

Lemma hasChar_digits (c : ascii) (ds : string) :
  isDigit c = false -> allDigits ds = true -> hasChar c ds = false.
Proof.
  intros Hc. induction ds as [|c' ds IH]; cbn; [reflexivity|].
  intros H. apply andb_true_iff in H as [Hc' Hd]. rewrite (IH Hd), orb_false_r.
  destruct (Ascii.eqb_spec c' c); [congruence|reflexivity].
Qed.

Lemma allDigits_NilZero (d : Decimal.uint) :
  allDigits (NilZero.string_of_uint d) = true.
Proof.
  unfold NilZero.string_of_uint.
  destruct d; try reflexivity;
    match goal with
    | |- allDigits (NilEmpty.string_of_uint ?u) = true =>
        apply (allDigits_string_of_uint u)
    end.
Qed.

(** The text of an [int]: digits, after a minus sign when negative. *)
Lemma hasChar_formatInt (c : ascii) (x : Z) :
  isDigit c = false ->
  hasChar c (formatInt x) = Ascii.eqb "-" c && (x <? 0)%Z.
Proof.
  intros Hc. unfold formatInt.
  destruct x as [|p|p]; cbn [Z.to_int NilZero.string_of_int Z.ltb Z.compare].
  - cbn. destruct c as [[|] [|] [|] [|] [|] [|] [|] [|]];
      try discriminate; reflexivity.
  - rewrite andb_false_r. apply hasChar_digits; [assumption|].
    apply allDigits_NilZero.
  - rewrite andb_true_r. cbn [hasChar].
    rewrite (hasChar_digits c _ Hc (allDigits_NilZero _)). apply orb_false_r.
Qed.

Lemma hasChar_tmplField (c c' : ascii) (x : Z) :
  isDigit c = false ->
  hasChar c (tmplField x c')
  = nonzero x && ((Ascii.eqb "-" c && (x <? 0)%Z) || Ascii.eqb c' c).
Proof.
  intros Hc. unfold tmplField. destruct (nonzero x); [|reflexivity].
  rewrite hasChar_app, hasChar_formatInt by assumption. cbn.
  now rewrite orb_false_r.
Qed.

Lemma hasChar_PeriodString (c : ascii) (p : Period) :
  isDigit c = false ->
  hasChar c (PeriodString p) =
  Ascii.eqb "P" c
  || hasChar c (tmplField (Years p) "Y") || hasChar c (tmplField (Months p) "M")
  || hasChar c (tmplField (Weeks p) "W") || hasChar c (tmplField (Days p) "D")
  || (HasTimePart p && Ascii.eqb "T" c)
  || hasChar c (tmplField (Hours p) "H") || hasChar c (tmplField (Minutes p) "M")
  || hasChar c (tmplField (Seconds p) "S").
Proof.
  intros Hc. unfold PeriodString. cbn [append hasChar].
  rewrite !hasChar_app.
  repeat match goal with
  | |- context [hasChar c (tmplField ?x ?l)] =>
      generalize (hasChar c (tmplField x l)); intro
  end.
  destruct (HasTimePart p); cbn [hasChar andb];
    repeat match goal with
    | b : bool |- _ => destruct b
    end;
    destruct (Ascii.eqb "P" c), (Ascii.eqb "T" c); reflexivity.
Qed.

Lemma hasChar_unitStr (c c' : ascii) (o : option string) :
  isDigit c = false -> validOpt o -> c' <> c -> hasChar c (unitStr c' o) = false.
Proof.
  intros Hc Hv Hne. destruct o as [ds|]; cbn [unitStr]; [|reflexivity].
  destruct Hv as [_ Hd]. rewrite hasChar_app, (hasChar_digits c ds Hc Hd). cbn.
  destruct (Ascii.eqb_spec c' c); [contradiction|reflexivity].
Qed.

(** No text of the first grammar has a minus sign or a [W]. *)
Lemma periodStr_chars (c : ascii) (oy om od : option string)
    (ot : option (option string * option string * option string)) :
  c = "-"%char \/ c = "W"%char ->
  validOpt oy -> validOpt om -> validOpt od -> validTime ot ->
  hasChar c (periodStr oy om od ot) = false.
Proof.
  intros Hc Hy Hm Hd Ht.
  assert (Hdig : isDigit c = false) by (destruct Hc; subst; reflexivity).
  unfold periodStr. cbn [append hasChar]. rewrite !hasChar_app.
  rewrite !hasChar_unitStr by (assumption || (destruct Hc; subst; discriminate)).
  destruct ot as [[[oh omi] ose]|]; cbn [timeStr validTime] in *.
  - destruct Ht as (Hh & Hmi & Hs). cbn [append hasChar]. rewrite !hasChar_app.
    rewrite !hasChar_unitStr by (assumption || (destruct Hc; subst; discriminate)).
    destruct Hc; subst; reflexivity.
  - destruct Hc; subst; reflexivity.
Qed.

(** A text of the second grammar has no other letter than [P] and [W],
    and no minus sign. *)
Lemma weekStr_chars (c : ascii) (ds : string) :
  isDigit c = false -> c <> "P"%char -> c <> "W"%char -> number ds ->
  hasChar c ("P" ++ ds ++ "W") = false.
Proof.
  intros Hc HP HW [_ Hd].
  assert (EP : Ascii.eqb "P" c = false) by (apply Ascii.eqb_neq; congruence).
  assert (EW : Ascii.eqb "W" c = false) by (apply Ascii.eqb_neq; congruence).
  cbn [append hasChar]. rewrite hasChar_app.
  rewrite (hasChar_digits c ds Hc Hd). cbn [hasChar].
  now rewrite EP, EW.
Qed.

Ltac eval_letters H :=
  rewrite hasChar_PeriodString in H by reflexivity;
  rewrite !hasChar_tmplField in H by reflexivity;
  repeat match type of H with
  | context [Ascii.eqb ?a ?b] =>
      let v := eval vm_compute in (Ascii.eqb a b) in
      change (Ascii.eqb a b) with v in H
  end;
  cbn [andb orb] in H;
  rewrite ?andb_false_r, ?andb_true_r, ?orb_false_r in H;
  cbn [andb orb] in H.

Lemma nonzero_neg_false (x : Z) : nonzero x && (x <? 0)%Z = false -> (0 <= x)%Z.
Proof.
  unfold nonzero. destruct (Z.eqb_spec x 0), (Z.ltb_spec x 0); cbn; lia || discriminate.
Qed.

Lemma PeriodString_no_minus (p : Period) :
  hasChar "-" (PeriodString p) = false -> nonNegPeriod p.
Proof.
  intros H. eval_letters H.
  repeat (apply orb_false_iff in H as [H ?]).
  unfold nonNegPeriod. repeat split; now apply nonzero_neg_false.
Qed.

Lemma PeriodString_no_W (p : Period) :
  hasChar "W" (PeriodString p) = false -> Weeks p = 0%Z.
Proof.
  intros H. eval_letters H. now apply nonzero_false.
Qed.

Lemma PeriodString_weeks_only (p : Period) :
  hasChar "Y" (PeriodString p) = false ->
  hasChar "M" (PeriodString p) = false ->
  hasChar "D" (PeriodString p) = false ->
  hasChar "T" (PeriodString p) = false ->
  (Years p = 0 /\ Months p = 0 /\ Days p = 0 /\
   Hours p = 0 /\ Minutes p = 0 /\ Seconds p = 0)%Z.
Proof.
  intros HY HM HD HT. eval_letters HY. eval_letters HM. eval_letters HD.
  eval_letters HT.
  apply orb_false_iff in HM as [HMo HMi].
  unfold HasTimePart in HT.
  apply orb_false_iff in HT as [HT HS]. apply orb_false_iff in HT as [HH _].
  repeat split; now apply nonzero_false.
Qed.

Lemma FromString_PeriodString_cases (w : WordSize) (p : Period) :
  wfPeriod w p ->
  (nonNegPeriod p /\ weeksExclusive p /\ FromString w (PeriodString p) = Ok p) \/
  (~ (nonNegPeriod p /\ weeksExclusive p) /\
   FromString w (PeriodString p) = Err errPeriodBadFormat).
Proof.
  intros Hwf.
  assert (Good : nonNegPeriod p -> weeksExclusive p ->
                 nonNegPeriod p /\ weeksExclusive p
                 /\ FromString w (PeriodString p) = Ok p).
  { intros Hnn Hex. split; [assumption|]. split; [assumption|].
    now apply FromString_PeriodString. }
  destruct (FromString_cases w (PeriodString p))
    as [(ds & Hn & E & _)|[(oy & om & od & ot & Hy & Hm & Hd & Ht & E & _)
                          |(Hw & Hp & E)]].
  - left. apply Good.
    + apply PeriodString_no_minus. rewrite E.
      apply weekStr_chars; try assumption; reflexivity || discriminate.
    + right. apply PeriodString_weeks_only; rewrite E;
        apply weekStr_chars; try assumption; reflexivity || discriminate.
  - left. apply Good.
    + apply PeriodString_no_minus. rewrite E.
      apply periodStr_chars; auto.
    + left. apply PeriodString_no_W. rewrite E.
      apply periodStr_chars; auto.
  - right. split; [|exact E].
    intros [Hnn Hex].
    rewrite (FromString_PeriodString w p Hwf Hnn Hex) in E. discriminate.
Qed.

(** X8: a period comes back from its own text exactly when none of its
    fields is negative and it has no weeks or weeks only; for every other
    period FromString fails on the text with BadFormat. *)
Theorem FromString_String_iff (w : WordSize) (p : Period) :
  wfPeriod w p ->
  (FromString w (PeriodString p) = Ok p <->
   nonNegPeriod p /\ weeksExclusive p) /\
  (~ (nonNegPeriod p /\ weeksExclusive p) ->
   FromString w (PeriodString p) = Err errPeriodBadFormat).
Proof.
  intros Hwf.
  destruct (FromString_PeriodString_cases w p Hwf) as [(Hnn & Hex & E)|(Hn & E)].
  - split; [split; auto|]. intros H. exfalso. apply H. auto.
  - split; [|intros _; exact E].
    split; [rewrite E; discriminate|intros H; contradiction].
Qed.

Lemma FromString_String_iff_witness :
  FromString W64 (PeriodString (mkPeriod 1 0 2 0 0 0 0))
  = Err errPeriodBadFormat.
Proof.
  refine (proj2 (FromString_String_iff W64 (mkPeriod 1 0 2 0 0 0 0) _) _).
  - vm_compute; intuition discriminate.
  - intros [_ [H|H]]; [discriminate H|destruct H as [H _]; discriminate H].
Defined.

(** ** The separator and the two predicates *)

(** X5: the text of a period has the separator [T] exactly when HasTimePart
    holds; it is the bare [P] exactly when neither HasDatePart nor
    HasTimePart holds, which is exactly for the period whose fields are
    all zero. *)
Theorem HasTimePart_separator (p : Period) :
  hasChar "T" (PeriodString p) = HasTimePart p /\
  (HasDatePart p || HasTimePart p = false <-> PeriodString p = "P") /\
  (PeriodString p = "P" <-> p = zeroPeriod).
Proof.
  split; [|split; [|apply PeriodString_bare]].
  - rewrite hasChar_PeriodString by reflexivity.
    rewrite !hasChar_tmplField by reflexivity.
    repeat match goal with
    | |- context [Ascii.eqb ?a ?b] =>
        let v := eval vm_compute in (Ascii.eqb a b) in
        change (Ascii.eqb a b) with v
    end.
    cbn [andb orb]. rewrite ?andb_false_r, ?andb_true_r, ?orb_false_r.
    reflexivity.
  - rewrite PeriodString_bare. unfold HasDatePart, HasTimePart. split.
    + intros H. apply orb_false_iff in H as [H HT].
      repeat (apply orb_false_iff in H as [H ?]).
      repeat (apply orb_false_iff in HT as [HT ?]).
      repeat match goal with
      | E : nonzero _ = false |- _ => apply nonzero_false in E
      end.
      destruct p; cbn in *; subst; reflexivity.
    + intros ->. reflexivity.
Qed.

(** ** Normalize before printing *)

Lemma Normalize_nonneg_wf (w : WordSize) (p : Period) :
  wfPeriod w p -> nonNegPeriod p -> carriesFit w p ->
  wfPeriod w (Normalize w p) /\ nonNegPeriod (Normalize w p) /\
  Weeks (Normalize w p) = 0%Z.
Proof.
  intros Hwf Hnn Hfit.
  destruct (Normalize_in_ranges w p) as (HS & HM & HH & HMo & HW & HD & HY).
  pose proof (Normalize_nonneg_eq w p Hwf Hnn Hfit) as E. cbv zeta in E.
  assert (Hpos : nonNegPeriod (Normalize w p)).
  { rewrite E. destruct Hnn as (nY & nMo & nW & nD & nH & nM & nS).
    unfold nonNegPeriod. cbn [Years Months Weeks Days Hours Minutes Seconds].
    assert (0 <= Seconds p / 60)%Z by (apply Z.div_pos; lia).
    assert (0 <= (Seconds p / 60 + Minutes p) / 60)%Z by (apply Z.div_pos; lia).
    assert (0 <= ((Seconds p / 60 + Minutes p) / 60 + Hours p) / 24)%Z
      by (apply Z.div_pos; lia).
    assert (0 <= Months p / 12)%Z by (apply Z.div_pos; lia).
    repeat split; try lia; apply Z.mod_pos_bound; lia. }
  split; [|split; [exact Hpos|exact HW]].
  unfold wfPeriod. rewrite HW.
  split; [exact HY|]. split; [apply small_inRange; lia|].
  split; [apply small_inRange; lia|]. split; [exact HD|].
  split; [apply small_inRange; lia|].
  split; apply small_inRange; lia.
Qed.

(** X9: a period of non-negative fields whose carries fit in [int] is read
    back from the text of its normalization as that normalization: once
    normalized, a period has no weeks left to conflict with its other
    fields. *)
Theorem FromString_String_Normalize (w : WordSize) (p : Period) :
  wfPeriod w p -> nonNegPeriod p -> carriesFit w p ->
  FromString w (PeriodString (Normalize w p)) = Ok (Normalize w p).
Proof.
  intros Hwf Hnn Hfit.
  destruct (Normalize_nonneg_wf w p Hwf Hnn Hfit) as (Hwf' & Hnn' & HW).
  now apply FromString_PeriodString_noWeeks.
Qed.

Lemma FromString_String_Normalize_witness :
  FromString W64 (PeriodString (Normalize W64 testPeriod))
  = Ok (Normalize W64 testPeriod).
Proof.
  apply (FromString_String_Normalize W64 testPeriod);
    vm_compute; intuition discriminate.
Defined.
